(** * Smart Study Planner: the request handlers of [app.py]

    A shallow embedding of the Flask application [src/app.py]: the helpers
    on saved schedules, [format_hours], and the handler [home] for the
    route [/], followed by the properties the specification states about
    them.

    Modelling conventions.
    - A Python [float] is a [pyfloat]: not-a-number, an infinity, or a
      finite value carried as a rational.  Comparisons and the special
      values follow IEEE 754 as Python exposes them.  The arithmetic of
      [format_hours] and of the complete-task branch rounds every result
      to the nearest binary64 value, ties to even ([round64]), and
      overflows as Python does: to an infinity in float arithmetic, to
      [OverflowError] in the conversion of an int and in the division of
      two ints.  The sign of zero is not modelled.  [float_add] and
      [float_sub] carry a sum exactly: the one sum of the update-exam
      branch, of which only order properties are stated, and the
      difference [hours - int(hours)] of [format_hours], which is exact
      on every binary64 value ([fraction_exact]).
    - A Python [int] is a [Z].
    - A raised exception is an explicit outcome ([Raises]).
    - Of the template [HTML] the model keeps the values it is handed and
      the places where its evaluation raises
      ([render_template_string]).
    - The module [planner_ai] (estimator, exam translator, scheduler and
      the persistence functions) is not part of this file's source; its
      functions are the fields of the class [PlannerAI], and its
      [load_*]/[save_*] pairs read and write the components of a [store]. *)

From Stdlib Require Import ZArith QArith Qround Qabs Qpower Lqa Lia Ascii String.
From stdpp Require Import base option list strings pretty gmap.

Local Open Scope Z_scope.

(** ** Python values *)

Module Py.

(** The exceptions the handlers can end in; [UndefinedError] is the one
    of the template engine. *)
Inductive exn :=
  ValueError | TypeError | OverflowError | ZeroDivisionError | UndefinedError.

(** The outcome of evaluating an expression that may raise. *)
Inductive outcome (A : Type) :=
| Returns (a : A)
| Raises (e : exn).
Arguments Returns {A} a.
Arguments Raises {A} e.

Definition bind {A B} (c : outcome A) (k : A -> outcome B) : outcome B :=
  match c with
  | Returns a => k a
  | Raises e => Raises e
  end.

(** [float] values. *)
Inductive pyfloat :=
| NaN
| Inf (negative : bool)
| Fin (q : Q).

Definition of_int (z : Z) : pyfloat := Fin (inject_Z z).

Definition Qlt_bool (x y : Q) : bool :=
  match (x ?= y)%Q with Lt => true | _ => false end.

(** [a > b] on floats: false as soon as one side is not a number. *)
Definition float_gt (a b : pyfloat) : bool :=
  match a, b with
  | NaN, _ | _, NaN => false
  | Inf false, Inf false => false
  | Inf false, _ => true
  | Inf true, _ => false
  | Fin _, Inf true => true
  | Fin _, Inf false => false
  | Fin x, Fin y => Qlt_bool y x
  end.

(** [a >= b] on floats. *)
Definition float_ge (a b : pyfloat) : bool :=
  match a, b with
  | NaN, _ | _, NaN => false
  | Inf false, _ => true
  | Inf true, Inf true => true
  | Inf true, _ => false
  | Fin _, Inf true => true
  | Fin _, Inf false => false
  | Fin x, Fin y => Qle_bool y x
  end.

(** The built-in [max(a, b)]: keeps its first argument unless the second
    compares strictly greater. *)
Definition max_float (a b : pyfloat) : pyfloat :=
  if float_gt b a then b else a.

Definition max_int (a b : Z) : Z := if bool_decide (a < b) then b else a.

(** The built-in [min(a, b)]: keeps its first argument unless the second
    compares strictly smaller. *)
Definition min_int (a b : Z) : Z := if bool_decide (b < a) then b else a.

(** The built-in [max(l)] on a list of ints: a left-to-right scan from the
    first element; raises on the empty list. *)
Definition max_seq (l : list Z) : outcome Z :=
  match l with
  | [] => Raises ValueError
  | x :: l' => Returns (foldl max_int x l')
  end.

(** White space as [str.strip] and [str.isspace] see it, on ASCII. *)
Definition is_space (c : ascii) : bool :=
  let n := nat_of_ascii c in
  ((9 <=? n) && (n <=? 13) || (28 <=? n) && (n <=? 32))%nat.

Fixpoint lstrip (s : string) : string :=
  match s with
  | EmptyString => EmptyString
  | String c s' => if is_space c then lstrip s' else s
  end.

(** [s.strip()]. *)
Definition strip (s : string) : string :=
  String.rev (lstrip (String.rev (lstrip s))).

(** Truth value of a string: non-empty. *)
Definition truthy (s : string) : bool :=
  match s with EmptyString => false | _ => true end.

(** A sum of floats, carried without rounding. *)
Definition float_add (a b : pyfloat) : pyfloat :=
  match a, b with
  | NaN, _ | _, NaN => NaN
  | Inf s, Inf s' => if Bool.eqb s s' then Inf s else NaN
  | Inf s, Fin _ | Fin _, Inf s => Inf s
  | Fin x, Fin y => Fin (x + y)
  end.

Definition float_neg (a : pyfloat) : pyfloat :=
  match a with
  | NaN => NaN
  | Inf s => Inf (negb s)
  | Fin x => Fin (- x)
  end.

Definition float_sub (a b : pyfloat) : pyfloat := float_add a (float_neg b).

Definition sign_neg (x : Q) : bool := Qlt_bool x 0.

(** [int(x)] on a float: truncation towards zero; raises on the special
    values. *)
Definition int_of_float (a : pyfloat) : outcome Z :=
  match a with
  | NaN => Raises ValueError
  | Inf _ => Raises OverflowError
  | Fin x => Returns (Z.quot (Qnum x) (Z.pos (Qden x)))
  end.

(** Round half to even on a rational. *)
Definition round_half_even (x : Q) : Z :=
  let f := Qfloor x in
  match (x - inject_Z f ?= 1 # 2)%Q with
  | Lt => f
  | Gt => f + 1
  | Eq => if Z.even f then f else f + 1
  end.

(** [round(x)] with one argument: the nearest int, ties to even. *)
Definition round (a : pyfloat) : outcome Z :=
  match a with
  | NaN => Raises ValueError
  | Inf _ => Raises OverflowError
  | Fin x => Returns (round_half_even x)
  end.

(** *** Rounding to binary64 *)

Definition pow2 (p : Z) : Q := (2 ^ p)%Q.

(** The binary exponent of a non-zero [x]: the [e] with
    [2^e <= |x| < 2^(e+1)]. *)
Definition exponent (x : Q) : Z :=
  let a := Qabs x in
  let e := Z.log2 (Qnum a) - Z.log2 (Z.pos (Qden a)) in
  if Qle_bool (pow2 e) a then e else e - 1.

(** The multiple of the unit in the last place nearest to [x], ties to
    the even multiple: 53 significant bits, and the fixed unit [2^-1074]
    of the subnormal range. *)
Definition nearest64 (x : Q) : Q :=
  if Qeq_bool x 0 then 0%Q
  else
    let p := Z.max (exponent x - 52) (-1074) in
    (inject_Z (round_half_even (x * pow2 (- p))) * pow2 p)%Q.

(** The binary64 value of the real number [x]: an infinity once the
    rounded value reaches [2^1024]. *)
Definition round64 (x : Q) : pyfloat :=
  let v := nearest64 x in
  if Qle_bool (pow2 1024) (Qabs v) then Inf (sign_neg x) else Fin v.

(** [float(n)] for an int, also where an int meets a float in
    arithmetic. *)
Definition float_of_int (n : Z) : outcome pyfloat :=
  match round64 (inject_Z n) with
  | Fin v => Returns (Fin v)
  | _ => Raises OverflowError
  end.

(** [a / b] on two ints: the quotient, correctly rounded. *)
Definition int_true_div (a b : Z) : outcome pyfloat :=
  if bool_decide (b = 0) then Raises ZeroDivisionError
  else
    match round64 (inject_Z a / inject_Z b) with
    | Fin v => Returns (Fin v)
    | _ => Raises OverflowError
    end.

(** [a + b] on floats. *)
Definition float64_add (a b : pyfloat) : pyfloat :=
  match a, b with
  | NaN, _ | _, NaN => NaN
  | Inf s, Inf s' => if Bool.eqb s s' then Inf s else NaN
  | Inf s, Fin _ | Fin _, Inf s => Inf s
  | Fin x, Fin y => round64 (x + y)
  end.

(** [a * b] on floats. *)
Definition float64_mul (a b : pyfloat) : pyfloat :=
  match a, b with
  | NaN, _ | _, NaN => NaN
  | Inf s, Inf s' => Inf (xorb s s')
  | Inf s, Fin x | Fin x, Inf s =>
      if Qeq_bool x 0 then NaN else Inf (xorb s (sign_neg x))
  | Fin x, Fin y => round64 (x * y)
  end.

(** [a / b] on floats. *)
Definition float64_div (a b : pyfloat) : outcome pyfloat :=
  match a, b with
  | NaN, Fin y => if Qeq_bool y 0 then Raises ZeroDivisionError else Returns NaN
  | NaN, _ | _, NaN => Returns NaN
  | Inf _, Inf _ => Returns NaN
  | Inf s, Fin y =>
      if Qeq_bool y 0 then Raises ZeroDivisionError
      else Returns (Inf (xorb s (sign_neg y)))
  | Fin _, Inf _ => Returns (Fin 0)
  | Fin x, Fin y =>
      if Qeq_bool y 0 then Raises ZeroDivisionError
      else Returns (round64 (x / y))
  end.

(** [str(n)] for an int, as f-strings format it. *)
Definition str_int (n : Z) : string := pretty n.

End Py.

Import Py.

Declare Scope py_scope.
Delimit Scope py_scope with py.
Notation "x <- c ;; k" := (Py.bind c (fun x => k))
  (at level 100, c at next level, right associativity) : py_scope.

(** ** Records

    The dictionaries the application passes around, one record per shape,
    with the keys of the source as field names. *)

Module Datetime.
Record t := make
  { year : Z; month : Z; day : Z; hour : Z; minute : Z; second : Z }.

(** The value of [.date()]: the calendar day, without the time. *)
Definition date (d : t) : Z * Z * Z := (year d, month d, day d).

(** [str(n).zfill(w)] for a non-negative field. *)
Fixpoint zfill (w : nat) (s : string) : string :=
  match w with
  | O => s
  | S w' => if bool_decide (String.length s <= w')%nat then zfill w' ("0" +:+ s) else s
  end.

(** [d.strftime("%Y-%m-%d %H:%M:%S")]. *)
Definition strftime (d : t) : string :=
  zfill 4 (str_int (year d)) +:+ "-" +:+ zfill 2 (str_int (month d)) +:+ "-"
  +:+ zfill 2 (str_int (day d)) +:+ " " +:+ zfill 2 (str_int (hour d)) +:+ ":"
  +:+ zfill 2 (str_int (minute d)) +:+ ":" +:+ zfill 2 (str_int (second d)).
End Datetime.
Abbreviation datetime := Datetime.t.

Module Subject.
Record t := make
  { name : string; difficulty : Z; desired_grade : string; current_grade : string }.
End Subject.
Abbreviation subject := Subject.t.

Module Prefs.
Record t := make
  { daily_study_hours : pyfloat; hours_per_subject : pyfloat;
    available_study_time : pyfloat; num_subjects : Z }.
End Prefs.
Abbreviation prefs := Prefs.t.

Module Task.
Record t := make
  { id : Z; name : string; deadline : datetime; hours : pyfloat;
    priority : string; complexity : Z; past_hours : pyfloat;
    min_hours : pyfloat; matched_subject : option subject;
    completed : bool; actual_hours : option pyfloat;
    completion_date : option (Z * Z * Z) }.
End Task.
Abbreviation task := Task.t.

Module Exam.
Record t := make
  { id : Z; subject_name : string; exam_name : string; exam_date : datetime;
    desired_grade : string; confidence : Z; progress_hours : pyfloat;
    predicted_hours : pyfloat; completed : bool;
    actual_hours_spent : option pyfloat }.
End Exam.
Abbreviation exam := Exam.t.

(** The example handed to [retrain_model] when a task is completed. *)
Module Observation.
Record t := make
  { complexity : Z; past_hours : pyfloat; priority : Z; actual_hours : pyfloat }.
End Observation.
Abbreviation observation := Observation.t.

(** ** The interpreter and [planner_ai] *)

(** Conversions of the standard library applied to submitted text, and the
    wall clock: [now k] is the value of the [k]-th call of
    [datetime.now()]. *)
Class Runtime := {
  int_of_str : string -> outcome Z;
  float_of_str : string -> outcome pyfloat;
  strptime_ymd : string -> outcome datetime;
  now : nat -> datetime
}.

(** The functions [app.py] imports from [planner_ai].  [initial_model] is
    [train_model(generate_fake_data())], the value of the global
    [task_model] when the application starts.  The items of a schedule
    are [planner_ai]'s too: [item_hours it] is what the template reads as
    [it.hours]. *)
Class PlannerAI := {
  model : Type;
  exam_model : Type;
  schedule_item : Type;
  item_hours : schedule_item -> option pyfloat;
  initial_model : model;
  predict_time : model -> Z -> pyfloat -> Z -> option subject -> pyfloat;
  retrain_model : model -> observation -> model;
  build_exam_model : list subject -> exam_model;
  prepare_exam_tasks : list exam -> list subject -> exam_model -> list task;
  generate_schedule : list task -> option prefs -> list schedule_item
}.

Module Saved.
Record t `{PlannerAI} := make
  { id : Z; name : string; created_at : string; updated_at : string;
    items : list schedule_item }.
End Saved.
Abbreviation saved_schedule := Saved.t.

(** A request: the method, the query string and the submitted form. *)
Module Request.
Record t := make
  { method : string; args : gmap string string; form : gmap string string }.
End Request.
Abbreviation request := Request.t.

(** What a handler answers: a redirect to [home] with its query
    arguments, or the page with the values handed to the template. *)
Module Page.
Record t `{PlannerAI} := make
  { prefs : option prefs; subjects : list subject; exams : list exam;
    all_tasks : list task; schedule : option (list schedule_item);
    show_schedule : bool; saved_schedules : list saved_schedule;
    show_saved : bool; prefs_saved : bool; show_pref_form : bool;
    default_tab : string }.
End Page.
Abbreviation page := Page.t.

Inductive response `{PlannerAI} :=
| Redirect (tab : string) (show_saved : bool)
| Render (p : page)
| MethodNotAllowed.

(** The routes of the application. *)
Inductive route := Home | Generate | SaveSchedule | DeleteSchedule.

(** ** The state of the application

    The files behind [load_tasks]/[save_tasks], [load_exams]/[save_exams],
    [load_prefs]/[save_prefs], [load_subjects]/[save_subjects] and
    [saved_schedules.json], the global [task_model], and the number of
    clock readings made so far.  [schedules_file] is [None] when the file
    is missing or cannot be read. *)
Module Store.
Record t `{PlannerAI} := make
  { tasks_file : list task; exams_file : list exam;
    prefs_file : option prefs; subjects_file : list subject;
    schedules_file : option (list saved_schedule);
    task_model : model; clock : nat }.

Definition set_tasks `{PlannerAI} (ts : list task) (s : t) : t :=
  make _ ts (exams_file s) (prefs_file s) (subjects_file s) (schedules_file s)
    (task_model s) (clock s).

Definition set_exams `{PlannerAI} (es : list exam) (s : t) : t :=
  make _ (tasks_file s) es (prefs_file s) (subjects_file s) (schedules_file s)
    (task_model s) (clock s).

Definition set_prefs `{PlannerAI} (p : option prefs) (s : t) : t :=
  make _ (tasks_file s) (exams_file s) p (subjects_file s) (schedules_file s)
    (task_model s) (clock s).

Definition set_subjects `{PlannerAI} (l : list subject) (s : t) : t :=
  make _ (tasks_file s) (exams_file s) (prefs_file s) l (schedules_file s)
    (task_model s) (clock s).

Definition set_schedules `{PlannerAI} (l : option (list saved_schedule)) (s : t) : t :=
  make _ (tasks_file s) (exams_file s) (prefs_file s) (subjects_file s) l
    (task_model s) (clock s).

Definition set_model `{PlannerAI} (m : model) (s : t) : t :=
  make _ (tasks_file s) (exams_file s) (prefs_file s) (subjects_file s)
    (schedules_file s) m (clock s).

Definition set_clock `{PlannerAI} (k : nat) (s : t) : t :=
  make _ (tasks_file s) (exams_file s) (prefs_file s) (subjects_file s)
    (schedules_file s) (task_model s) k.

Definition tick `{PlannerAI} (s : t) : t := set_clock (S (clock s)) s.

(** The state of a fresh installation: no file written yet. *)
Definition initial `{PlannerAI} : t :=
  make _ [] [] None [] None initial_model 0%nat.
End Store.
Abbreviation store := Store.t.

(** ** [format_hours]

    [h] is the integral part of the float [hours], so [h] converts to a
    float exactly and the difference [hours - h] needs no rounding; the
    product and the quotient are rounded. *)

Definition format_hours (hours : option pyfloat) : outcome string :=
  match hours with
  | None => Returns "N/A"
  | Some hours =>
      (h <- int_of_float hours ;;
       q <- float64_div (float64_mul (float_sub hours (of_int h)) (of_int 60))
              (of_int 5) ;;
       r <- round q ;;
       let m := r * 5 in
       let '(h, m) := if bool_decide (m = 60) then (h + 1, 0) else (h, m) in
       Returns (str_int h +:+ " hours " +:+ str_int m +:+ " minutes"))%py
  end.

(** The text [format_hours] builds from the whole hours [h] and the
    rounded twelfths [r] of an hour. *)
Definition shown (h r : Z) : string :=
  let '(h, m) := if bool_decide (r * 5 = 60) then (h + 1, 0) else (h, r * 5) in
  str_int h +:+ " hours " +:+ str_int m +:+ " minutes".

(** The finite values of binary64: at most 53 significant bits over a
    unit no smaller than [2^-1074]. *)
Definition binary64 (x : Q) : Prop :=
  exists m p : Z, (x == inject_Z m * pow2 p)%Q /\ Z.abs m < 2 ^ 53 /\ -1074 <= p.

(** ** Handlers as state transformers *)

Declare Scope app_scope.
Delimit Scope app_scope with app.

Section App.
Context `{RT : Runtime} `{PA : PlannerAI}.

(** A computation reads and writes the [store] and may raise; what was
    written before an exception stays written. *)
Definition M (A : Type) : Type := store -> outcome A * store.

Definition ret {A} (a : A) : M A := fun s => (Returns a, s).

Definition lift {A} (o : outcome A) : M A := fun s => (o, s).

Definition mbind {A B} (c : M A) (k : A -> M B) : M B :=
  fun s =>
    match c s with
    | (Returns a, s') => k a s'
    | (Raises e, s') => (Raises e, s')
    end.

Notation "x <- c ;; k" := (mbind c (fun x => k))
  (at level 100, c at next level, right associativity) : app_scope.
Notation "c ;; k" := (mbind c (fun _ => k))
  (at level 100, right associativity) : app_scope.
Local Open Scope app_scope.

(** [for x in l: ...] where the body may replace [x]. *)
Fixpoint for_each {A B} (body : A -> M B) (l : list A) : M (list B) :=
  match l with
  | [] => ret []
  | x :: l' => y <- body x ;; ys <- for_each body l' ;; ret (y :: ys)
  end.

(** *** Persistence and globals

    Each [load_*] of [planner_ai] returns what the matching [save_*] was
    last given; [load_tasks] is handed the model and returns the stored
    records. *)

Definition load_tasks (_ : model) : M (list task) :=
  fun s => (Returns (Store.tasks_file s), s).

Definition save_tasks (ts : list task) : M unit :=
  fun s => (Returns tt, Store.set_tasks ts s).

Definition load_exams : M (list exam) :=
  fun s => (Returns (Store.exams_file s), s).

Definition save_exams (es : list exam) : M unit :=
  fun s => (Returns tt, Store.set_exams es s).

Definition load_prefs : M (option prefs) :=
  fun s => (Returns (Store.prefs_file s), s).

Definition save_prefs (p : prefs) : M unit :=
  fun s => (Returns tt, Store.set_prefs (Some p) s).

Definition load_subjects : M (list subject) :=
  fun s => (Returns (Store.subjects_file s), s).

Definition save_subjects (l : list subject) : M unit :=
  fun s => (Returns tt, Store.set_subjects l s).

(** Reading and assigning the global [task_model]. *)
Definition get_task_model : M model :=
  fun s => (Returns (Store.task_model s), s).

Definition set_task_model (m : model) : M unit :=
  fun s => (Returns tt, Store.set_model m s).

(** [datetime.now()]. *)
Definition datetime_now : M datetime :=
  fun s => (Returns (now (Store.clock s)), Store.tick s).

(** *** Saved schedules *)

Definition MAX_SAVED_SCHEDULES : nat := 5.

Definition load_saved_schedules : M (list saved_schedule) :=
  fun s => (Returns (default [] (Store.schedules_file s)), s).

Definition save_all_schedules (schedules : list saved_schedule) : M unit :=
  fun s => (Returns tt, Store.set_schedules (Some schedules) s).

Definition add_saved_schedule (name : string) (items : list schedule_item)
  : M (bool * string) :=
  schedules <- load_saved_schedules ;;
  if bool_decide (MAX_SAVED_SCHEDULES <= length schedules)%nat then
    ret (false, "You can only save up to 5 schedules.")
  else
    new_id <- (match schedules with
               | [] => ret 1
               | _ => m <- lift (max_seq (Saved.id <$> schedules)) ;; ret (m + 1)
               end) ;;
    created <- datetime_now ;;
    updated <- datetime_now ;;
    save_all_schedules
      (schedules ++
       [Saved.make _ new_id
          (if truthy (strip name) then name else "Schedule " +:+ str_int new_id)
          (Datetime.strftime created) (Datetime.strftime updated) items]) ;;
    ret (true, "Saved.").

Definition delete_saved_schedule (schedule_id : string) : M unit :=
  schedules <- load_saved_schedules ;;
  kept <- for_each
            (fun s => k <- lift (int_of_str schedule_id) ;;
                      ret (bool_decide (Saved.id s <> k), s))
            schedules ;;
  save_all_schedules (snd <$> filter (fun ks => fst ks = true) kept).

(** The schedule of the stored tasks and exams, as each route computes
    it. *)
Definition current_schedule : M (list schedule_item) :=
  prefs <- load_prefs ;;
  subjects <- load_subjects ;;
  m <- get_task_model ;;
  tasks <- load_tasks m ;;
  exams <- load_exams ;;
  let exam_model := build_exam_model subjects in
  let exam_prep := prepare_exam_tasks exams subjects exam_model in
  ret (generate_schedule (tasks ++ exam_prep) prefs).

Definition refresh_all_saved_schedules : M unit :=
  schedules <- load_saved_schedules ;;
  match schedules with
  | [] => ret tt
  | _ =>
      prefs <- load_prefs ;;
      subjects <- load_subjects ;;
      m <- get_task_model ;;
      tasks <- load_tasks m ;;
      exams <- load_exams ;;
      let exam_model := build_exam_model subjects in
      let exam_prep := prepare_exam_tasks exams subjects exam_model in
      let regenerated := generate_schedule (tasks ++ exam_prep) prefs in
      schedules <- for_each
        (fun s => t <- datetime_now ;;
                  ret (Saved.make _ (Saved.id s) (Saved.name s) (Saved.created_at s)
                         (Datetime.strftime t) regenerated))
        schedules ;;
      save_all_schedules schedules
  end.

(** *** Reading the form *)

Definition has_key (form : gmap string string) (key : string) : bool :=
  bool_decide (is_Some (form !! key)).

(** [request.form.get(key, default)] for text. *)
Definition form_get (form : gmap string string) (key dflt : string) : string :=
  default dflt (form !! key).

(** [int(request.form.get(key, default))]: the default is already an int. *)
Definition form_int (form : gmap string string) (key : string) (dflt : Z)
  : outcome Z :=
  match form !! key with
  | Some v => int_of_str v
  | None => Returns dflt
  end.

(** [float(request.form.get(key, default))]. *)
Definition form_float (form : gmap string string) (key : string) (dflt : pyfloat)
  : outcome pyfloat :=
  match form !! key with
  | Some v => float_of_str v
  | None => Returns dflt
  end.

(** [int(request.form.get(key))]: [int(None)] is a type error. *)
Definition form_id (form : gmap string string) (key : string) : outcome Z :=
  match form !! key with
  | Some v => int_of_str v
  | None => Raises TypeError
  end.

(** [{'high':3, 'medium':2, 'low':1}.get(priority, 2)]. *)
Definition priority_num (priority : string) : Z :=
  if bool_decide (priority = "high") then 3
  else if bool_decide (priority = "medium") then 2
  else if bool_decide (priority = "low") then 1
  else 2.

(** [try: datetime.strptime(text, "%Y-%m-%d") except Exception:
    datetime.now()]. *)
Definition parse_date_or_now (text : string) : M datetime :=
  match strptime_ymd text with
  | Returns d => ret d
  | Raises _ => datetime_now
  end.

(** *** The branches of [home] on a POST *)

Definition home_save_prefs (form : gmap string string) : M response :=
  num_subjects <- lift (form_int form "num_subjects" 1) ;;
  new_subjects <- for_each
    (fun i =>
       difficulty <- lift (form_int form ("difficulty_" +:+ str_int i) 5) ;;
       ret (Subject.make
              (form_get form ("subject_name_" +:+ str_int i) ("Subject " +:+ str_int i))
              difficulty
              (form_get form ("desired_grade_" +:+ str_int i) "B")
              (form_get form ("current_grade_" +:+ str_int i) "B")))
    (seqZ 1 num_subjects) ;;
  daily_study_hours <- lift (form_float form "daily_study_hours" (of_int 0)) ;;
  hours_per_subject <- lift (form_float form "hours_per_subject" (of_int 0)) ;;
  available_study_time <- lift (form_float form "available_study_time" (of_int 0)) ;;
  save_prefs (Prefs.make daily_study_hours hours_per_subject available_study_time
                num_subjects) ;;
  save_subjects new_subjects ;;
  refresh_all_saved_schedules ;;
  ret (Redirect "tasks" false).

Definition home_add_task (subjects : list subject) (form : gmap string string)
  : M response :=
  m <- get_task_model ;;
  stored <- load_tasks m ;;
  top <- lift (max_seq ((Task.id <$> stored) ++ [0])) ;;
  let next_id := top + 1 in
  let task := strip (form_get form "task" "") in
  let deadline := form_get form "deadline" "" in
  c <- lift (form_int form "complexity" 0) ;;
  let complexity := max_int 0 (min_int 10 c) in
  p <- lift (form_float form "past_hours" (of_int 0)) ;;
  let past_hours := max_float (Fin 0) p in
  h <- lift (form_float form "min_hours" (of_int 0)) ;;
  let min_hours := max_float (Fin 0) h in
  let priority := form_get form "priority" "medium" in
  let subject_name := form !! "subject_name" in
  let matched_subject :=
    List.find (fun s => bool_decide (Some (Subject.name s) = subject_name)) subjects in
  let predicted :=
    predict_time m complexity past_hours (priority_num priority) matched_subject in
  let predicted_hours := max_float min_hours predicted in
  deadline_dt <- parse_date_or_now deadline ;;
  let new_task :=
    Task.make next_id task deadline_dt predicted_hours priority complexity
      past_hours min_hours matched_subject false None None in
  m <- get_task_model ;;
  stored <- load_tasks m ;;
  save_tasks (stored ++ [new_task]) ;;
  refresh_all_saved_schedules ;;
  ret (Redirect "tasks" false).

(** The hours the complete-task branch records for submitted whole hours
    and minutes: [round(minutes / 5) * 5], sixty of them carried over,
    then [hours + rounded_minutes / 60]. *)
Definition actual_of (hours minutes : Z) : outcome pyfloat :=
  (fifths <- int_true_div minutes 5 ;;
   r <- round fifths ;;
   let rounded_minutes := r * 5 in
   let '(hours, rounded_minutes) :=
     if bool_decide (rounded_minutes = 60) then (hours + 1, 0)
     else (hours, rounded_minutes) in
   part <- int_true_div rounded_minutes 60 ;;
   whole <- float_of_int hours ;;
   Returns (float64_add whole part))%py.

Definition home_complete_task (form : gmap string string) : M response :=
  task_id <- lift (form_id form "complete_task_id") ;;
  hours <- lift (form_int form "actual_hours" 0) ;;
  minutes <- lift (form_int form "actual_minutes" 0) ;;
  actual_hours <- lift (actual_of hours minutes) ;;
  m <- get_task_model ;;
  full <- load_tasks m ;;
  full <- for_each
    (fun t =>
       if bool_decide (Task.id t = task_id) then
         today <- datetime_now ;;
         let pr_num := priority_num (Task.priority t) in
         m <- get_task_model ;;
         set_task_model
           (retrain_model m
              (Observation.make (Task.complexity t) (Task.past_hours t) pr_num
                 actual_hours)) ;;
         ret (Task.make (Task.id t) (Task.name t) (Task.deadline t) (Task.hours t)
                (Task.priority t) (Task.complexity t) (Task.past_hours t)
                (Task.min_hours t) (Task.matched_subject t)
                true (Some actual_hours) (Some (Datetime.date today)))
       else ret t)
    full ;;
  save_tasks full ;;
  refresh_all_saved_schedules ;;
  ret (Redirect "tasks" false).

Definition home_add_exam (form : gmap string string) : M response :=
  exams_list <- load_exams ;;
  top <- lift (max_seq ((Exam.id <$> exams_list) ++ [0])) ;;
  let next_eid := top + 1 in
  let exam_name := strip (form_get form "exam_name" "") in
  let subj_name := form_get form "exam_subject" "" in
  let exam_date := form_get form "exam_date" "" in
  let desired := form_get form "exam_desired" "B" in
  confidence <- lift (form_int form "exam_confidence" 3) ;;
  p <- lift (form_float form "exam_progress" (Fin 0)) ;;
  let progress := max_float (Fin 0) p in
  exam_dt <- parse_date_or_now exam_date ;;
  save_exams
    (exams_list ++
     [Exam.make next_eid subj_name exam_name exam_dt desired confidence progress
        (Fin 0) false None]) ;;
  refresh_all_saved_schedules ;;
  ret (Redirect "exams" false).

Definition home_update_exam (form : gmap string string) : M response :=
  eid <- lift (form_id form "update_exam_id") ;;
  d <- lift (form_float form "add_progress_hours" (Fin 0)) ;;
  let add_p := max_float (Fin 0) d in
  exs <- load_exams ;;
  exs <- for_each
    (fun e =>
       if bool_decide (Exam.id e = eid) && negb (Exam.completed e) then
         ret (Exam.make (Exam.id e) (Exam.subject_name e) (Exam.exam_name e)
                (Exam.exam_date e) (Exam.desired_grade e) (Exam.confidence e)
                (float_add (Exam.progress_hours e) add_p)
                (Exam.predicted_hours e) (Exam.completed e)
                (Exam.actual_hours_spent e))
       else ret e)
    exs ;;
  save_exams exs ;;
  refresh_all_saved_schedules ;;
  ret (Redirect "exams" false).

Definition home_complete_exam (form : gmap string string) : M response :=
  eid <- lift (form_id form "complete_exam_id") ;;
  a <- lift (form_float form "exam_actual_hours" (Fin 0)) ;;
  let actual := max_float (Fin 0) a in
  exs <- load_exams ;;
  exs <- for_each
    (fun e =>
       if bool_decide (Exam.id e = eid) then
         ret (Exam.make (Exam.id e) (Exam.subject_name e) (Exam.exam_name e)
                (Exam.exam_date e) (Exam.desired_grade e) (Exam.confidence e)
                (Exam.progress_hours e) (Exam.predicted_hours e)
                true (Some actual))
       else ret e)
    exs ;;
  save_exams exs ;;
  refresh_all_saved_schedules ;;
  ret (Redirect "exams" false).

(** *** The routes *)

Definition open_tasks (prefs : option prefs) : M (list task) :=
  match prefs with
  | Some _ =>
      m <- get_task_model ;;
      stored <- load_tasks m ;;
      ret (List.filter (fun t => negb (Task.completed t)) stored)
  | None => ret []
  end.

(** *** The template

    [render_template_string(HTML, ...)] evaluates the template on the
    values of the page.  The model keeps the places where the evaluation
    raises, in the order of the template:
    - in the preferences form, shown without stored preferences or on
      request, [subjects[i-1].name] for [i] in
      [range(1, prefs.num_subjects + 1)], where a subject that is not
      there is undefined and has no attribute;
    - in the table of the generated schedule, [format_hours(item.hours)];
    - in the list of the saved schedules, [{% for it in s.items %}] on
      the first of them: [s] is a dict, so [s.items] is its method
      [items], which is not iterable. *)

Fixpoint each {A} (body : A -> outcome unit) (l : list A) : outcome unit :=
  match l with
  | [] => Returns tt
  | x :: l' => (_ <- body x ;; each body l')%py
  end.

Definition preferences_form (p : page) : outcome unit :=
  match Page.prefs p, Page.subjects p with
  | Some prefs, _ :: _ =>
      each (fun i => match Page.subjects p !! Z.to_nat (i - 1) with
                     | Some _ => Returns tt
                     | None => Raises UndefinedError
                     end)
        (seqZ 1 (Prefs.num_subjects prefs))
  | _, _ => Returns tt
  end.

Definition schedule_table (p : page) : outcome unit :=
  match Page.schedule p with
  | Some items =>
      if Page.show_schedule p then
        each (fun item => (_ <- format_hours (item_hours item) ;; Returns tt)%py) items
      else Returns tt
  | None => Returns tt
  end.

Definition saved_list (p : page) : outcome unit :=
  if Page.show_saved p then
    match Page.saved_schedules p with
    | [] => Returns tt
    | _ :: _ => Raises TypeError
    end
  else Returns tt.

Definition render_template_string (p : page) : outcome response :=
  (_ <- (if negb (bool_decide (is_Some (Page.prefs p))) || Page.show_pref_form p
         then preferences_form p
         else (_ <- schedule_table p ;; saved_list p)) ;;
   Returns (Render p))%py.

Definition render_home (req : request) (prefs : option prefs)
    (subjects : list subject) (exams : list exam) (all_tasks : list task)
    (show_pref_form : bool) : M response :=
  let show_saved :=
    bool_decide (form_get (Request.args req) "show_saved" "0" = "1") in
  saved <- load_saved_schedules ;;
  lift (render_template_string
          (Page.make _ prefs subjects exams all_tasks None false saved
             show_saved false show_pref_form
             (form_get (Request.args req) "tab" "tasks"))).

(** [@app.route('/', methods=['GET', 'POST'])]. *)
Definition home (req : request) : M response :=
  prefs <- load_prefs ;;
  subjects <- load_subjects ;;
  exams <- load_exams ;;
  all_tasks <- open_tasks prefs ;;
  saved_schedules <- load_saved_schedules ;;
  let form := Request.form req in
  if bool_decide (Request.method req = "POST") then
    if has_key form "save_prefs" then home_save_prefs form
    else if has_key form "edit_prefs" then
      render_home req prefs subjects exams all_tasks true
    else if has_key form "add_task" then home_add_task subjects form
    else if has_key form "complete_task_id" then home_complete_task form
    else if has_key form "add_exam" then home_add_exam form
    else if has_key form "update_exam_id" then home_update_exam form
    else if has_key form "complete_exam_id" then home_complete_exam form
    else render_home req prefs subjects exams all_tasks false
  else render_home req prefs subjects exams all_tasks false.

(** [@app.route('/generate', methods=['POST'])]. *)
Definition generate : M response :=
  prefs <- load_prefs ;;
  subjects <- load_subjects ;;
  m <- get_task_model ;;
  tasks <- load_tasks m ;;
  exams <- load_exams ;;
  let exam_model := build_exam_model subjects in
  let exam_prep_tasks := prepare_exam_tasks exams subjects exam_model in
  let schedule := generate_schedule (tasks ++ exam_prep_tasks) prefs in
  saved <- load_saved_schedules ;;
  lift (render_template_string
          (Page.make _ prefs subjects exams
             (List.filter (fun t => negb (Task.completed t)) tasks)
             (Some schedule) true saved false false false "tasks")).

(** [@app.route('/save_schedule', methods=['POST'])]. *)
Definition save_schedule (req : request) : M response :=
  current <- current_schedule ;;
  let name := strip (form_get (Request.form req) "schedule_name" "") in
  add_saved_schedule (if truthy name then name else "Saved Schedule") current ;;
  ret (Redirect "tasks" true).

(** [@app.route('/delete_schedule', methods=['POST'])]. *)
Definition delete_schedule (req : request) : M response :=
  match Request.form req !! "schedule_id" with
  | Some schedule_id =>
      (if truthy schedule_id then delete_saved_schedule schedule_id else ret tt) ;;
      ret (Redirect "tasks" true)
  | None => ret (Redirect "tasks" true)
  end.

(** One request served by the application.  A route answers the methods
    it lists, and [HEAD] where it lists [GET]. *)
Definition serve (r : route) (req : request) : M response :=
  let post := bool_decide (Request.method req = "POST") in
  let get := bool_decide (Request.method req = "GET")
             || bool_decide (Request.method req = "HEAD") in
  match r with
  | Home => if post || get then home req else ret MethodNotAllowed
  | Generate => if post then generate else ret MethodNotAllowed
  | SaveSchedule => if post then save_schedule req else ret MethodNotAllowed
  | DeleteSchedule => if post then delete_schedule req else ret MethodNotAllowed
  end.

(** The store after a sequence of requests, served one after the other. *)
Fixpoint serve_all (reqs : list (route * request)) (s : store) : store :=
  match reqs with
  | [] => s
  | (r, req) :: reqs' => serve_all reqs' (snd (serve r req s))
  end.

(** *** Kinds of request

    A POST to [/] is served by the first branch of [home] whose key the
    form holds: [posts req key earlier] says that it holds [key] and none
    of the keys tested before it. *)

Definition posts (req : request) (key : string) (earlier : list string) : Prop :=
  Request.method req = "POST" /\
  has_key (Request.form req) key = true /\
  Forall (fun k => has_key (Request.form req) k = false) earlier.

Definition add_task_request (req : request) : Prop :=
  posts req "add_task" ["save_prefs"; "edit_prefs"].

Definition complete_task_request (req : request) : Prop :=
  posts req "complete_task_id" ["save_prefs"; "edit_prefs"; "add_task"].

Definition add_exam_request (req : request) : Prop :=
  posts req "add_exam" ["save_prefs"; "edit_prefs"; "add_task"; "complete_task_id"].

Definition update_exam_request (req : request) : Prop :=
  posts req "update_exam_id"
    ["save_prefs"; "edit_prefs"; "add_task"; "complete_task_id"; "add_exam"].

Definition complete_exam_request (req : request) : Prop :=
  posts req "complete_exam_id"
    ["save_prefs"; "edit_prefs"; "add_task"; "complete_task_id"; "add_exam";
     "update_exam_id"].

End App.

(** ** Notions used in the statements *)

Section Notions.
Context `{RT : Runtime} `{PA : PlannerAI}.

(** A computation keeps a component [pi] of the store. *)
Definition keeps {X A} (pi : store -> X) (c : M A) : Prop :=
  forall s, pi (snd (c s)) = pi s.

(** The schedule [generate_schedule] gives for the stored data. *)
Definition regenerated (s : store) : list schedule_item :=
  let subjects := Store.subjects_file s in
  generate_schedule
    (Store.tasks_file s
     ++ prepare_exam_tasks (Store.exams_file s) subjects (build_exam_model subjects))
    (Store.prefs_file s).

(** What the loop of the refresh makes of the schedule at position [i]. *)
Definition restamped (s : store) (i : nat) (sch : saved_schedule) : saved_schedule :=
  Saved.make _ (Saved.id sch) (Saved.name sch) (Saved.created_at sch)
    (Datetime.strftime (now (Store.clock s + i))) (regenerated s).

(** The greatest of the ids and [0]. *)
Definition highest (ids : list Z) : Z := foldr Z.max 0 ids.

(** The record the add-task branch builds from converted feature values. *)
Definition added_task (subjects : list subject) (form : gmap string string)
    (s : store) (c : Z) (p h : pyfloat) : task :=
  let complexity := max_int 0 (min_int 10 c) in
  let past_hours := max_float (Fin 0) p in
  let min_hours := max_float (Fin 0) h in
  let priority := form_get form "priority" "medium" in
  let matched_subject :=
    List.find (fun x => bool_decide (Some (Subject.name x) = form !! "subject_name"))
      subjects in
  Task.make (highest (Task.id <$> Store.tasks_file s) + 1)
    (strip (form_get form "task" ""))
    (match strptime_ymd (form_get form "deadline" "") with
     | Returns d => d
     | Raises _ => now (Store.clock s)
     end)
    (max_float min_hours
       (predict_time (Store.task_model s) complexity past_hours
          (priority_num priority) matched_subject))
    priority complexity past_hours min_hours matched_subject false None None.

(** The record the add-exam branch builds from converted values. *)
Definition added_exam (form : gmap string string) (s : store) (confidence : Z)
    (p : pyfloat) : exam :=
  Exam.make (highest (Exam.id <$> Store.exams_file s) + 1)
    (form_get form "exam_subject" "") (strip (form_get form "exam_name" ""))
    (match strptime_ymd (form_get form "exam_date" "") with
     | Returns d => d
     | Raises _ => now (Store.clock s)
     end)
    (form_get form "exam_desired" "B") confidence (max_float (Fin 0) p)
    (Fin 0) false None.

(** What the update loop makes of one exam. *)
Definition add_progress (eid : Z) (add_p : pyfloat) (e : exam) : exam :=
  if bool_decide (Exam.id e = eid) && negb (Exam.completed e) then
    Exam.make (Exam.id e) (Exam.subject_name e) (Exam.exam_name e)
      (Exam.exam_date e) (Exam.desired_grade e) (Exam.confidence e)
      (float_add (Exam.progress_hours e) add_p)
      (Exam.predicted_hours e) (Exam.completed e) (Exam.actual_hours_spent e)
  else e.

(** What the completion loop makes of one exam. *)
Definition mark_exam (eid : Z) (actual : pyfloat) (e : exam) : exam :=
  if bool_decide (Exam.id e = eid) then
    Exam.make (Exam.id e) (Exam.subject_name e) (Exam.exam_name e)
      (Exam.exam_date e) (Exam.desired_grade e) (Exam.confidence e)
      (Exam.progress_hours e) (Exam.predicted_hours e) true (Some actual)
  else e.

(** The example a completed task contributes to the estimator. *)
Definition observed (actual : pyfloat) (t : task) : observation :=
  Observation.make (Task.complexity t) (Task.past_hours t)
    (priority_num (Task.priority t)) actual.

(** The model after one retraining per listed task, in order. *)
Definition retrained (actual : pyfloat) (m : model) (l : list task) : model :=
  foldl (fun m t => retrain_model m (observed actual t)) m l.

(** A computation that cannot raise. *)
Definition never_raises {A} (c : M A) : Prop :=
  forall s, exists a, fst (c s) = Returns a.

(** A computation that, when it raises, has written nothing. *)
Definition atomic {A} (c : M A) : Prop :=
  forall s e, fst (c s) = Raises e -> snd (c s) = s.

(** The saved schedules as [load_saved_schedules] returns them. *)
Definition stored_schedules (s : store) : list saved_schedule :=
  default [] (Store.schedules_file s).

(** What the completion loop makes of a task it marks. *)
Definition mark_task (actual : pyfloat) (today : Z * Z * Z) (t : task) : task :=
  Task.make (Task.id t) (Task.name t) (Task.deadline t) (Task.hours t)
    (Task.priority t) (Task.complexity t) (Task.past_hours t)
    (Task.min_hours t) (Task.matched_subject t)
    true (Some actual) (Some today).

(** A task before and after the completion loop for the id [tid]: marked,
    with the day of a clock reading made from [from] on, when it carries
    the id, and as before otherwise. *)
Definition task_marked (tid : Z) (actual : pyfloat) (from : nat) (t t' : task)
  : Prop :=
  if decide (Task.id t = tid)
  then exists k, (from <= k)%nat /\ t' = mark_task actual (Datetime.date (now k)) t
  else t' = t.

(** A request that [home] answers with a page: any method but POST, or a
    POST that asks for the preferences form, or a POST holding none of
    the keys [home] looks for. *)
Definition passive (req : request) : Prop :=
  Request.method req <> "POST" \/
  (has_key (Request.form req) "save_prefs" = false /\
   (has_key (Request.form req) "edit_prefs" = true \/
    Forall (fun k => has_key (Request.form req) k = false)
      ["add_task"; "complete_task_id"; "add_exam"; "update_exam_id";
       "complete_exam_id"])).

(** The request asks [home] for the preferences form. *)
Definition editing (req : request) : bool :=
  bool_decide (Request.method req = "POST") && has_key (Request.form req) "edit_prefs".

(** The request asks [home] to list the saved schedules. *)
Definition asks_saved (req : request) : bool :=
  bool_decide (form_get (Request.args req) "show_saved" "0" = "1").

(** The request a browser makes on [redirect(url_for('home', tab=...))],
    with [show_saved=1] where the redirect carries it. *)
Definition followed (tab : string) (show_saved : bool) : request :=
  Request.make "GET"
    (if show_saved then {[ "tab" := tab; "show_saved" := "1" ]}
     else {[ "tab" := tab ]})
    ∅.

(** Every page a handler returns satisfies [P]. *)
Definition pages_satisfy (P : page -> Prop) (c : M response) : Prop :=
  forall s s' p, c s = (Returns (Render p), s') -> P p.

(** An item of a schedule whose hours [format_hours] can show. *)
Definition shows_hours (item : schedule_item) : Prop :=
  exists text, format_hours (item_hours item) = Returns text.

(** What a stored task always satisfies: features within their bounds,
    predicted hours at least the minimum, and the time actually spent and
    the day of completion recorded exactly when it is completed. *)
Definition task_well_formed (t : task) : Prop :=
  0 <= Task.complexity t <= 10 /\
  float_ge (Task.past_hours t) (Fin 0) = true /\
  float_ge (Task.min_hours t) (Fin 0) = true /\
  float_ge (Task.hours t) (Task.min_hours t) = true /\
  (Task.completed t = false ->
   Task.actual_hours t = None /\ Task.completion_date t = None) /\
  (Task.completed t = true ->
   is_Some (Task.actual_hours t) /\ is_Some (Task.completion_date t)).

(** What a stored exam always satisfies: progress that is a non-negative
    number, predicted hours as written at creation, and the hours
    actually spent recorded, as a non-negative number, exactly when it is
    completed. *)
Definition exam_well_formed (e : exam) : Prop :=
  float_ge (Exam.progress_hours e) (Fin 0) = true /\
  Exam.predicted_hours e = Fin 0 /\
  (Exam.completed e = false -> Exam.actual_hours_spent e = None) /\
  (Exam.completed e = true ->
   exists a, Exam.actual_hours_spent e = Some a /\ float_ge a (Fin 0) = true).

(** The subject the preferences form describes at number [i]. *)
Definition submitted_subject (form : gmap string string) (i difficulty : Z)
  : subject :=
  Subject.make
    (form_get form ("subject_name_" +:+ str_int i) ("Subject " +:+ str_int i))
    difficulty
    (form_get form ("desired_grade_" +:+ str_int i) "B")
    (form_get form ("current_grade_" +:+ str_int i) "B").

(** A POST to [/] that saves the preferences. *)
Definition save_prefs_request (req : request) : Prop :=
  posts req "save_prefs" [].

(** A computation keeps a property of the state. *)
Definition preserves {A} (Q : store -> Prop) (c : M A) : Prop :=
  forall s, Q s -> Q (snd (c s)).

(** A string of white space only. *)
Fixpoint blank (s : string) : bool :=
  match s with
  | EmptyString => true
  | String c s' => is_space c && blank s'
  end.

(** Every saved schedule holds the schedule generated from the stored
    data. *)
Definition in_sync (s : store) : Prop :=
  Forall (fun sch => Saved.items sch = regenerated s) (stored_schedules s).

(** A handler after which, when it answers with a redirect, the saved
    schedules are in sync. *)
Definition ends_in_sync (c : M response) : Prop :=
  forall s tab shown s', c s = (Returns (Redirect tab shown), s') -> in_sync s'.

End Notions.

(** ** A concrete interpreter and planner

    Instances on which the handlers run by computation: conversions for
    plain decimal text (anything else is rejected), a clock that advances
    one second per reading, and a planner whose model is the number of
    examples it was retrained on. *)

Module Plain.

Fixpoint digits (acc : Z) (s : string) : option Z :=
  match s with
  | EmptyString => Some acc
  | String c s' =>
      match Ascii.is_nat c with
      | Some d => digits (10 * acc + Z.of_nat d) s'
      | None => None
      end
  end.

Definition unsigned (s : string) : option Z :=
  match s with
  | EmptyString => None
  | _ => digits 0 s
  end.

Definition plain_int (s : string) : outcome Z :=
  match s with
  | String "-" s' =>
      match unsigned s' with Some n => Returns (- n) | None => Raises ValueError end
  | _ =>
      match unsigned s with Some n => Returns n | None => Raises ValueError end
  end.

(** The text before and after the first ["."], if there is one. *)
Fixpoint split_dot (s : string) : string * option string :=
  match s with
  | EmptyString => (EmptyString, None)
  | String "." s' => (EmptyString, Some s')
  | String c s' => let '(a, b) := split_dot s' in (String c a, b)
  end.

Definition unsigned_float (s : string) : option Q :=
  match split_dot s with
  | (a, None) => inject_Z <$> unsigned a
  | (a, Some b) =>
      match unsigned a, unsigned b with
      | Some x, Some y =>
          let scale := Pos.pow 10 (Pos.of_nat (String.length b)) in
          Some ((x * Z.pos scale + y) # scale)
      | _, _ => None
      end
  end.

Definition plain_float (s : string) : outcome pyfloat :=
  if bool_decide (s = "nan") then Returns NaN
  else if bool_decide (s = "inf") then Returns (Inf false)
  else if bool_decide (s = "-inf") then Returns (Inf true)
  else
    match s with
    | String "-" s' =>
        match unsigned_float s' with
        | Some q => Returns (Fin (- q))
        | None => Raises ValueError
        end
    | _ =>
        match unsigned_float s with
        | Some q => Returns (Fin q)
        | None => Raises ValueError
        end
    end.

Definition leap (y : Z) : bool :=
  (y mod 4 =? 0) && (negb (y mod 100 =? 0) || (y mod 400 =? 0)).

Definition days_in_month (y m : Z) : Z :=
  if m =? 2 then (if leap y then 29 else 28)
  else if (m =? 4) || (m =? 6) || (m =? 9) || (m =? 11) then 30
  else 31.

(** ["YYYY-MM-DD"] naming a day of the calendar. *)
Definition plain_strptime (s : string) : outcome datetime :=
  match unsigned (String.substring 0 4 s), unsigned (String.substring 5 2 s),
        unsigned (String.substring 8 2 s) with
  | Some y, Some m, Some d =>
      if bool_decide (String.length s = 10%nat)
         && bool_decide (String.substring 4 1 s = "-")
         && bool_decide (String.substring 7 1 s = "-")
         && (1 <=? y) && (1 <=? m) && (m <=? 12) && (1 <=? d)
         && (d <=? days_in_month y m)
      then Returns (Datetime.make y m d 0 0 0)
      else Raises ValueError
  | _, _, _ => Raises ValueError
  end.

Definition plain_now (k : nat) : datetime :=
  let k := Z.of_nat k in
  Datetime.make 2025 1 1 ((k / 3600) mod 24) ((k / 60) mod 60) (k mod 60).

#[export] Instance runtime : Runtime :=
  {| int_of_str := plain_int;
     float_of_str := plain_float;
     strptime_ymd := plain_strptime;
     now := plain_now |}.

(** A planner that predicts the complexity as the number of hours, has no
    exam preparation, schedules every open task for its predicted hours,
    and counts the examples it is retrained on. *)
#[export] Instance planner : PlannerAI :=
  {| model := nat;
     exam_model := unit;
     schedule_item := string * pyfloat;
     item_hours := fun it => Some (snd it);
     initial_model := 0%nat;
     predict_time := fun _ complexity _ _ _ => of_int complexity;
     retrain_model := fun m _ => S m;
     build_exam_model := fun _ => tt;
     prepare_exam_tasks := fun _ _ _ => [];
     generate_schedule := fun tasks _ =>
       (fun t => (Task.name t, Task.hours t))
         <$> List.filter (fun t => negb (Task.completed t)) tasks |}.

(** A POST request to [/] with the given form. *)
Definition post (fields : list (string * string)) : request :=
  Request.make "POST" ∅ (list_to_map fields).

End Plain.

(** ** Sample requests

    A session on a fresh installation, run on the concrete interpreter
    and planner. *)

Module Scenario.
Import Plain.

(** A task with features out of range and a deadline that is no date. *)
Definition essay : request :=
  post [("add_task", "Add Task"); ("task", " essay "); ("deadline", "soon");
        ("complexity", "15"); ("past_hours", "-2"); ("min_hours", "20.5");
        ("priority", "high")].

(** The completion form for task 1. *)
Definition finish : request :=
  post [("complete_task_id", "1"); ("actual_hours", "2"); ("actual_minutes", "58")].

(** An exam whose date names no day of the calendar. *)
Definition algebra : request :=
  post [("add_exam", "Add Exam"); ("exam_name", "Algebra"); ("exam_subject", "Maths");
        ("exam_date", "2025-13-40"); ("exam_desired", "A or above");
        ("exam_confidence", "2"); ("exam_progress", "1.5")].

Definition study : request :=
  post [("update_exam_id", "1"); ("add_progress_hours", "2.5")].

Definition sit : request :=
  post [("complete_exam_id", "1"); ("exam_actual_hours", "12")].

Definition keep (name : string) : request :=
  post [("schedule_name", name)].

(** One task stored, then completed. *)
Definition essay_done : store :=
  serve_all [(Home, essay); (Home, finish)] Store.initial.

(** One exam stored, then sat. *)
Definition algebra_sat : store :=
  serve_all [(Home, algebra); (Home, sit)] Store.initial.

(** One open task and two saved schedules. *)
Definition two_saved : store :=
  serve_all [(Home, essay); (SaveSchedule, keep "week 1"); (SaveSchedule, keep "")]
    Store.initial.

(** Five saved schedules. *)
Definition five_saved : store :=
  serve_all
    [(Home, essay); (SaveSchedule, keep "a"); (SaveSchedule, keep "b");
     (SaveSchedule, keep "c"); (SaveSchedule, keep "d"); (SaveSchedule, keep "e")]
    Store.initial.

(** A task whose complexity is no number. *)
Definition garbled : request :=
  post [("add_task", "Add Task"); ("task", "notes"); ("complexity", "high")].

(** A visit of the home page. *)
Definition look : request := Request.make "GET" ∅ ∅.

(** Preferences for two subjects, the second one unnamed. *)
Definition profile : request :=
  post [("save_prefs", "Next"); ("num_subjects", "2");
        ("subject_name_1", "Maths"); ("difficulty_1", "7"); ("difficulty_2", "12");
        ("daily_study_hours", "4"); ("hours_per_subject", "-1");
        ("available_study_time", "6.5")].

Definition drop (schedule_id : string) : request :=
  post [("schedule_id", schedule_id)].

(** One exam stored. *)
Definition algebra_added : store :=
  serve_all [(Home, algebra)] Store.initial.

(** One open task stored. *)
Definition essay_added : store :=
  serve_all [(Home, essay)] Store.initial.

(** Preferences stored. *)
Definition profiled : store :=
  serve_all [(Home, profile)] Store.initial.

(** Preferences and one saved schedule stored. *)
Definition profiled_saved : store :=
  serve_all [(Home, profile); (SaveSchedule, keep "week 1")] Store.initial.

End Scenario.

(** * Properties *)

(** ** Arithmetic of the float model *)

Lemma trunc_nonneg (q : Q) :
  (0 <= q)%Q -> Z.quot (Qnum q) (Z.pos (Qden q)) = Qfloor q.
Proof.
  destruct q as [n d]; unfold Qle; simpl; intros Hq.
  apply Z.quot_div_nonneg; lia.
Qed.

Lemma floor_bounds (x : Q) :
  (inject_Z (Qfloor x) <= x /\ x < inject_Z (Qfloor x) + 1)%Q.
Proof.
  split; [apply Qfloor_le|].
  pose proof (Qlt_floor x) as H. rewrite inject_Z_plus in H. exact H.
Qed.

Lemma round_half_even_near (x : Q) :
  (x - (1 # 2) <= inject_Z (round_half_even x) <= x + (1 # 2))%Q.
Proof.
  unfold round_half_even.
  destruct (floor_bounds x) as [Hlo Hhi].
  destruct (Qcompare_spec (x - inject_Z (Qfloor x)) (1 # 2)) as [He|Hl|Hg];
    [destruct (Z.even (Qfloor x))|..];
    rewrite ?inject_Z_plus; change (inject_Z 1) with 1%Q; lra.
Qed.

Lemma round_half_even_range (x : Q) (n : Z) :
  (0 <= x)%Q -> (x < inject_Z n)%Q -> 0 <= round_half_even x <= n.
Proof.
  intros H0 Hn.
  assert (Hf : 0 <= Qfloor x < n).
  { split.
    - change 0 with (Qfloor 0). now apply Qfloor_resp_le.
    - destruct (floor_bounds x) as [Hlo _].
      rewrite Zlt_Qlt. lra. }
  unfold round_half_even.
  destruct (x - inject_Z (Qfloor x) ?= 1 # 2)%Q; [destruct (Z.even _)|..]; lia.
Qed.

Lemma Qlt_bool_iff (x y : Q) : Qlt_bool x y = true <-> (x < y)%Q.
Proof.
  unfold Qlt_bool. rewrite Qlt_alt.
  destruct (x ?= y)%Q; split; congruence.
Qed.

Lemma float_gt_ge (a b : pyfloat) : float_gt a b = true -> float_ge a b = true.
Proof.
  destruct a as [|[]|x], b as [|[]|y]; simpl; try congruence.
  rewrite Qlt_bool_iff, Qle_bool_iff. apply Qlt_le_weak.
Qed.

Lemma float_gt_not_nan (a b : pyfloat) : float_gt a b = true -> a <> NaN.
Proof. destruct a; simpl; congruence. Qed.


Lemma float_ge_refl (a : pyfloat) : a <> NaN -> float_ge a a = true.
Proof.
  destruct a as [|[]|x]; simpl; try congruence.
  intros _. apply Qle_bool_iff, Qle_refl.
Qed.

(** [max(a, b)] is at least [a], whatever [b] is. *)
Lemma max_float_ge_l (a b : pyfloat) :
  a <> NaN -> float_ge (max_float a b) a = true.
Proof.
  intros Ha. unfold max_float.
  destruct (float_gt b a) eqn:E.
  - now apply float_gt_ge.
  - now apply float_ge_refl.
Qed.

Lemma max_float_not_nan (a b : pyfloat) : a <> NaN -> max_float a b <> NaN.
Proof.
  intros Ha. unfold max_float.
  destruct (float_gt b a) eqn:E; [|exact Ha].
  now apply float_gt_not_nan in E.
Qed.

(** [max(0.0, x)] is a number, and not negative. *)
Lemma clamp_nonneg (x : pyfloat) : float_ge (max_float (Fin 0) x) (Fin 0) = true.
Proof. now apply max_float_ge_l. Qed.


Lemma float_add_ge (a d : pyfloat) :
  float_ge a (Fin 0) = true -> float_ge d (Fin 0) = true ->
  float_ge (float_add a d) a = true.
Proof.
  destruct a as [|[]|x], d as [|[]|y]; simpl; try congruence.
  rewrite !Qle_bool_iff. intros; lra.
Qed.

Lemma clamp_int_range (c : Z) : 0 <= max_int 0 (min_int 10 c) <= 10.
Proof. unfold max_int, min_int. repeat case_bool_decide; lia. Qed.

(** ** Rounding to binary64 *)

Lemma floor_unique (q : Q) (n : Z) :
  (inject_Z n <= q)%Q -> (q < inject_Z n + 1)%Q -> Qfloor q = n.
Proof.
  intros Hlo Hhi. destruct (floor_bounds q) as [Flo Fhi].
  assert (H1 : (inject_Z (Qfloor q) < inject_Z (n + 1))%Q).
  { rewrite inject_Z_plus. change (inject_Z 1) with 1%Q. lra. }
  assert (H2 : (inject_Z n < inject_Z (Qfloor q + 1))%Q).
  { rewrite inject_Z_plus. change (inject_Z 1) with 1%Q. lra. }
  rewrite <- Zlt_Qlt in H1, H2. lia.
Qed.

Lemma round_half_even_whole (x : Q) (k : Z) :
  (x == inject_Z k)%Q -> round_half_even x = k.
Proof.
  intros Hx. unfold round_half_even.
  assert (Hf : Qfloor x = k) by (apply floor_unique; lra).
  rewrite Hf.
  destruct (Qcompare_spec (x - inject_Z k) (1 # 2)) as [H|H|H]; try lra.
  reflexivity.
Qed.

Lemma trunc_negative (q : Q) :
  (q < 0)%Q -> Z.quot (Qnum q) (Z.pos (Qden q)) = - Qfloor (- q).
Proof.
  destruct q as [n d]; unfold Qlt; simpl; intros Hq.
  replace n with (- - n) at 1 by lia.
  rewrite Z.quot_opp_l by lia. f_equal.
  apply Z.quot_div_nonneg; lia.
Qed.

(** The integral part is less than one away. *)
Lemma trunc_near (q : Q) :
  (Qabs (q - inject_Z (Z.quot (Qnum q) (Z.pos (Qden q)))) <= 1)%Q.
Proof.
  apply Qabs_Qle_condition.
  destruct (Qlt_le_dec q 0) as [Hq|Hq].
  - rewrite (trunc_negative q Hq), inject_Z_opp.
    destruct (floor_bounds (- q)) as [Flo Fhi]. split; lra.
  - rewrite (trunc_nonneg q Hq).
    destruct (floor_bounds q) as [Flo Fhi]. split; lra.
Qed.

Lemma pow2_pos (p : Z) : (0 < pow2 p)%Q.
Proof. apply Qpower_0_lt. reflexivity. Qed.

Lemma pow2_plus (a b : Z) : (pow2 (a + b) == pow2 a * pow2 b)%Q.
Proof. apply Qpower_plus. discriminate. Qed.

Lemma pow2_inv (p : Z) : (pow2 (- p) * pow2 p == 1)%Q.
Proof.
  rewrite <- pow2_plus. replace (- p + p) with 0 by lia. reflexivity.
Qed.

Lemma pow2_le (a b : Z) : a <= b -> (pow2 a <= pow2 b)%Q.
Proof. intros H. apply Qpower_le_compat_l; [exact H|discriminate]. Qed.

Lemma pow2_lt_inv (a b : Z) : (pow2 a < pow2 b)%Q -> a < b.
Proof. intros H. apply (Qpower_lt_compat_l_inv 2); [exact H|reflexivity]. Qed.

Lemma pow2_Z (n : Z) : 0 <= n -> (pow2 n == inject_Z (2 ^ n))%Q.
Proof. intros H. unfold pow2. rewrite Zpower_Qpower by exact H. reflexivity. Qed.

(** The exponent is at or below the binary logarithm. *)
Lemma exponent_le (x : Q) : ~ (x == 0)%Q -> (pow2 (exponent x) <= Qabs x)%Q.
Proof.
  intros Hx. unfold exponent.
  set (a := Qabs x).
  assert (Ha : (0 < a)%Q).
  { pose proof (Qabs_nonneg x) as H0. destruct (Qeq_dec a 0) as [E|E].
    - exfalso. apply Hx. subst a. revert E. apply Qabs_case; intros; lra.
    - subst a. lra. }
  destruct (Qle_bool (pow2 _) a) eqn:E; [now apply Qle_bool_iff|].
  destruct a as [n d]. cbn [Qnum Qden] in *.
  assert (Hn : 0 < n) by (unfold Qlt in Ha; cbn in Ha; lia).
  pose proof (Z.log2_spec n Hn) as [Hn1 _].
  pose proof (Z.log2_spec (Z.pos d) (Pos2Z.is_pos d)) as [_ Hd2].
  pose proof (Z.log2_nonneg n) as Hln.
  pose proof (Z.log2_nonneg (Z.pos d)) as Hld.
  replace (Z.log2 n - Z.log2 (Z.pos d) - 1)
    with (Z.log2 n + - (Z.succ (Z.log2 (Z.pos d)))) by lia.
  rewrite pow2_plus.
  pose proof (pow2_inv (Z.succ (Z.log2 (Z.pos d)))) as Hinv.
  pose proof (pow2_pos (- Z.succ (Z.log2 (Z.pos d)))) as Hpos.
  rewrite (pow2_Z (Z.succ (Z.log2 (Z.pos d)))) in Hinv by lia.
  rewrite (pow2_Z (Z.log2 n)) by lia.
  set (u := pow2 (- Z.succ (Z.log2 (Z.pos d)))) in *.
  set (N := 2 ^ Z.log2 n) in *.
  set (D := 2 ^ Z.succ (Z.log2 (Z.pos d))) in *.
  assert (HN : (inject_Z N <= inject_Z n)%Q) by (rewrite <- Zle_Qle; exact Hn1).
  assert (HD : (inject_Z (Z.pos d) <= inject_Z D)%Q) by (rewrite <- Zle_Qle; lia).
  rewrite (Qmake_Qdiv n d).
  assert (Hdpos : (0 < inject_Z (Z.pos d))%Q) by (rewrite <- (Zlt_Qlt 0); lia).
  apply Qle_shift_div_l; [exact Hdpos|].
  assert (H0N : (0 <= inject_Z N)%Q).
  { rewrite <- (Zle_Qle 0). subst N. apply Z.pow_nonneg. lia. }
  assert (H1 : (inject_Z N * u * inject_Z (Z.pos d) <= inject_Z N * u * inject_Z D)%Q).
  { rewrite !(Qmult_comm (inject_Z N * u)).
    apply Qmult_le_compat_r; [exact HD|].
    apply Qmult_le_0_compat; [exact H0N|lra]. }
  assert (H2 : (inject_Z N * u * inject_Z D == inject_Z N)%Q).
  { rewrite <- Qmult_assoc, Hinv. ring. }
  lra.
Qed.

(** Half a unit in the last place bounds the rounding error. *)
Lemma nearest64_error (x : Q) :
  (Qabs (nearest64 x - x) <= Qabs x * pow2 (-53) + pow2 (-1075))%Q.
Proof.
  pose proof (pow2_pos (-1075)) as Htiny. pose proof (pow2_pos (-53)) as Hu.
  pose proof (Qabs_nonneg x) as Hax.
  unfold nearest64. destruct (Qeq_bool x 0) eqn:E.
  { apply Qeq_bool_iff in E. apply Qabs_Qle_condition. split; nra. }
  assert (Hx : ~ (x == 0)%Q) by (intros H; apply Qeq_bool_iff in H; congruence).
  pose proof (exponent_le x Hx) as He.
  set (p := Z.max (exponent x - 52) (-1074)).
  pose proof (round_half_even_near (x * pow2 (- p))) as [Hlo Hhi].
  set (r := inject_Z (round_half_even (x * pow2 (- p)))) in *.
  pose proof (pow2_inv p) as Hinv. pose proof (pow2_pos p) as Hp.
  pose proof (pow2_pos (- p)) as Hp'.
  set (P := pow2 p) in *. set (P' := pow2 (- p)) in *.
  assert (Hulp : (P * (1 # 2) <= Qabs x * pow2 (-53) + pow2 (-1075))%Q).
  { subst P p. destruct (Z.max_spec (exponent x - 52) (-1074)) as [[_ ->]|[_ ->]].
    - assert (H : (pow2 (-1074) * (1 # 2) == pow2 (-1075))%Q) by reflexivity.
      nra.
    - replace (exponent x - 52) with (exponent x + -52) by lia.
      rewrite pow2_plus.
      assert (H : (pow2 (-52) * (1 # 2) == pow2 (-53))%Q) by reflexivity.
      pose proof (pow2_pos (exponent x)). nra. }
  assert (Hd : (r * P - x == (r - x * P') * P)%Q).
  { transitivity (r * P - x * (P' * P))%Q; [rewrite Hinv|]; ring. }
  rewrite Hd. apply Qabs_Qle_condition. split; nra.
Qed.

(** A value with at most 53 significant bits is its own rounding. *)
Lemma nearest64_grid (x : Q) (m p : Z) :
  (x == inject_Z m * pow2 p)%Q -> Z.abs m < 2 ^ 53 -> -1074 <= p ->
  (nearest64 x == x)%Q.
Proof.
  intros Hxm Hm Hp. unfold nearest64.
  destruct (Qeq_bool _ 0) eqn:E; [apply Qeq_bool_iff in E; now rewrite E|].
  assert (Hx : ~ (x == 0)%Q) by (intros H; apply Qeq_bool_iff in H; congruence).
  pose proof (exponent_le x Hx) as He.
  assert (Hax : (Qabs x < pow2 (53 + p))%Q).
  { rewrite Hxm, Qabs_Qmult, pow2_plus.
    rewrite (Qabs_pos (pow2 p)) by (pose proof (pow2_pos p); lra).
    apply Qmult_lt_compat_r; [apply pow2_pos|].
    rewrite (pow2_Z 53) by lia.
    change (Qabs (inject_Z m)) with (inject_Z (Z.abs m)).
    rewrite <- Zlt_Qlt. exact Hm. }
  assert (Hlt : exponent x < 53 + p).
  { apply pow2_lt_inv. lra. }
  set (p' := Z.max (exponent x - 52) (-1074)).
  assert (Hp' : p' <= p) by lia.
  assert (Hy : (x * pow2 (- p') == inject_Z (m * 2 ^ (p - p')))%Q).
  { rewrite Hxm, inject_Z_mult, <- (pow2_Z (p - p')) by lia.
    rewrite <- Qmult_assoc, <- pow2_plus.
    replace (p + - p') with (p - p') by lia. reflexivity. }
  rewrite (round_half_even_whole _ _ Hy).
  rewrite inject_Z_mult, <- (pow2_Z (p - p')) by lia.
  rewrite <- Qmult_assoc, <- pow2_plus.
  replace (p - p' + p') with p by lia. now rewrite Hxm.
Qed.

Lemma nearest64_int (x : Q) (n : Z) :
  (x == inject_Z n)%Q -> Z.abs n < 2 ^ 53 -> (nearest64 x == inject_Z n)%Q.
Proof.
  intros Hx Hn. rewrite (nearest64_grid x n 0); [exact Hx| |exact Hn|lia].
  rewrite Hx. change (pow2 0) with 1%Q. ring.
Qed.

(** Rounding stays finite well below the largest binary64 value. *)
Lemma round64_finite (x : Q) :
  (Qabs x <= pow2 1000)%Q -> round64 x = Fin (nearest64 x).
Proof.
  intros Hx. unfold round64.
  destruct (Qle_bool _ _) eqn:E; [|reflexivity].
  exfalso. apply Qle_bool_iff in E.
  pose proof (nearest64_error x) as Herr.
  apply Qabs_Qle_condition in Herr.
  assert (H53 : (pow2 (-53) <= 1)%Q) by (apply (pow2_le (-53) 0); lia).
  assert (Ht : (pow2 (-1075) <= pow2 1000)%Q) by (apply pow2_le; lia).
  assert (Hbig : (pow2 1000 * 4 <= pow2 1024)%Q).
  { change 4%Q with (pow2 2). rewrite <- pow2_plus. apply pow2_le. lia. }
  pose proof (pow2_pos 1000) as Hpos. pose proof (Qabs_nonneg x) as Hax.
  pose proof (pow2_pos (-53)) as Hu.
  assert (Hm : (Qabs x * pow2 (-53) <= pow2 1000 * 1)%Q).
  { apply Qmult_le_compat_nonneg; split; lra. }
  assert (Hv : (Qabs (nearest64 x) <= pow2 1000 * 3)%Q).
  { apply Qabs_Qle_condition. apply Qabs_Qle_condition in Hx. split; lra. }
  lra.
Qed.

(** The error of one rounding of a value below [2^62], in absolute
    terms. *)
Lemma round64_small (x b : Q) :
  (Qabs x <= b)%Q -> (b <= 4611686018427387904)%Q ->
  round64 x = Fin (nearest64 x) /\
  (Qabs (nearest64 x - x) <= b * (1 # 9007199254740992) + (1 # 1152921504606846976))%Q.
Proof.
  intros Hx Hb. split.
  - apply round64_finite.
    assert (H : (inject_Z (2 ^ 62) <= pow2 1000)%Q).
    { rewrite <- (pow2_Z 62) by lia. apply pow2_le. lia. }
    change (inject_Z (2 ^ 62)) with 4611686018427387904%Q in H. lra.
  - pose proof (nearest64_error x) as Herr.
    change (pow2 (-53)) with (1 # 9007199254740992)%Q in Herr.
    assert (Ht : (pow2 (-1075) <= pow2 (-60))%Q) by (apply pow2_le; lia).
    change (pow2 (-60)) with (1 # 1152921504606846976)%Q in Ht.
    set (tiny := pow2 (-1075)) in *. clearbody tiny. lra.
Qed.

(** The integral part lies between zero and the number. *)
Lemma trunc_between (x : Q) :
  ((0 <= x -> 0 <= inject_Z (Z.quot (Qnum x) (Z.pos (Qden x))) <= x) /\
   (x <= 0 -> x <= inject_Z (Z.quot (Qnum x) (Z.pos (Qden x))) <= 0))%Q.
Proof.
  split; intros Hx.
  - rewrite (trunc_nonneg x Hx). destruct (floor_bounds x) as [Flo _].
    split; [|exact Flo].
    change 0%Q with (inject_Z 0). rewrite <- Zle_Qle.
    change 0 with (Qfloor 0). now apply Qfloor_resp_le.
  - destruct (Qeq_dec x 0) as [E|E].
    { rewrite (trunc_nonneg x) by lra.
      rewrite (floor_unique x 0) by (change (inject_Z 0) with 0%Q; lra).
      change (inject_Z 0) with 0%Q. lra. }
    assert (Hneg : (x < 0)%Q) by lra.
    rewrite (trunc_negative x Hneg), inject_Z_opp.
    destruct (floor_bounds (- x)) as [Flo _].
    assert (H0 : (0 <= inject_Z (Qfloor (- x)))%Q).
    { change 0%Q with (inject_Z 0). rewrite <- Zle_Qle.
      change 0 with (Qfloor 0). apply Qfloor_resp_le. lra. }
    split; lra.
Qed.

Lemma trunc_whole (x : Q) (n : Z) :
  (x == inject_Z n)%Q -> Z.quot (Qnum x) (Z.pos (Qden x)) = n.
Proof.
  intros Hx. destruct (Qlt_le_dec x 0) as [Hneg|Hpos].
  - rewrite (trunc_negative x Hneg), (floor_unique (- x) (- n)); [lia|..];
      rewrite inject_Z_opp; lra.
  - rewrite (trunc_nonneg x Hpos). apply floor_unique; lra.
Qed.

(** The integral part of a binary64 value and what is left of it are
    binary64 values: converting the one and subtracting it round
    nothing. *)
Lemma fraction_exact (x : Q) :
  binary64 x ->
  let h := Z.quot (Qnum x) (Z.pos (Qden x)) in
  binary64 (inject_Z h) /\ binary64 (x - inject_Z h) /\
  (nearest64 (inject_Z h) == inject_Z h)%Q /\
  (nearest64 (x - inject_Z h) == x - inject_Z h)%Q.
Proof.
  intros (m & p & Hx & Hm & Hp). cbn zeta.
  set (h := Z.quot (Qnum x) (Z.pos (Qden x))).
  assert (Hboth : binary64 (inject_Z h) /\ binary64 (x - inject_Z h)).
  { destruct (Z_le_gt_dec 0 p) as [Hp0|Hp0].
    - assert (Hh : h = m * 2 ^ p).
      { apply trunc_whole. rewrite Hx, inject_Z_mult, <- pow2_Z by lia. reflexivity. }
      assert (Hxh : (x == inject_Z h)%Q).
      { rewrite Hh, Hx, inject_Z_mult, <- pow2_Z by lia. reflexivity. }
      split.
      + exists m, p. now rewrite <- Hxh.
      + exists 0, 0. split; [|split; lia]. rewrite Hxh. ring.
    - pose proof (pow2_inv p) as Hinv. pose proof (pow2_pos p) as Hpp.
      pose proof (pow2_pos (- p)) as Hpn.
      assert (HD : (pow2 (- p) == inject_Z (2 ^ (- p)))%Q) by (apply pow2_Z; lia).
      assert (H1 : (1 <= pow2 (- p))%Q).
      { change 1%Q with (pow2 0). apply pow2_le. lia. }
      set (r := m - h * 2 ^ (- p)).
      assert (Hr : (x - inject_Z h == inject_Z r * pow2 p)%Q).
      { unfold r, Z.sub. rewrite inject_Z_plus, inject_Z_opp, inject_Z_mult, <- HD.
        rewrite Hx.
        transitivity (inject_Z m * pow2 p - inject_Z h * (pow2 (- p) * pow2 p))%Q;
          [rewrite Hinv|]; ring. }
      assert (HmQ : (- inject_Z (2 ^ 53) < inject_Z m < inject_Z (2 ^ 53))%Q).
      { rewrite <- inject_Z_opp, <- !Zlt_Qlt. lia. }
      destruct (trunc_between x) as [Hnn Hnp]. fold h in Hnn, Hnp.
      assert (Hxm : (x * pow2 (- p) == inject_Z m)%Q).
      { rewrite Hx, <- Qmult_assoc, (Qmult_comm (pow2 p)), Hinv. ring. }
      assert (Hrm : (inject_Z r == inject_Z m - inject_Z h * pow2 (- p))%Q).
      { unfold r, Z.sub.
        rewrite inject_Z_plus, inject_Z_opp, inject_Z_mult, <- HD. ring. }
      assert (Hbounds : (- inject_Z (2 ^ 53) < inject_Z h < inject_Z (2 ^ 53) /\
                         - inject_Z (2 ^ 53) < inject_Z r < inject_Z (2 ^ 53))%Q).
      { destruct (Qlt_le_dec x 0) as [Hneg|Hpos].
        - destruct (Hnp ltac:(lra)) as [Hlo Hhi].
          assert (Hm0 : (inject_Z m <= 0)%Q) by nra.
          assert (Hhm : (inject_Z m <= inject_Z h * pow2 (- p))%Q) by nra.
          repeat split; nra.
        - destruct (Hnn Hpos) as [Hlo Hhi].
          assert (Hm0 : (0 <= inject_Z m)%Q) by nra.
          assert (Hhm : (inject_Z h * pow2 (- p) <= inject_Z m)%Q) by nra.
          repeat split; nra. }
      destruct Hbounds as [[Hh1 Hh2] [Hr1 Hr2]].
      rewrite <- inject_Z_opp, <- Zlt_Qlt in Hh1, Hr1.
      rewrite <- Zlt_Qlt in Hh2, Hr2.
      split.
      + exists h, 0. split; [|split; lia]. change (pow2 0) with 1%Q. ring.
      + exists r, p. split; [exact Hr|split; lia]. }
  destruct Hboth as [Hh Hf]. split; [exact Hh|]. split; [exact Hf|].
  destruct Hh as (m1 & p1 & E1 & ? & ?). destruct Hf as (m2 & p2 & E2 & ? & ?).
  split; eapply nearest64_grid; eauto.
Qed.

(** ** [format_hours] *)

(** On a finite number [format_hours] returns: the minutes shown are five
    times the integer nearest to twelve times the fractional part, up to
    the rounding of the product and of the quotient. *)
Lemma format_hours_run (q : Q) :
  exists r : Z,
    format_hours (Some (Fin q))
    = Returns (shown (Z.quot (Qnum q) (Z.pos (Qden q))) r) /\
    (Qabs (inject_Z r - 12 * (q - inject_Z (Z.quot (Qnum q) (Z.pos (Qden q)))))
     <= (1 # 2) + (1 # 281474976710656))%Q.
Proof.
  pose proof (trunc_near q) as Ht.
  unfold format_hours, int_of_float, Py.bind.
  set (h := Z.quot (Qnum q) (Z.pos (Qden q))) in *.
  unfold float_sub, float_neg, float_add, float64_mul, of_int.
  set (t := (q + - inject_Z h)%Q).
  assert (Htq : (t == q - inject_Z h)%Q) by (unfold t; ring).
  rewrite <- Htq in Ht. clearbody t.
  apply Qabs_Qle_condition in Ht.
  change (inject_Z 60) with 60%Q.
  destruct (round64_small (t * 60) 60) as [-> Ha]; [|lra|].
  { apply Qabs_Qle_condition. split; lra. }
  set (a := nearest64 (t * 60)) in *. clearbody a.
  apply Qabs_Qle_condition in Ha.
  unfold float64_div. change (Qeq_bool (inject_Z 5) 0) with false. cbv iota.
  change (inject_Z 5) with 5%Q.
  assert (Ha5 : (a / 5 == a * (1 # 5))%Q) by (unfold Qdiv; reflexivity).
  destruct (round64_small (a / 5) 13) as [-> Hc]; [|lra|].
  { rewrite Ha5. apply Qabs_Qle_condition. split; lra. }
  set (c := nearest64 (a / 5)) in *. clearbody c.
  rewrite Ha5 in Hc.
  apply Qabs_Qle_condition in Hc.
  unfold round. pose proof (round_half_even_near c) as [Rlo Rhi].
  exists (round_half_even c). split.
  { unfold shown. now destruct (bool_decide _). }
  apply Qabs_Qle_condition. split; lra.
Qed.

(** C10.  [format_hours] returns ["N/A"] on [None].  On a finite,
    non-negative number of hours it returns ["H hours M minutes"] where
    [M] is a multiple of 5 between 0 and 55 (a rounded 60 is carried into
    [H]) and [H + M/60] differs from the input by at most two and a half
    minutes and the rounding of the two float operations, [2^-51] hours
    together.  On the infinity it raises [OverflowError]. *)
Theorem format_hours_total :
  format_hours None = Returns "N/A" /\
  (forall q : Q, (0 <= q)%Q ->
     exists H M : Z,
       format_hours (Some (Fin q))
       = Returns (str_int H +:+ " hours " +:+ str_int M +:+ " minutes") /\
       0 <= H /\ 0 <= M <= 55 /\ (5 | M) /\
       (Qabs (inject_Z H + inject_Z M / 60 - q) <= (5 # 2) / 60 + pow2 (-51))%Q) /\
  format_hours (Some (Inf false)) = Raises OverflowError.
Proof.
  split; [reflexivity|]. split; [|reflexivity].
  intros q Hq.
  destruct (format_hours_run q) as (r & -> & Hr).
  rewrite (trunc_nonneg q Hq) in *.
  set (h := Qfloor q) in *.
  destruct (floor_bounds q) as [Hlo Hhi]. fold h in Hlo, Hhi.
  apply Qabs_Qle_condition in Hr.
  assert (Hh : 0 <= h).
  { change 0 with (Qfloor 0). now apply Qfloor_resp_le. }
  assert (Hr12 : 0 <= r <= 12).
  { assert (H1 : (inject_Z (-1) < inject_Z r)%Q)
      by (change (inject_Z (-1)) with (-1)%Q; lra).
    assert (H2 : (inject_Z r < inject_Z 13)%Q)
      by (change (inject_Z 13) with 13%Q; lra).
    rewrite <- Zlt_Qlt in H1, H2. lia. }
  change (pow2 (-51)) with (1 # 2251799813685248)%Q.
  unfold shown. case_bool_decide as Hm.
  - exists (h + 1), 0. split; [reflexivity|].
    split; [lia|]. split; [lia|]. split; [apply Z.divide_0_r|].
    assert (E : r = 12) by lia. rewrite E in Hr.
    change (inject_Z 12) with 12%Q in Hr.
    rewrite inject_Z_plus. change (inject_Z 1) with 1%Q. change (inject_Z 0) with 0%Q.
    apply Qabs_Qle_condition. unfold Qdiv. change (/ 60)%Q with (1 # 60)%Q.
    split; lra.
  - exists h, (r * 5). split; [reflexivity|].
    split; [lia|]. split; [lia|]. split; [apply Z.divide_factor_r|].
    rewrite inject_Z_mult. change (inject_Z 5) with 5%Q.
    apply Qabs_Qle_condition. unfold Qdiv. change (/ 60)%Q with (1 # 60)%Q.
    split; lra.
Qed.

Lemma format_hours_total_witness :
  (0 <= 7 # 4)%Q /\
  exists H M : Z,
    format_hours (Some (Fin (7 # 4)))
      = Returns (str_int H +:+ " hours " +:+ str_int M +:+ " minutes") /\
    0 <= H /\ 0 <= M <= 55 /\ (5 | M) /\
    (Qabs (inject_Z H + inject_Z M / 60 - (7 # 4)) <= (5 # 2) / 60 + pow2 (-51))%Q.
Proof.
  split; [discriminate|].
  apply (proj1 (proj2 format_hours_total) (7 # 4)). discriminate.
Defined.

(** The float [0.20833333333333334], the nearest to twelve and a half
    minutes, lies above them; its product with 60 rounds to [12.5], which
    is halved to the even [2]: ten minutes are shown, more than two and a
    half minutes from the input.  And the infinity, which is at least
    [0.0], makes [format_hours] raise. *)
Lemma format_hours_total_fails :
  format_hours (Some (Fin (7505999378950827 # 36028797018963968)))
  = Returns "0 hours 10 minutes" /\
  ((5 # 2) / 60
   < Qabs (inject_Z 0 + inject_Z 10 / 60 - (7505999378950827 # 36028797018963968)))%Q /\
  float_ge (Inf false) (Fin 0) = true /\
  format_hours (Some (Inf false)) = Raises OverflowError.
Proof. repeat split. Qed.

(** ** Running the handlers *)

Section Running.
Context `{RT : Runtime} `{PA : PlannerAI}.

Lemma mbind_returns {A B} (c : M A) (k : A -> M B) s a s1 :
  c s = (Returns a, s1) -> mbind c k s = k a s1.
Proof. unfold mbind. now intros ->. Qed.

Lemma mbind_raises {A B} (c : M A) (k : A -> M B) s e s1 :
  c s = (Raises e, s1) -> mbind c k s = (Raises e, s1).
Proof. unfold mbind. now intros ->. Qed.

Lemma keeps_ret {X A} (pi : store -> X) (a : A) : keeps pi (ret a).
Proof. now intros s. Qed.

Lemma keeps_lift {X A} (pi : store -> X) (o : outcome A) : keeps pi (lift o).
Proof. now intros s. Qed.

Lemma keeps_bind {X A B} (pi : store -> X) (c : M A) (k : A -> M B) :
  keeps pi c -> (forall a, keeps pi (k a)) -> keeps pi (mbind c k).
Proof.
  intros Hc Hk s. unfold mbind.
  specialize (Hc s). destruct (c s) as [[a|e] s1]; simpl in *.
  - now rewrite Hk.
  - exact Hc.
Qed.

Lemma keeps_for_each {X A B} (pi : store -> X) (body : A -> M B) (l : list A) :
  (forall x, keeps pi (body x)) -> keeps pi (for_each body l).
Proof.
  intros Hb. induction l as [|x l IH]; simpl.
  - apply keeps_ret.
  - apply keeps_bind; [apply Hb|]. intros y.
    apply keeps_bind; [apply IH|]. intros ys. apply keeps_ret.
Qed.

(** A loop whose body only replaces the element is a [map]. *)
Lemma for_each_pure {A B} (body : A -> M B) (f : A -> B) (l : list A) s :
  (forall x s, body x s = (Returns (f x), s)) ->
  for_each body l s = (Returns (f <$> l), s).
Proof.
  intros Hb. induction l as [|x l IH]; simpl; [reflexivity|].
  unfold mbind. rewrite Hb, IH. reflexivity.
Qed.

Lemma set_clock_eq k k' (s : store) :
  k = k' -> Store.set_clock k s = Store.set_clock k' s.
Proof. now intros ->. Qed.

Lemma set_clock_tick k (s : store) :
  Store.set_clock k (Store.tick s) = Store.set_clock k s.
Proof. reflexivity. Qed.

(** *** [refresh_all_saved_schedules] *)

Lemma refresh_loop (items : list schedule_item) (l : list saved_schedule) s :
  for_each
    (fun sch => mbind datetime_now (fun t =>
       ret (Saved.make _ (Saved.id sch) (Saved.name sch) (Saved.created_at sch)
              (Datetime.strftime t) items))) l s
  = (Returns (imap (fun i sch =>
        Saved.make _ (Saved.id sch) (Saved.name sch) (Saved.created_at sch)
          (Datetime.strftime (now (Store.clock s + i))) items) l),
     match l with [] => s | _ => Store.set_clock (Store.clock s + length l) s end).
Proof.
  revert s. induction l as [|sch l IH]; intros s; [reflexivity|].
  cbn [for_each].
  erewrite mbind_returns by reflexivity.
  erewrite mbind_returns by apply IH.
  unfold ret. cbn [imap length]. rewrite Nat.add_0_r. f_equal; [f_equal; f_equal|].
  - apply imap_ext. intros i x _. cbn. do 3 f_equal. lia.
  - destruct l as [|sch' l].
    + unfold Store.tick. apply set_clock_eq. cbn. lia.
    + rewrite set_clock_tick. apply set_clock_eq. cbn. lia.
Qed.

Lemma refresh_run s :
  refresh_all_saved_schedules s =
  (Returns tt,
   match default [] (Store.schedules_file s) with
   | [] => s
   | l => Store.set_schedules (Some (imap (restamped s) l))
            (Store.set_clock (Store.clock s + length l) s)
   end).
Proof.
  unfold refresh_all_saved_schedules.
  erewrite mbind_returns by reflexivity.
  destruct (default [] (Store.schedules_file s)) as [|sch l] eqn:E; [reflexivity|].
  do 5 (erewrite mbind_returns by reflexivity).
  erewrite mbind_returns by apply refresh_loop.
  reflexivity.
Qed.

Lemma refresh_returns s : fst (refresh_all_saved_schedules s) = Returns tt.
Proof. now rewrite refresh_run. Qed.

Lemma refresh_frame s :
  let s' := snd (refresh_all_saved_schedules s) in
  Store.tasks_file s' = Store.tasks_file s /\
  Store.exams_file s' = Store.exams_file s /\
  Store.prefs_file s' = Store.prefs_file s /\
  Store.subjects_file s' = Store.subjects_file s /\
  Store.task_model s' = Store.task_model s.
Proof.
  cbn zeta. rewrite refresh_run. cbn [snd].
  now destruct (default [] (Store.schedules_file s)).
Qed.

Lemma bind_refresh {B} (k : unit -> M B) s :
  mbind refresh_all_saved_schedules k s
  = k tt (snd (refresh_all_saved_schedules s)).
Proof.
  apply mbind_returns.
  rewrite (surjective_pairing (refresh_all_saved_schedules s)).
  now rewrite refresh_returns.
Qed.

(** *** Highest id *)

Lemma max_int_max a b : max_int a b = Z.max a b.
Proof. unfold max_int. case_bool_decide; lia. Qed.

Lemma foldr_max_init a b (l : list Z) :
  foldr Z.max (Z.max a b) l = Z.max a (foldr Z.max b l).
Proof. induction l as [|y l IH]; simpl; [reflexivity|]. rewrite IH. lia. Qed.

Lemma foldl_max_int x l : foldl max_int x l = foldr Z.max x l.
Proof.
  revert x. induction l as [|y l IH]; intros x; simpl; [reflexivity|].
  rewrite IH, max_int_max, Z.max_comm. apply foldr_max_init.
Qed.

Lemma max_seq_with_zero (ids : list Z) :
  max_seq (ids ++ [0]) = Returns (highest ids).
Proof.
  unfold max_seq, highest. destruct ids as [|x l]; simpl; [reflexivity|].
  f_equal. rewrite foldl_max_int, foldr_app. simpl.
  rewrite Z.max_comm. apply foldr_max_init.
Qed.


(** *** The add-task branch *)

Ltac run := repeat (erewrite mbind_returns by reflexivity).

Lemma home_add_task_cases subjects form s :
  match form_int form "complexity" 0,
        form_float form "past_hours" (of_int 0),
        form_float form "min_hours" (of_int 0) with
  | Returns c, Returns p, Returns h =>
      exists s1,
        home_add_task subjects form s
        = (Returns (Redirect "tasks" false),
           snd (refresh_all_saved_schedules
                  (Store.set_tasks
                     (Store.tasks_file s ++ [added_task subjects form s c p h]) s1)))
        /\ (s1 = s \/ s1 = Store.tick s)
  | _, _, _ => exists e, home_add_task subjects form s = (Raises e, s)
  end.
Proof.
  unfold home_add_task. run. rewrite max_seq_with_zero. run.
  destruct (form_int form "complexity" 0) as [c|e];
    [|eexists; erewrite mbind_raises by reflexivity; reflexivity].
  run.
  destruct (form_float form "past_hours" (of_int 0)) as [p|e];
    [|eexists; erewrite mbind_raises by reflexivity; reflexivity].
  run.
  destruct (form_float form "min_hours" (of_int 0)) as [h|e];
    [|eexists; erewrite mbind_raises by reflexivity; reflexivity].
  run. unfold parse_date_or_now, added_task.
  destruct (strptime_ymd (form_get form "deadline" "")) as [d|e].
  - exists s. run. rewrite bind_refresh. split; [reflexivity|now left].
  - exists (Store.tick s). run. rewrite bind_refresh. split; [reflexivity|now right].
Qed.

(** *** The add-exam branch *)

Lemma home_add_exam_cases form s :
  match form_int form "exam_confidence" 3,
        form_float form "exam_progress" (Fin 0) with
  | Returns confidence, Returns p =>
      exists s1,
        home_add_exam form s
        = (Returns (Redirect "exams" false),
           snd (refresh_all_saved_schedules
                  (Store.set_exams
                     (Store.exams_file s ++ [added_exam form s confidence p]) s1)))
        /\ (s1 = s \/ s1 = Store.tick s)
  | _, _ => exists e, home_add_exam form s = (Raises e, s)
  end.
Proof.
  unfold home_add_exam. run. rewrite max_seq_with_zero. run.
  destruct (form_int form "exam_confidence" 3) as [c|e];
    [|eexists; erewrite mbind_raises by reflexivity; reflexivity].
  run.
  destruct (form_float form "exam_progress" (Fin 0)) as [p|e];
    [|eexists; erewrite mbind_raises by reflexivity; reflexivity].
  run. unfold parse_date_or_now, added_exam.
  destruct (strptime_ymd (form_get form "exam_date" "")) as [d|e].
  - exists s. run. rewrite bind_refresh. split; [reflexivity|now left].
  - exists (Store.tick s). run. rewrite bind_refresh. split; [reflexivity|now right].
Qed.

(** *** The update-progress and complete-exam branches *)

Lemma home_update_exam_cases form s :
  match form_id form "update_exam_id",
        form_float form "add_progress_hours" (Fin 0) with
  | Returns eid, Returns d =>
      home_update_exam form s
      = (Returns (Redirect "exams" false),
         snd (refresh_all_saved_schedules
                (Store.set_exams
                   (add_progress eid (max_float (Fin 0) d) <$> Store.exams_file s) s)))
  | _, _ => exists e, home_update_exam form s = (Raises e, s)
  end.
Proof.
  unfold home_update_exam.
  destruct (form_id form "update_exam_id") as [eid|e];
    [|eexists; erewrite mbind_raises by reflexivity; reflexivity].
  run.
  destruct (form_float form "add_progress_hours" (Fin 0)) as [d|e];
    [|eexists; erewrite mbind_raises by reflexivity; reflexivity].
  run.
  erewrite mbind_returns
    by (apply (for_each_pure _ (add_progress eid (max_float (Fin 0) d)));
        intros x s0; unfold add_progress;
        now destruct (bool_decide (Exam.id x = eid) && negb (Exam.completed x))).
  run. rewrite bind_refresh. reflexivity.
Qed.

Lemma home_complete_exam_cases form s :
  match form_id form "complete_exam_id",
        form_float form "exam_actual_hours" (Fin 0) with
  | Returns eid, Returns a =>
      home_complete_exam form s
      = (Returns (Redirect "exams" false),
         snd (refresh_all_saved_schedules
                (Store.set_exams
                   (mark_exam eid (max_float (Fin 0) a) <$> Store.exams_file s) s)))
  | _, _ => exists e, home_complete_exam form s = (Raises e, s)
  end.
Proof.
  unfold home_complete_exam.
  destruct (form_id form "complete_exam_id") as [eid|e];
    [|eexists; erewrite mbind_raises by reflexivity; reflexivity].
  run.
  destruct (form_float form "exam_actual_hours" (Fin 0)) as [a|e];
    [|eexists; erewrite mbind_raises by reflexivity; reflexivity].
  run.
  erewrite mbind_returns
    by (apply (for_each_pure _ (mark_exam eid (max_float (Fin 0) a)));
        intros x s0; unfold mark_exam;
        now destruct (bool_decide (Exam.id x = eid))).
  run. rewrite bind_refresh. reflexivity.
Qed.

(** *** The complete-task branch *)

Lemma complete_loop (tid : Z) (actual : pyfloat) (l : list task) s :
  exists l' s',
    for_each
      (fun t =>
         if bool_decide (Task.id t = tid) then
           mbind datetime_now (fun today =>
           let pr_num := priority_num (Task.priority t) in
           mbind get_task_model (fun m =>
           mbind (set_task_model
                    (retrain_model m
                       (Observation.make (Task.complexity t) (Task.past_hours t)
                          pr_num actual))) (fun _ =>
           ret (Task.make (Task.id t) (Task.name t) (Task.deadline t) (Task.hours t)
                  (Task.priority t) (Task.complexity t) (Task.past_hours t)
                  (Task.min_hours t) (Task.matched_subject t)
                  true (Some actual) (Some (Datetime.date today))))))
         else ret t) l s
    = (Returns l', s') /\
    Store.task_model s'
    = retrained actual (Store.task_model s) (filter (fun t => Task.id t = tid) l) /\
    Store.tasks_file s' = Store.tasks_file s /\
    Store.exams_file s' = Store.exams_file s /\
    Forall2 (fun t t' => Task.id t' = Task.id t) l l'.
Proof.
  revert s. induction l as [|t l IH]; intros s.
  - exists [], s. repeat split. constructor.
  - cbn [for_each]. rewrite filter_cons.
    destruct (decide (Task.id t = tid)) as [Heq|Hne].
    + rewrite (bool_decide_eq_true_2 _ Heq).
      erewrite mbind_returns by reflexivity.
      destruct (IH (Store.set_model
                      (retrain_model (Store.task_model s) (observed actual t))
                      (Store.tick s))) as (l' & s' & Hrun & Hm & Ht & He & Hids).
      eexists. exists s'. split; [|split; [|split; [|split]]].
      * erewrite mbind_returns by exact Hrun. reflexivity.
      * exact Hm.
      * exact Ht.
      * exact He.
      * constructor; [reflexivity|exact Hids].
    + rewrite (bool_decide_eq_false_2 _ Hne).
      erewrite mbind_returns by reflexivity.
      destruct (IH s) as (l' & s' & Hrun & Hm & Ht & He & Hids).
      eexists. exists s'. split; [|split; [|split; [|split]]].
      * erewrite mbind_returns by exact Hrun. reflexivity.
      * exact Hm.
      * exact Ht.
      * exact He.
      * constructor; [reflexivity|exact Hids].
Qed.

Lemma home_complete_task_cases form s :
  match form_id form "complete_task_id",
        form_int form "actual_hours" 0,
        form_int form "actual_minutes" 0 with
  | Returns tid, Returns hh, Returns mm =>
      match actual_of hh mm with
      | Returns a =>
          exists full s1,
            home_complete_task form s
            = (Returns (Redirect "tasks" false),
               snd (refresh_all_saved_schedules (Store.set_tasks full s1))) /\
            Store.task_model s1
            = retrained a (Store.task_model s)
                (filter (fun t => Task.id t = tid) (Store.tasks_file s)) /\
            Store.exams_file s1 = Store.exams_file s /\
            Forall2 (fun t t' => Task.id t' = Task.id t) (Store.tasks_file s) full
      | Raises e => home_complete_task form s = (Raises e, s)
      end
  | _, _, _ => exists e, home_complete_task form s = (Raises e, s)
  end.
Proof.
  unfold home_complete_task.
  destruct (form_id form "complete_task_id") as [tid|e];
    [|eexists; erewrite mbind_raises by reflexivity; reflexivity].
  run.
  destruct (form_int form "actual_hours" 0) as [hh|e];
    [|eexists; erewrite mbind_raises by reflexivity; reflexivity].
  run.
  destruct (form_int form "actual_minutes" 0) as [mm|e];
    [|eexists; erewrite mbind_raises by reflexivity; reflexivity].
  run.
  destruct (actual_of hh mm) as [a|e];
    [|erewrite mbind_raises by reflexivity; reflexivity].
  run.
  destruct (complete_loop tid a (Store.tasks_file s) s)
    as (full & s1 & Hrun & Hm & Ht & He & Hids).
  exists full, s1. split; [|auto].
  erewrite mbind_returns by exact Hrun. run. rewrite bind_refresh. reflexivity.
Qed.

(** *** Dispatch *)

Lemma home_run req s :
  home req s =
  (let form := Request.form req in
   let all_tasks :=
     match Store.prefs_file s with
     | Some _ => List.filter (fun t => negb (Task.completed t)) (Store.tasks_file s)
     | None => []
     end in
   let page := render_home req (Store.prefs_file s) (Store.subjects_file s)
                 (Store.exams_file s) all_tasks in
   if bool_decide (Request.method req = "POST") then
     if has_key form "save_prefs" then home_save_prefs form
     else if has_key form "edit_prefs" then page true
     else if has_key form "add_task" then home_add_task (Store.subjects_file s) form
     else if has_key form "complete_task_id" then home_complete_task form
     else if has_key form "add_exam" then home_add_exam form
     else if has_key form "update_exam_id" then home_update_exam form
     else if has_key form "complete_exam_id" then home_complete_exam form
     else page false
   else page false) s.
Proof.
  unfold home. run. unfold open_tasks.
  destruct (Store.prefs_file s); run; reflexivity.
Qed.

Ltac dispatch H :=
  destruct H as (Hpost & Hkey & Hearlier);
  repeat match goal with
         | H : Forall _ (_ :: _) |- _ => apply Forall_cons in H; destruct H as [? H]
         end;
  rewrite home_run; cbn zeta;
  rewrite (bool_decide_eq_true_2 _ Hpost);
  repeat match goal with
         | H : has_key _ _ = _ |- _ => rewrite H; clear H
         end.

Lemma home_add_task_request req s :
  add_task_request req ->
  home req s = home_add_task (Store.subjects_file s) (Request.form req) s.
Proof. intros H. dispatch H. reflexivity. Qed.

Lemma home_complete_task_request req s :
  complete_task_request req -> home req s = home_complete_task (Request.form req) s.
Proof. intros H. dispatch H. reflexivity. Qed.

Lemma home_add_exam_request req s :
  add_exam_request req -> home req s = home_add_exam (Request.form req) s.
Proof. intros H. dispatch H. reflexivity. Qed.


Lemma home_complete_exam_request req s :
  complete_exam_request req -> home req s = home_complete_exam (Request.form req) s.
Proof. intros H. dispatch H. reflexivity. Qed.

(** *** What a request does to the stored tasks and exams *)

Lemma keeps_refresh_tasks : keeps Store.tasks_file refresh_all_saved_schedules.
Proof. intros s. apply refresh_frame. Qed.

Lemma keeps_refresh_exams : keeps Store.exams_file refresh_all_saved_schedules.
Proof. intros s. apply refresh_frame. Qed.

Ltac keeps_tac :=
  repeat first
    [ apply keeps_refresh_tasks
    | apply keeps_refresh_exams
    | apply keeps_ret
    | apply keeps_lift
    | apply keeps_bind; [|intros ?]
    | apply keeps_for_each; intros ?
    | match goal with
      | |- keeps _ (match ?x with _ => _ end) => destruct x
      end
    | (intros ?; reflexivity) ].

Lemma keeps_save_prefs form :
  keeps Store.tasks_file (home_save_prefs form) /\
  keeps Store.exams_file (home_save_prefs form).
Proof. split; unfold home_save_prefs; keeps_tac. Qed.

Lemma keeps_save_schedule req :
  keeps Store.tasks_file (save_schedule req) /\
  keeps Store.exams_file (save_schedule req).
Proof.
  split; unfold save_schedule, current_schedule, add_saved_schedule; keeps_tac.
Qed.

Lemma keeps_delete_schedule req :
  keeps Store.tasks_file (delete_schedule req) /\
  keeps Store.exams_file (delete_schedule req).
Proof. split; unfold delete_schedule, delete_saved_schedule; keeps_tac. Qed.

(** The stored exams after any request: as before, or one appended, or the
    update loop or the completion loop applied to each. *)
Lemma serve_exams (r : route) (req : request) (s : store) :
  let after := Store.exams_file (snd (serve r req s)) in
  after = Store.exams_file s \/
  (exists c p, after = Store.exams_file s ++ [added_exam (Request.form req) s c p]) \/
  (exists eid d,
     after = add_progress eid (max_float (Fin 0) d) <$> Store.exams_file s) \/
  (exists eid a,
     after = mark_exam eid (max_float (Fin 0) a) <$> Store.exams_file s).
Proof.
  cbn zeta. destruct r; unfold serve.
  - destruct (_ || _); [|now left].
    rewrite home_run. cbn zeta.
    destruct (bool_decide (Request.method req = "POST")); [|now left].
    destruct (has_key _ "save_prefs"); [left; apply keeps_save_prefs|].
    destruct (has_key _ "edit_prefs"); [now left|].
    destruct (has_key _ "add_task").
    { left.
      pose proof (home_add_task_cases (Store.subjects_file s) (Request.form req) s) as H.
      destruct (form_int _ "complexity" 0); [|destruct H as [e' ->]; reflexivity].
      destruct (form_float _ "past_hours" _); [|destruct H as [e' ->]; reflexivity].
      destruct (form_float _ "min_hours" _); [|destruct H as [e' ->]; reflexivity].
      destruct H as (s1 & -> & Hs1). cbn [snd].
      rewrite keeps_refresh_exams. now destruct Hs1 as [-> | ->]. }
    destruct (has_key _ "complete_task_id").
    { left.
      pose proof (home_complete_task_cases (Request.form req) s) as H.
      destruct (form_id _ "complete_task_id"); [|destruct H as [e' ->]; reflexivity].
      destruct (form_int _ "actual_hours" _); [|destruct H as [e' ->]; reflexivity].
      destruct (form_int _ "actual_minutes" _); [|destruct H as [e' ->]; reflexivity].
      destruct (actual_of _ _); [|rewrite H; reflexivity].
      destruct H as (full & s1 & -> & _ & He & _). cbn [snd].
      now rewrite keeps_refresh_exams. }
    destruct (has_key _ "add_exam").
    { pose proof (home_add_exam_cases (Request.form req) s) as H.
      destruct (form_int _ "exam_confidence" _) as [c|];
        [|destruct H as [e' ->]; now left].
      destruct (form_float _ "exam_progress" _) as [p|];
        [|destruct H as [e' ->]; now left].
      destruct H as (s1 & -> & Hs1). cbn [snd].
      right; left. exists c, p. now rewrite keeps_refresh_exams. }
    destruct (has_key _ "update_exam_id").
    { pose proof (home_update_exam_cases (Request.form req) s) as H.
      destruct (form_id _ "update_exam_id") as [eid|];
        [|destruct H as [e' ->]; now left].
      destruct (form_float _ "add_progress_hours" _) as [d|];
        [|destruct H as [e' ->]; now left].
      rewrite H. cbn [snd].
      right; right; left. exists eid, d. now rewrite keeps_refresh_exams. }
    destruct (has_key _ "complete_exam_id"); [|now left].
    pose proof (home_complete_exam_cases (Request.form req) s) as H.
    destruct (form_id _ "complete_exam_id") as [eid|];
      [|destruct H as [e' ->]; now left].
    destruct (form_float _ "exam_actual_hours" _) as [a|];
      [|destruct H as [e' ->]; now left].
    rewrite H. cbn [snd].
    right; right; right. exists eid, a. now rewrite keeps_refresh_exams.
  - left. now destruct (bool_decide _).
  - left. destruct (bool_decide _); [apply keeps_save_schedule|reflexivity].
  - left. destruct (bool_decide _); [apply keeps_delete_schedule|reflexivity].
Qed.

(** The stored tasks after any request: the same ids at the same
    positions, or one task appended. *)
Lemma serve_tasks (r : route) (req : request) (s : store) :
  let after := Store.tasks_file (snd (serve r req s)) in
  Forall2 (fun t t' => Task.id t' = Task.id t) (Store.tasks_file s) after \/
  (exists c p h,
     after = Store.tasks_file s
             ++ [added_task (Store.subjects_file s) (Request.form req) s c p h]).
Proof.
  assert (Hsame : forall l : list task, Forall2 (fun t t' => Task.id t' = Task.id t) l l).
  { intros l. now apply Forall_Forall2_diag, Forall_forall. }
  assert (Hkeep : forall after, after = Store.tasks_file s ->
            Forall2 (fun t t' => Task.id t' = Task.id t) (Store.tasks_file s) after).
  { now intros ? ->. }
  cbn zeta. destruct r; unfold serve.
  - destruct (_ || _); [|now left].
    rewrite home_run. cbn zeta.
    destruct (bool_decide (Request.method req = "POST")); [|now left].
    destruct (has_key _ "save_prefs");
      [left; apply Hkeep, keeps_save_prefs|].
    destruct (has_key _ "edit_prefs"); [now left|].
    destruct (has_key _ "add_task").
    { pose proof (home_add_task_cases (Store.subjects_file s) (Request.form req) s) as H.
      destruct (form_int _ "complexity" 0) as [c|];
        [|destruct H as [e' ->]; now left].
      destruct (form_float _ "past_hours" _) as [p|];
        [|destruct H as [e' ->]; now left].
      destruct (form_float _ "min_hours" _) as [h|];
        [|destruct H as [e' ->]; now left].
      destruct H as (s1 & -> & Hs1). cbn [snd].
      right. exists c, p, h. now rewrite keeps_refresh_tasks. }
    destruct (has_key _ "complete_task_id").
    { left.
      pose proof (home_complete_task_cases (Request.form req) s) as H.
      destruct (form_id _ "complete_task_id"); [|destruct H as [e' ->]; apply Hsame].
      destruct (form_int _ "actual_hours" _); [|destruct H as [e' ->]; apply Hsame].
      destruct (form_int _ "actual_minutes" _); [|destruct H as [e' ->]; apply Hsame].
      destruct (actual_of _ _); [|rewrite H; apply Hsame].
      destruct H as (full & s1 & -> & _ & _ & Hids). cbn [snd].
      now rewrite keeps_refresh_tasks. }
    destruct (has_key _ "add_exam").
    { left. apply Hkeep.
      pose proof (home_add_exam_cases (Request.form req) s) as H.
      destruct (form_int _ "exam_confidence" _); [|destruct H as [e' ->]; reflexivity].
      destruct (form_float _ "exam_progress" _); [|destruct H as [e' ->]; reflexivity].
      destruct H as (s1 & -> & Hs1). cbn [snd].
      rewrite keeps_refresh_tasks. now destruct Hs1 as [-> | ->]. }
    destruct (has_key _ "update_exam_id").
    { left. apply Hkeep.
      pose proof (home_update_exam_cases (Request.form req) s) as H.
      destruct (form_id _ "update_exam_id"); [|destruct H as [e' ->]; reflexivity].
      destruct (form_float _ "add_progress_hours" _);
        [|destruct H as [e' ->]; reflexivity].
      rewrite H. cbn [snd]. now rewrite keeps_refresh_tasks. }
    destruct (has_key _ "complete_exam_id"); [|now left].
    left. apply Hkeep.
    pose proof (home_complete_exam_cases (Request.form req) s) as H.
    destruct (form_id _ "complete_exam_id"); [|destruct H as [e' ->]; reflexivity].
    destruct (form_float _ "exam_actual_hours" _);
      [|destruct H as [e' ->]; reflexivity].
    rewrite H. cbn [snd]. now rewrite keeps_refresh_tasks.
  - left. now destruct (bool_decide _).
  - left. apply Hkeep.
    destruct (bool_decide _); [apply keeps_save_schedule|reflexivity].
  - left. apply Hkeep.
    destruct (bool_decide _); [apply keeps_delete_schedule|reflexivity].
Qed.

(** A property kept by every request holds after any sequence of them. *)
Lemma serve_all_invariant (P : store -> Prop) :
  (forall r req s, P s -> P (snd (serve r req s))) ->
  forall reqs s, P s -> P (serve_all reqs s).
Proof.
  intros Hstep reqs. induction reqs as [|[r req] reqs IH]; intros s Hs; simpl.
  - exact Hs.
  - apply IH, Hstep, Hs.
Qed.

(** An exam stays at its position; a request leaves it as it is, or runs
    the update loop or the completion loop on it. *)
Lemma exam_evolution (r : route) (req : request) (s : store) (i : nat) (e : exam) :
  Store.exams_file s !! i = Some e ->
  exists e',
    Store.exams_file (snd (serve r req s)) !! i = Some e' /\
    (e' = e \/
     (exists eid d, e' = add_progress eid (max_float (Fin 0) d) e) \/
     (exists eid a, e' = mark_exam eid (max_float (Fin 0) a) e)).
Proof.
  intros Hi.
  destruct (serve_exams r req s) as [H|[(c & p & H)|[(eid & d & H)|(eid & a & H)]]];
    cbn zeta in H; rewrite H.
  - exists e. split; [exact Hi|now left].
  - exists e. split; [|now left].
    rewrite lookup_app_l; [exact Hi|]. now apply lookup_lt_Some in Hi.
  - eexists. split; [rewrite list_lookup_fmap, Hi; reflexivity|].
    right; left. now exists eid, d.
  - eexists. split; [rewrite list_lookup_fmap, Hi; reflexivity|].
    right; right. now exists eid, a.
Qed.

(** *** Ids *)

Lemma same_ids_tasks (l l' : list task) :
  Forall2 (fun t t' => Task.id t' = Task.id t) l l' ->
  Task.id <$> l' = Task.id <$> l.
Proof. induction 1 as [|t t' l l' Hid _ IH]; csimpl; congruence. Qed.



Lemma add_progress_ids eid add_p (l : list exam) :
  Exam.id <$> (add_progress eid add_p <$> l) = Exam.id <$> l.
Proof.
  rewrite <- list_fmap_compose. apply list_fmap_ext. intros _ e _. simpl.
  unfold add_progress.
  now destruct (bool_decide (Exam.id e = eid) && negb (Exam.completed e)).
Qed.

Lemma mark_exam_ids eid actual (l : list exam) :
  Exam.id <$> (mark_exam eid actual <$> l) = Exam.id <$> l.
Proof.
  rewrite <- list_fmap_compose. apply list_fmap_ext. intros _ e _. simpl.
  unfold mark_exam. now destruct (bool_decide (Exam.id e = eid)).
Qed.



Lemma filter_absent_id (tid : Z) (l : list task) :
  (forall t, t ∈ l -> Task.id t <> tid) ->
  filter (fun x => Task.id x = tid) l = [].
Proof.
  intros Hnone. induction l as [|x l IH]; [reflexivity|].
  rewrite filter_cons_False by (apply Hnone, list_elem_of_here).
  apply IH. intros t Ht. apply Hnone. now apply list_elem_of_further.
Qed.

Lemma filter_unique_id (tid : Z) (l : list task) (t : task) :
  NoDup (Task.id <$> l) -> t ∈ l -> Task.id t = tid ->
  filter (fun x => Task.id x = tid) l = [t].
Proof.
  intros Hnd Hin Hid. induction l as [|x l IH]; [now apply elem_of_nil in Hin|].
  rewrite fmap_cons in Hnd. apply NoDup_cons in Hnd as [Hx Hnd].
  assert (Hnone : forall y, Task.id y ∉ (Task.id <$> l) ->
            filter (fun x => Task.id x = Task.id y) l = []).
  { clear. intros y Hy. induction l as [|z l IH]; [reflexivity|].
    rewrite fmap_cons in Hy. apply not_elem_of_cons in Hy as [Hne Hy].
    rewrite filter_cons_False by congruence. now apply IH. }
  rewrite filter_cons. apply elem_of_cons in Hin as [<- | Hin].
  - rewrite decide_True by exact Hid. f_equal. subst tid. now apply Hnone.
  - rewrite decide_False; [now apply IH|].
    intros Hxid. apply Hx. rewrite Hxid, <- Hid.
    now apply list_elem_of_fmap_2.
Qed.

(** ** Adding a task *)

(** C1.  On an add-task request whose complexity, past hours and minimum
    hours convert, the handler returns and appends exactly one task
    whose [hours] are [max(min_hours, predict_time(...))], the
    prediction being made by the current model from the features stored
    on the task; these hours are at least the task's [min_hours].  On
    every add-task request, such a task is what a handler that returns
    has stored, and a handler that raises has stored nothing. *)
Theorem add_task_predicted_hours (req : request) (s : store) :
  add_task_request req ->
  (forall c p h,
     form_int (Request.form req) "complexity" 0 = Returns c ->
     form_float (Request.form req) "past_hours" (of_int 0) = Returns p ->
     form_float (Request.form req) "min_hours" (of_int 0) = Returns h ->
     exists r s' t,
       home req s = (Returns r, s') /\
       Store.tasks_file s' = Store.tasks_file s ++ [t] /\
       Task.hours t
       = max_float (Task.min_hours t)
           (predict_time (Store.task_model s) (Task.complexity t)
              (Task.past_hours t) (priority_num (Task.priority t))
              (Task.matched_subject t)) /\
       float_ge (Task.hours t) (Task.min_hours t) = true) /\
  (forall r s',
     home req s = (Returns r, s') ->
     exists t,
       Store.tasks_file s' = Store.tasks_file s ++ [t] /\
       Task.hours t
       = max_float (Task.min_hours t)
           (predict_time (Store.task_model s) (Task.complexity t)
              (Task.past_hours t) (priority_num (Task.priority t))
              (Task.matched_subject t)) /\
       float_ge (Task.hours t) (Task.min_hours t) = true) /\
  (forall e s', home req s = (Raises e, s') -> s' = s).
Proof.
  intros Hreq. rewrite (home_add_task_request _ _ Hreq).
  pose proof (home_add_task_cases (Store.subjects_file s) (Request.form req) s) as H.
  assert (Hstored : forall c p h s1,
            exists t,
              Store.tasks_file
                (snd (refresh_all_saved_schedules
                        (Store.set_tasks
                           (Store.tasks_file s
                            ++ [added_task (Store.subjects_file s) (Request.form req)
                                  s c p h]) s1)))
              = Store.tasks_file s ++ [t] /\
              Task.hours t
              = max_float (Task.min_hours t)
                  (predict_time (Store.task_model s) (Task.complexity t)
                     (Task.past_hours t) (priority_num (Task.priority t))
                     (Task.matched_subject t)) /\
              float_ge (Task.hours t) (Task.min_hours t) = true).
  { intros c p h s1. eexists. split; [|split].
    - now rewrite keeps_refresh_tasks.
    - reflexivity.
    - cbn. apply max_float_ge_l. now apply max_float_not_nan. }
  split; [|split].
  - intros c p h Hc Hp Hh. rewrite Hc, Hp, Hh in H.
    destruct H as (s1 & -> & _).
    destruct (Hstored c p h s1) as (t & Ht). eauto.
  - intros r s' Hrun.
    destruct (form_int _ "complexity" 0) as [c|?];
      [|destruct H as [e' H]; congruence].
    destruct (form_float _ "past_hours" _) as [p|?];
      [|destruct H as [e' H]; congruence].
    destruct (form_float _ "min_hours" _) as [h|?];
      [|destruct H as [e' H]; congruence].
    destruct H as (s1 & H & _). rewrite H in Hrun. injection Hrun as _ <-.
    apply Hstored.
  - intros e s' Hrun.
    destruct (form_int _ "complexity" 0) as [c|?];
      [|destruct H as [e' H]; congruence].
    destruct (form_float _ "past_hours" _) as [p|?];
      [|destruct H as [e' H]; congruence].
    destruct (form_float _ "min_hours" _) as [h|?];
      [|destruct H as [e' H]; congruence].
    destruct H as (s1 & H & _). congruence.
Qed.

(** C5.  On an add-task request whose complexity, past hours and minimum
    hours convert to numbers, whatever their values, the handler returns
    and stores one task whose complexity is the submitted one brought
    into [0, 10] (to 0 from below, to 10 from above) and whose
    [past_hours] and [min_hours] are the submitted ones where these are
    positive and [0.0] otherwise, hence never negative. *)
Theorem add_task_clamps_features (req : request) (s : store) (c : Z)
    (p h : pyfloat) :
  add_task_request req ->
  form_int (Request.form req) "complexity" 0 = Returns c ->
  form_float (Request.form req) "past_hours" (of_int 0) = Returns p ->
  form_float (Request.form req) "min_hours" (of_int 0) = Returns h ->
  exists r s' t,
    home req s = (Returns r, s') /\
    Store.tasks_file s' = Store.tasks_file s ++ [t] /\
    Task.complexity t
    = (if bool_decide (c < 0) then 0 else if bool_decide (10 < c) then 10 else c) /\
    0 <= Task.complexity t <= 10 /\
    Task.past_hours t = (if float_gt p (Fin 0) then p else Fin 0) /\
    float_ge (Task.past_hours t) (Fin 0) = true /\
    Task.min_hours t = (if float_gt h (Fin 0) then h else Fin 0) /\
    float_ge (Task.min_hours t) (Fin 0) = true.
Proof.
  intros Hreq Hc Hp Hh. rewrite (home_add_task_request _ _ Hreq).
  pose proof (home_add_task_cases (Store.subjects_file s) (Request.form req) s) as H.
  rewrite Hc, Hp, Hh in H. destruct H as (s1 & -> & Hs1).
  do 3 eexists. split; [reflexivity|]. split.
  { now destruct (refresh_frame
        (Store.set_tasks (Store.tasks_file s
           ++ [added_task (Store.subjects_file s) (Request.form req) s c p h]) s1))
      as (-> & _). }
  cbn. split; [|split; [apply clamp_int_range|]].
  { unfold max_int, min_int. repeat case_bool_decide; lia. }
  split; [reflexivity|]. split; [apply clamp_nonneg|].
  split; [reflexivity|apply clamp_nonneg].
Qed.

(** ** Dates *)

(** C8.  On an add-task request whose numeric fields convert, a deadline
    that [strptime] rejects does not make the handler raise: the task is
    stored with the clock reading of that moment as its deadline.
    Likewise on an add-exam request for the exam date.  The stored
    deadline and exam date are values of [datetime]. *)
Theorem unparsable_date_falls_back_to_now (req : request) (s : store) :
  (forall c p h e,
     add_task_request req ->
     form_int (Request.form req) "complexity" 0 = Returns c ->
     form_float (Request.form req) "past_hours" (of_int 0) = Returns p ->
     form_float (Request.form req) "min_hours" (of_int 0) = Returns h ->
     strptime_ymd (form_get (Request.form req) "deadline" "") = Raises e ->
     exists r s' t,
       home req s = (Returns r, s') /\
       Store.tasks_file s' = Store.tasks_file s ++ [t] /\
       Task.deadline t = now (Store.clock s)) /\
  (forall c p e,
     add_exam_request req ->
     form_int (Request.form req) "exam_confidence" 3 = Returns c ->
     form_float (Request.form req) "exam_progress" (Fin 0) = Returns p ->
     strptime_ymd (form_get (Request.form req) "exam_date" "") = Raises e ->
     exists r s' x,
       home req s = (Returns r, s') /\
       Store.exams_file s' = Store.exams_file s ++ [x] /\
       Exam.exam_date x = now (Store.clock s)).
Proof.
  split.
  - intros c p h e Hreq Hc Hp Hh Hd. rewrite (home_add_task_request _ _ Hreq).
    pose proof (home_add_task_cases (Store.subjects_file s) (Request.form req) s) as H.
    rewrite Hc, Hp, Hh in H. destruct H as (s1 & -> & Hs1).
    do 3 eexists. split; [reflexivity|]. split.
    + now destruct (refresh_frame
          (Store.set_tasks (Store.tasks_file s
             ++ [added_task (Store.subjects_file s) (Request.form req) s c p h]) s1))
        as (-> & _).
    + cbn. now rewrite Hd.
  - intros c p e Hreq Hc Hp Hd. rewrite (home_add_exam_request _ _ Hreq).
    pose proof (home_add_exam_cases (Request.form req) s) as H.
    rewrite Hc, Hp in H. destruct H as (s1 & -> & Hs1).
    do 3 eexists. split; [reflexivity|]. split.
    + now destruct (refresh_frame
          (Store.set_exams (Store.exams_file s
             ++ [added_exam (Request.form req) s c p]) s1))
        as (_ & -> & _).
    + cbn. now rewrite Hd.
Qed.

(** ** Completing a task *)

(** X24.  The complete-task branch retrains the estimator on one example
    for every stored task that carries the submitted id.
    On a complete-task request whose id, hours and minutes convert and
    whose hours are within the range of a float, the handler returns and
    the model afterwards is the model before, retrained once per stored
    task with that id, in order, on the hours recorded.  Hence the model
    is unchanged when no stored task has the id, and it is retrained
    exactly once, on the example of that task, when ids are distinct and
    a stored task has the id. *)
Theorem complete_task_retrains_per_match (req : request) (s : store)
    (tid hh mm : Z) (a : pyfloat) :
  complete_task_request req ->
  form_id (Request.form req) "complete_task_id" = Returns tid ->
  form_int (Request.form req) "actual_hours" 0 = Returns hh ->
  form_int (Request.form req) "actual_minutes" 0 = Returns mm ->
  actual_of hh mm = Returns a ->
  exists r s',
    home req s = (Returns r, s') /\
    Store.task_model s'
    = retrained a (Store.task_model s)
        (filter (fun t => Task.id t = tid) (Store.tasks_file s)) /\
    ((forall t, t ∈ Store.tasks_file s -> Task.id t <> tid) ->
     Store.task_model s' = Store.task_model s) /\
    (forall t,
       NoDup (Task.id <$> Store.tasks_file s) ->
       t ∈ Store.tasks_file s -> Task.id t = tid ->
       Store.task_model s' = retrain_model (Store.task_model s) (observed a t)).
Proof.
  intros Hreq Hid Hh Hm Ha. rewrite (home_complete_task_request _ _ Hreq).
  pose proof (home_complete_task_cases (Request.form req) s) as H.
  rewrite Hid, Hh, Hm, Ha in H. destruct H as (full & s1 & -> & Hmodel & _ & _).
  do 2 eexists. split; [reflexivity|].
  destruct (refresh_frame (Store.set_tasks full s1)) as (_ & _ & _ & _ & ->).
  cbn [Store.task_model Store.set_tasks]. rewrite Hmodel.
  split; [reflexivity|]. split.
  - intros Hnone.
    replace (filter (fun t => Task.id t = tid) (Store.tasks_file s)) with (@nil task);
      [reflexivity|].
    symmetry. now apply filter_absent_id.
  - intros t Hnd Hin Ht. now rewrite (filter_unique_id tid _ t Hnd Hin Ht).
Qed.

(** ** Ids *)


(** ** Exams *)


(** C4.  The [completed] flag of an exam is one-way: an exam stored as
    completed is still stored, at the same position and with the same id,
    as completed after any sequence of requests to any routes. *)
Theorem exam_completed_one_way (reqs : list (route * request)) (s : store)
    (i : nat) (e : exam) :
  Store.exams_file s !! i = Some e ->
  Exam.completed e = true ->
  exists e',
    Store.exams_file (serve_all reqs s) !! i = Some e' /\
    Exam.id e' = Exam.id e /\
    Exam.completed e' = true.
Proof.
  revert s e. induction reqs as [|[r req] reqs IH]; intros s e Hi He; simpl.
  - now exists e.
  - destruct (exam_evolution r req s i e Hi) as (e1 & Hi1 & Hcase).
    assert (H1 : Exam.id e1 = Exam.id e /\ Exam.completed e1 = true).
    { destruct Hcase as [-> | [(eid & d & ->) | (eid & a & ->)]]; [auto|..].
      - unfold add_progress.
        now destruct (bool_decide (Exam.id e = eid) && negb (Exam.completed e)).
      - unfold mark_exam. now destruct (bool_decide (Exam.id e = eid)). }
    destruct H1 as [Hid1 Hc1].
    destruct (IH _ _ Hi1 Hc1) as (e' & Hi' & Hid' & Hc').
    exists e'. repeat split; [exact Hi'|congruence|exact Hc'].
Qed.

(** ** Saved schedules *)

(** C7.  [refresh_all_saved_schedules] regenerates every saved schedule
    in place.  It never raises.  With no stored schedule it leaves the
    whole state as it is.  Otherwise the same number of schedules is
    stored, and the schedule at each position keeps its id, name and
    creation time, gets the freshly generated schedule as its items and
    the clock reading made for it as its update time. *)
Theorem refresh_regenerates_in_place (s : store) :
  let stored := default [] (Store.schedules_file s) in
  let s' := snd (refresh_all_saved_schedules s) in
  fst (refresh_all_saved_schedules s) = Returns tt /\
  (stored = [] -> s' = s) /\
  (stored <> [] ->
   exists stored',
     Store.schedules_file s' = Some stored' /\
     length stored' = length stored /\
     forall i sch, stored !! i = Some sch ->
       exists sch',
         stored' !! i = Some sch' /\
         fst (current_schedule s) = Returns (Saved.items sch') /\
         Saved.updated_at sch' = Datetime.strftime (now (Store.clock s + i)) /\
         Saved.id sch' = Saved.id sch /\
         Saved.name sch' = Saved.name sch /\
         Saved.created_at sch' = Saved.created_at sch).
Proof.
  cbn zeta. rewrite refresh_run. cbn [fst snd].
  split; [reflexivity|]. split.
  - now intros ->.
  - intros Hne.
    destruct (default [] (Store.schedules_file s)) as [|sch0 l] eqn:E; [easy|].
    eexists. split; [reflexivity|]. split; [apply length_imap|].
    intros i sch Hi. eexists. split.
    + rewrite list_lookup_imap, Hi. reflexivity.
    + repeat split; reflexivity.
Qed.

(** C6.  [add_saved_schedule] enforces the cap of five saved schedules.
    With five or more stored it answers [(False, message)] and leaves the
    state, hence the stored list, as it is.  With fewer than five it
    appends exactly one schedule, holding the given items, and answers
    [(True, "Saved.")]. *)
Theorem add_saved_schedule_cap (name : string) (items : list schedule_item)
    (s : store) :
  let stored := default [] (Store.schedules_file s) in
  ((5 <= length stored)%nat ->
   exists message,
     add_saved_schedule name items s = (Returns (false, message), s)) /\
  ((length stored < 5)%nat ->
   exists new s',
     add_saved_schedule name items s = (Returns (true, "Saved."), s') /\
     fst (load_saved_schedules s') = Returns (stored ++ [new]) /\
     Saved.items new = items).
Proof.
  cbn zeta. unfold add_saved_schedule, MAX_SAVED_SCHEDULES.
  split; intros Hlen.
  - eexists. erewrite mbind_returns by reflexivity.
    rewrite bool_decide_eq_true_2 by exact Hlen. reflexivity.
  - erewrite mbind_returns by reflexivity.
    rewrite bool_decide_eq_false_2 by lia.
    destruct (default [] (Store.schedules_file s)) as [|sch l];
      do 2 eexists; (split; [|split]).
    1, 4: repeat (erewrite mbind_returns by reflexivity); reflexivity.
    all: reflexivity.
Qed.

(** * Further properties of the handlers *)

(** ** Requests that raise *)

Lemma never_raises_ret {A} (a : A) : never_raises (ret a).
Proof. intros s. now exists a. Qed.

Lemma never_raises_bind {A B} (c : M A) (k : A -> M B) :
  never_raises c -> (forall a, never_raises (k a)) -> never_raises (mbind c k).
Proof.
  intros Hc Hk s. unfold mbind.
  destruct (Hc s) as [a Ha].
  destruct (c s) as [[a'|e] s1]; simpl in Ha; [apply Hk|discriminate].
Qed.

Lemma never_raises_for_each {A B} (body : A -> M B) (l : list A) :
  (forall x, never_raises (body x)) -> never_raises (for_each body l).
Proof.
  intros Hb. induction l as [|x l IH]; simpl.
  - apply never_raises_ret.
  - apply never_raises_bind; [apply Hb|]. intros y.
    apply never_raises_bind; [apply IH|]. intros ys. apply never_raises_ret.
Qed.

Lemma never_raises_refresh : never_raises refresh_all_saved_schedules.
Proof. intros s. exists tt. apply refresh_returns. Qed.

Lemma never_raises_parse_date text : never_raises (parse_date_or_now text).
Proof.
  intros s. unfold parse_date_or_now.
  destruct (strptime_ymd text); eexists; reflexivity.
Qed.

Lemma atomic_of_never {A} (c : M A) : never_raises c -> atomic c.
Proof. intros Hc s e He. destruct (Hc s) as [a Ha]. congruence. Qed.

Lemma atomic_bind_pure {A B} (c : M A) (k : A -> M B) :
  keeps (fun s => s) c -> (forall a, atomic (k a)) -> atomic (mbind c k).
Proof.
  intros Hc Hk s e. unfold mbind. specialize (Hc s).
  destruct (c s) as [[a|e'] s1]; simpl in *; subst s1.
  - apply Hk.
  - reflexivity.
Qed.

Lemma atomic_bind_never {A B} (c : M A) (k : A -> M B) :
  atomic c -> (forall a, never_raises (k a)) -> atomic (mbind c k).
Proof.
  intros Hc Hk s e. unfold mbind. specialize (Hc s).
  destruct (c s) as [[a|e'] s1]; simpl in *.
  - intros He. destruct (Hk a s1) as [b Hb]. congruence.
  - intros _. now apply (Hc e').
Qed.

Ltac never_tac :=
  repeat first
    [ apply never_raises_ret
    | apply never_raises_refresh
    | apply never_raises_parse_date
    | apply never_raises_bind; [|intros ?]
    | apply never_raises_for_each; intros ?
    | match goal with
      | |- never_raises (match ?x with _ => _ end) => destruct x
      end
    | (intros ?; eexists; reflexivity) ].

Ltac atomic_tac :=
  repeat first
    [ apply atomic_bind_pure; [solve [keeps_tac]|intros ?]
    | match goal with
      | |- atomic (match ?x with _ => _ end) => destruct x
      end
    | apply atomic_of_never; solve [never_tac]
    | apply atomic_bind_never; [|intros ?; solve [never_tac]] ].

Lemma atomic_home_save_prefs form : atomic (home_save_prefs form).
Proof. unfold home_save_prefs. atomic_tac. Qed.

Lemma atomic_home_add_task subjects form : atomic (home_add_task subjects form).
Proof. unfold home_add_task. atomic_tac. Qed.

Lemma atomic_home_complete_task form : atomic (home_complete_task form).
Proof. unfold home_complete_task. atomic_tac. Qed.

Lemma atomic_home_add_exam form : atomic (home_add_exam form).
Proof. unfold home_add_exam. atomic_tac. Qed.

Lemma atomic_home_update_exam form : atomic (home_update_exam form).
Proof. unfold home_update_exam. atomic_tac. Qed.

Lemma atomic_home_complete_exam form : atomic (home_complete_exam form).
Proof. unfold home_complete_exam. atomic_tac. Qed.

Lemma atomic_save_schedule req : atomic (save_schedule req).
Proof. unfold save_schedule, current_schedule, add_saved_schedule. atomic_tac. Qed.

Lemma atomic_delete_schedule req : atomic (delete_schedule req).
Proof. unfold delete_schedule, delete_saved_schedule. atomic_tac. Qed.

(** Rendering reads the files and writes none. *)
Lemma render_home_reads req prefs subjects exams all_tasks show s :
  snd (render_home req prefs subjects exams all_tasks show s) = s.
Proof. reflexivity. Qed.

Lemma generate_reads s : snd (generate s) = s.
Proof. reflexivity. Qed.

(** X1.  A request that raises has written nothing: whatever the route
    and the request, when the handler ends in an exception the files, the
    model and the clock are as they were before the request. *)
Theorem failed_request_writes_nothing (r : route) (req : request) (s : store)
    (e : exn) :
  fst (serve r req s) = Raises e -> snd (serve r req s) = s.
Proof.
  destruct r; unfold serve.
  - destruct (_ || _); [|discriminate].
    rewrite home_run. cbn zeta.
    destruct (bool_decide (Request.method req = "POST"));
      [|intros _; apply render_home_reads].
    destruct (has_key _ "save_prefs"); [apply atomic_home_save_prefs|].
    destruct (has_key _ "edit_prefs"); [intros _; apply render_home_reads|].
    destruct (has_key _ "add_task"); [apply atomic_home_add_task|].
    destruct (has_key _ "complete_task_id"); [apply atomic_home_complete_task|].
    destruct (has_key _ "add_exam"); [apply atomic_home_add_exam|].
    destruct (has_key _ "update_exam_id"); [apply atomic_home_update_exam|].
    destruct (has_key _ "complete_exam_id"); [apply atomic_home_complete_exam|].
    intros _. apply render_home_reads.
  - destruct (bool_decide _); [intros _; apply generate_reads|discriminate].
  - destruct (bool_decide _); [apply atomic_save_schedule|discriminate].
  - destruct (bool_decide _); [apply atomic_delete_schedule|discriminate].
Qed.

(** ** Requests that only read *)

Lemma each_all {A} (body : A -> outcome unit) (l : list A) :
  Forall (fun x => body x = Returns tt) l -> each body l = Returns tt.
Proof.
  induction 1 as [|x l Hx _ IH]; [reflexivity|].
  cbn [each]. now rewrite Hx.
Qed.

Lemma each_some {A} (body : A -> outcome unit) (l : list A) (e : exn) :
  Forall (fun x => body x = Returns tt \/ body x = Raises e) l ->
  Exists (fun x => body x = Raises e) l ->
  each body l = Raises e.
Proof.
  induction 1 as [|x l Hx Hl IH]; intros Hex; [inversion Hex|].
  cbn [each]. destruct Hx as [Hx|Hx]; rewrite Hx; [|reflexivity].
  cbn [Py.bind]. apply IH. inversion Hex as [? ? H|]; [congruence|assumption].
Qed.

(** The preferences form raises exactly when subjects are stored and the
    preferences announce more of them than there are. *)
Lemma preferences_form_cases (p : page) :
  match Page.prefs p, Page.subjects p with
  | Some prefs, _ :: _ =>
      if bool_decide (Z.of_nat (length (Page.subjects p)) < Prefs.num_subjects prefs)
      then preferences_form p = Raises UndefinedError
      else preferences_form p = Returns tt
  | _, _ => preferences_form p = Returns tt
  end.
Proof.
  unfold preferences_form.
  destruct (Page.prefs p) as [prefs|]; [|reflexivity].
  destruct (Page.subjects p) as [|x l] eqn:E; [reflexivity|].
  rewrite <- E. assert (Hlen : (0 < length (Page.subjects p))%nat)
    by (rewrite E; cbn; lia).
  clear E. set (subjects := Page.subjects p) in *.
  case_bool_decide as Hn.
  - apply each_some.
    + apply Forall_forall. intros i _.
      destruct (subjects !! Z.to_nat (i - 1)); [now left|now right].
    + apply Exists_exists. exists (Prefs.num_subjects prefs). split.
      * apply elem_of_seqZ. lia.
      * rewrite lookup_ge_None_2; [reflexivity|lia].
  - apply each_all, Forall_forall. intros i Hi. apply elem_of_seqZ in Hi.
    destruct (lookup_lt_is_Some_2 subjects (Z.to_nat (i - 1))) as [y ->];
      [lia|reflexivity].
Qed.

Lemma schedule_table_shown (p : page) :
  (forall items, Page.schedule p = Some items -> Page.show_schedule p = true ->
     Forall shows_hours items) ->
  schedule_table p = Returns tt.
Proof.
  unfold schedule_table. intros H.
  destruct (Page.schedule p) as [items|]; [|reflexivity].
  destruct (Page.show_schedule p); [|reflexivity].
  apply each_all. specialize (H items eq_refl eq_refl).
  eapply Forall_impl; [exact H|]. intros item [text ->]. reflexivity.
Qed.

(** What [home] does on a request it answers with a page. *)
Lemma home_passive (req : request) (s : store) :
  passive req ->
  home req s
  = render_home req (Store.prefs_file s) (Store.subjects_file s) (Store.exams_file s)
      (match Store.prefs_file s with
       | Some _ => List.filter (fun t => negb (Task.completed t)) (Store.tasks_file s)
       | None => []
       end)
      (editing req) s.
Proof.
  intros Hp. rewrite home_run. cbn zeta. unfold editing.
  destruct Hp as [Hm | (Hsave & [Hedit | Hnone])].
  - now rewrite (bool_decide_eq_false_2 _ Hm).
  - rewrite Hsave, Hedit. now destruct (bool_decide (Request.method req = "POST")).
  - rewrite Hsave.
    repeat match goal with
           | H : Forall _ (_ :: _) |- _ => apply Forall_cons in H; destruct H as [? H]
           end.
    repeat match goal with
           | H : has_key _ _ = _ |- _ => rewrite H; clear H
           end.
    destruct (bool_decide (Request.method req = "POST"));
      [destruct (has_key (Request.form req) "edit_prefs")|]; reflexivity.
Qed.

(** A request that [home] answers with a page: the state stays, and the
    rendering raises in the list of saved schedules, or in the form when
    subjects are missing, and returns the page otherwise. *)
Lemma home_reads (req : request) (s : store) :
  passive req ->
  snd (home req s) = s /\
  (is_Some (Store.prefs_file s) -> editing req = false ->
   asks_saved req = true -> stored_schedules s <> [] ->
   fst (home req s) = Raises TypeError) /\
  (forall prefs, Store.prefs_file s = Some prefs -> editing req = true ->
   Store.subjects_file s <> [] ->
   Z.of_nat (length (Store.subjects_file s)) < Prefs.num_subjects prefs ->
   fst (home req s) = Raises UndefinedError) /\
  ((is_Some (Store.prefs_file s) -> editing req = false ->
    asks_saved req = false \/ stored_schedules s = []) ->
   (forall prefs, Store.prefs_file s = Some prefs -> editing req = true ->
    Store.subjects_file s = [] \/
    Prefs.num_subjects prefs <= Z.of_nat (length (Store.subjects_file s))) ->
   exists p,
     fst (home req s) = Returns (Render p) /\
     Page.all_tasks p
     = match Store.prefs_file s with
       | Some _ => List.filter (fun t => negb (Task.completed t)) (Store.tasks_file s)
       | None => []
       end /\
     Page.schedule p = None /\
     Page.saved_schedules p = stored_schedules s).
Proof.
  intros Hp. rewrite (home_passive req s Hp).
  split; [reflexivity|].
  unfold render_home. run. unfold lift. cbn [fst].
  set (p := Page.make _ _ _ _ _ _ _ _ _ _ _ _).
  pose proof (preferences_form_cases p) as Hform.
  unfold render_template_string.
  cbn [Page.prefs Page.subjects Page.show_pref_form Page.show_saved
       Page.saved_schedules Page.schedule Page.show_schedule p] in *.
  fold (stored_schedules s) in *. fold (asks_saved req) in *.
  split; [|split].
  - intros Hprefs Hedit Hask Hsaved.
    rewrite (bool_decide_eq_true_2 _ Hprefs), Hedit. cbn [negb orb].
    unfold schedule_table, saved_list.
    cbn [Page.schedule Page.show_saved Page.saved_schedules p].
    fold (stored_schedules s). fold (asks_saved req). rewrite Hask.
    now destruct (stored_schedules s).
  - intros prefs Hprefs Hedit Hsub Hlen. rewrite Hedit, orb_true_r.
    rewrite Hprefs in Hform.
    destruct (Store.subjects_file s) as [|x l] eqn:E; [congruence|].
    rewrite (bool_decide_eq_true_2 _ Hlen) in Hform. now rewrite Hform.
  - intros Hsaved Hform'. exists p. split; [|repeat split].
    destruct (Store.prefs_file s) as [prefs|] eqn:Hprefs.
    + rewrite (bool_decide_eq_true_2 (is_Some (Some prefs))) by eauto.
      cbn [negb orb]. destruct (editing req) eqn:Hedit.
      * destruct (Hform' prefs eq_refl eq_refl) as [Hnone|Hle].
        -- rewrite Hnone in Hform. now rewrite Hform.
        -- destruct (Store.subjects_file s) as [|x l] eqn:E;
             [now rewrite Hform|].
           rewrite bool_decide_eq_false_2 in Hform by lia. now rewrite Hform.
      * unfold schedule_table, saved_list.
        cbn [Page.schedule Page.show_saved Page.saved_schedules p Py.bind].
        fold (stored_schedules s). fold (asks_saved req).
        destruct (Hsaved ltac:(eauto) eq_refl) as [-> | ->]; [reflexivity|].
        now destruct (asks_saved req).
    + rewrite bool_decide_eq_false_2 by (intros [? ?]; discriminate).
      cbn [negb orb]. now rewrite Hform.
Qed.

(** X2.  The requests that only read.  A request that [home] answers
    with a page leaves the state as it is, whether the page is rendered
    or not.  The rendering raises [TypeError] when it is to list the
    saved schedules: preferences are stored, the form is not asked for,
    the request carries [show_saved=1] and a schedule is saved.  It
    raises [UndefinedError] when the form is asked for and the stored
    preferences announce more subjects than are stored.  In every other
    case [home] returns the page, which lists the stored tasks that are
    not completed, and no task at all while no preferences are stored,
    and carries no schedule.
    A request to [/generate] leaves the state as it is too; on a POST,
    when no preferences are stored or [format_hours] can show the hours
    of every item of the schedule, it returns the page, which lists the
    tasks that are not completed whether or not preferences are stored,
    and carries the schedule generated from the stored data. *)
Theorem reading_requests_change_nothing (req : request) (s : store) :
  (passive req ->
   snd (home req s) = s /\
   (is_Some (Store.prefs_file s) -> editing req = false ->
    asks_saved req = true -> stored_schedules s <> [] ->
    fst (home req s) = Raises TypeError) /\
   (forall prefs, Store.prefs_file s = Some prefs -> editing req = true ->
    Store.subjects_file s <> [] ->
    Z.of_nat (length (Store.subjects_file s)) < Prefs.num_subjects prefs ->
    fst (home req s) = Raises UndefinedError) /\
   ((is_Some (Store.prefs_file s) -> editing req = false ->
     asks_saved req = false \/ stored_schedules s = []) ->
    (forall prefs, Store.prefs_file s = Some prefs -> editing req = true ->
     Store.subjects_file s = [] \/
     Prefs.num_subjects prefs <= Z.of_nat (length (Store.subjects_file s))) ->
    exists p,
      fst (home req s) = Returns (Render p) /\
      Page.all_tasks p
      = match Store.prefs_file s with
        | Some _ => List.filter (fun t => negb (Task.completed t)) (Store.tasks_file s)
        | None => []
        end /\
      Page.schedule p = None /\
      Page.saved_schedules p = stored_schedules s)) /\
  snd (serve Generate req s) = s /\
  (Request.method req = "POST" ->
   Store.prefs_file s = None \/ Forall shows_hours (regenerated s) ->
   exists p,
     serve Generate req s = (Returns (Render p), s) /\
     Page.all_tasks p
     = List.filter (fun t => negb (Task.completed t)) (Store.tasks_file s) /\
     Page.schedule p = Some (regenerated s)).
Proof.
  split; [apply home_reads|split].
  - unfold serve. destruct (bool_decide _); reflexivity.
  - intros Hm Hok. unfold serve. rewrite (bool_decide_eq_true_2 _ Hm).
    unfold generate. run. unfold lift.
    fold (regenerated s). fold (stored_schedules s).
    set (p := Page.make _ _ _ _ _ _ _ _ _ _ _ _).
    exists p. split; [|split; reflexivity]. f_equal.
    unfold render_template_string.
    pose proof (preferences_form_cases p) as Hform.
    cbn [Page.prefs Page.subjects Page.show_pref_form p] in *.
    destruct (Store.prefs_file s) as [prefs|] eqn:Hprefs.
    + rewrite (bool_decide_eq_true_2 (is_Some (Some prefs))) by eauto.
      cbn [negb orb]. destruct Hok as [Hnone|Hok]; [discriminate|].
      rewrite schedule_table_shown; [reflexivity|].
      intros items Hitems _. cbn [Page.schedule p] in Hitems.
      injection Hitems as <-. exact Hok.
    + rewrite bool_decide_eq_false_2 by (intros [? ?]; discriminate).
      cbn [negb orb]. now rewrite Hform.
Qed.

(** ** Completing a task, in detail *)

Lemma complete_loop_marks (tid : Z) (actual : pyfloat) (l : list task) s :
  exists l' s',
    for_each
      (fun t =>
         if bool_decide (Task.id t = tid) then
           mbind datetime_now (fun today =>
           let pr_num := priority_num (Task.priority t) in
           mbind get_task_model (fun m =>
           mbind (set_task_model
                    (retrain_model m
                       (Observation.make (Task.complexity t) (Task.past_hours t)
                          pr_num actual))) (fun _ =>
           ret (Task.make (Task.id t) (Task.name t) (Task.deadline t) (Task.hours t)
                  (Task.priority t) (Task.complexity t) (Task.past_hours t)
                  (Task.min_hours t) (Task.matched_subject t)
                  true (Some actual) (Some (Datetime.date today))))))
         else ret t) l s
    = (Returns l', s') /\
    Forall2 (task_marked tid actual (Store.clock s)) l l' /\
    (Store.clock s <= Store.clock s')%nat /\
    Store.tasks_file s' = Store.tasks_file s /\
    Store.exams_file s' = Store.exams_file s /\
    Store.prefs_file s' = Store.prefs_file s /\
    Store.subjects_file s' = Store.subjects_file s /\
    Store.schedules_file s' = Store.schedules_file s.
Proof.
  revert s. induction l as [|t l IH]; intros s.
  - exists [], s. split; [reflexivity|]. split; [constructor|].
    split; [lia|]. repeat split.
  - cbn [for_each].
    destruct (decide (Task.id t = tid)) as [Heq|Hne].
    + rewrite (bool_decide_eq_true_2 _ Heq).
      erewrite mbind_returns by reflexivity.
      destruct (IH (Store.set_model
                      (retrain_model (Store.task_model s) (observed actual t))
                      (Store.tick s)))
        as (l' & s' & Hrun & Hall & Hclock & Hframe).
      eexists. exists s'. split; [|split; [|split]].
      * erewrite mbind_returns by exact Hrun. reflexivity.
      * constructor.
        -- unfold task_marked. rewrite decide_True by exact Heq.
           exists (Store.clock s). split; [lia|reflexivity].
        -- eapply Forall2_impl; [exact Hall|].
           intros x y. unfold task_marked. cbn.
           destruct (decide (Task.id x = tid)); [|auto].
           intros (k & Hk & ->). exists k. split; [lia|reflexivity].
      * cbn in Hclock. lia.
      * exact Hframe.
    + rewrite (bool_decide_eq_false_2 _ Hne).
      erewrite mbind_returns by reflexivity.
      destruct (IH s) as (l' & s' & Hrun & Hall & Hclock & Hframe).
      eexists. exists s'. split; [|split; [|split]].
      * erewrite mbind_returns by exact Hrun. reflexivity.
      * constructor; [|exact Hall].
        unfold task_marked. now rewrite decide_False by exact Hne.
      * exact Hclock.
      * exact Hframe.
Qed.

Lemma home_complete_task_marks form s tid hh mm a :
  form_id form "complete_task_id" = Returns tid ->
  form_int form "actual_hours" 0 = Returns hh ->
  form_int form "actual_minutes" 0 = Returns mm ->
  actual_of hh mm = Returns a ->
  exists full s1,
    home_complete_task form s
    = (Returns (Redirect "tasks" false),
       snd (refresh_all_saved_schedules (Store.set_tasks full s1))) /\
    Forall2 (task_marked tid a (Store.clock s)) (Store.tasks_file s) full /\
    (Store.clock s <= Store.clock s1)%nat /\
    Store.tasks_file s1 = Store.tasks_file s /\
    Store.exams_file s1 = Store.exams_file s /\
    Store.prefs_file s1 = Store.prefs_file s /\
    Store.subjects_file s1 = Store.subjects_file s /\
    Store.schedules_file s1 = Store.schedules_file s.
Proof.
  intros Hid Hh Hm Ha. unfold home_complete_task. rewrite Hid, Hh, Hm. run.
  rewrite Ha. run.
  destruct (complete_loop_marks tid a (Store.tasks_file s) s)
    as (full & s1 & Hrun & Hrest).
  exists full, s1. split; [|exact Hrest].
  erewrite mbind_returns by exact Hrun. run. rewrite bind_refresh. reflexivity.
Qed.

Lemma keeps_refresh_prefs : keeps Store.prefs_file refresh_all_saved_schedules.
Proof. intros s. apply refresh_frame. Qed.

Lemma keeps_refresh_subjects : keeps Store.subjects_file refresh_all_saved_schedules.
Proof. intros s. apply refresh_frame. Qed.

Lemma keeps_refresh_model : keeps Store.task_model refresh_all_saved_schedules.
Proof. intros s. apply refresh_frame. Qed.

Ltac keeps_all :=
  repeat first
    [ apply keeps_refresh_tasks
    | apply keeps_refresh_exams
    | apply keeps_refresh_prefs
    | apply keeps_refresh_subjects
    | apply keeps_refresh_model
    | apply keeps_ret
    | apply keeps_lift
    | apply keeps_bind; [|intros ?]
    | apply keeps_for_each; intros ?
    | match goal with
      | |- keeps _ (match ?x with _ => _ end) => destruct x
      end
    | (intros ?; reflexivity) ].

Lemma keeps_tasks_exam_branches form :
  keeps Store.tasks_file (home_add_exam form) /\
  keeps Store.tasks_file (home_update_exam form) /\
  keeps Store.tasks_file (home_complete_exam form).
Proof.
  repeat split;
    unfold home_add_exam, home_update_exam, home_complete_exam, parse_date_or_now;
    keeps_all.
Qed.

(** The stored tasks after any request: as before, or one appended, or
    the completion loop applied to each. *)
Lemma serve_tasks_detail (r : route) (req : request) (s : store) :
  let after := Store.tasks_file (snd (serve r req s)) in
  after = Store.tasks_file s \/
  (exists c p h,
     after = Store.tasks_file s
             ++ [added_task (Store.subjects_file s) (Request.form req) s c p h]) \/
  (exists tid actual,
     Forall2 (task_marked tid actual (Store.clock s)) (Store.tasks_file s) after).
Proof.
  cbn zeta. destruct r; unfold serve.
  - destruct (_ || _); [|now left].
    rewrite home_run. cbn zeta.
    destruct (bool_decide (Request.method req = "POST")); [|now left].
    destruct (has_key _ "save_prefs"); [left; apply keeps_save_prefs|].
    destruct (has_key _ "edit_prefs"); [now left|].
    destruct (has_key _ "add_task").
    { pose proof (home_add_task_cases (Store.subjects_file s) (Request.form req) s) as H.
      destruct (form_int _ "complexity" 0) as [c|];
        [|destruct H as [e' ->]; now left].
      destruct (form_float _ "past_hours" _) as [p|];
        [|destruct H as [e' ->]; now left].
      destruct (form_float _ "min_hours" _) as [h|];
        [|destruct H as [e' ->]; now left].
      destruct H as (s1 & -> & Hs1). cbn [snd].
      right; left. exists c, p, h. now rewrite keeps_refresh_tasks. }
    destruct (has_key _ "complete_task_id").
    { pose proof (home_complete_task_cases (Request.form req) s) as H.
      destruct (form_id _ "complete_task_id") as [tid|] eqn:Hid;
        [|destruct H as [e' ->]; now left].
      destruct (form_int _ "actual_hours" _) as [hh|] eqn:Hh;
        [|destruct H as [e' ->]; now left].
      destruct (form_int _ "actual_minutes" _) as [mm|] eqn:Hm;
        [|destruct H as [e' ->]; now left].
      destruct (actual_of hh mm) as [a|] eqn:Ha; [|rewrite H; now left].
      clear H.
      destruct (home_complete_task_marks _ s _ _ _ _ Hid Hh Hm Ha)
        as (full & s1 & -> & Hall & _).
      cbn [snd]. right; right. exists tid, a.
      now rewrite keeps_refresh_tasks. }
    destruct (has_key _ "add_exam"); [left; apply keeps_tasks_exam_branches|].
    destruct (has_key _ "update_exam_id"); [left; apply keeps_tasks_exam_branches|].
    destruct (has_key _ "complete_exam_id"); [left; apply keeps_tasks_exam_branches|].
    now left.
  - left. now destruct (bool_decide _).
  - left. destruct (bool_decide _); [apply keeps_save_schedule|reflexivity].
  - left. destruct (bool_decide _); [apply keeps_delete_schedule|reflexivity].
Qed.

(** A task stays at its position; a request leaves it as it is, or marks
    it completed. *)
Lemma task_evolution (r : route) (req : request) (s : store) (i : nat) (t : task) :
  Store.tasks_file s !! i = Some t ->
  exists t',
    Store.tasks_file (snd (serve r req s)) !! i = Some t' /\
    (t' = t \/ exists actual today, t' = mark_task actual today t).
Proof.
  intros Hi.
  destruct (serve_tasks_detail r req s)
    as [H|[(c & p & h & H)|(tid & actual & H)]]; cbn zeta in H.
  - rewrite H. exists t. split; [exact Hi|now left].
  - rewrite H. exists t. split; [|now left].
    rewrite lookup_app_l; [exact Hi|]. now apply lookup_lt_Some in Hi.
  - destruct (Forall2_lookup_l _ _ _ _ _ H Hi) as (t' & Hi' & Hmark).
    exists t'. split; [exact Hi'|].
    unfold task_marked in Hmark.
    destruct (decide (Task.id t = tid)); [|now left].
    destruct Hmark as (k & _ & ->). right. eauto.
Qed.

(** The only exception of the arithmetic on the submitted hours and
    minutes is [OverflowError]. *)
Lemma actual_of_raises (hh mm : Z) (e : exn) :
  actual_of hh mm = Raises e -> e = OverflowError.
Proof.
  unfold actual_of, int_true_div, float_of_int.
  rewrite !bool_decide_eq_false_2 by lia.
  destruct (round64 (inject_Z mm / inject_Z 5)); cbn [Py.bind round];
    try congruence.
  destruct (bool_decide _);
    repeat match goal with
           | |- context [match round64 ?x with _ => _ end] =>
               destruct (round64 x); cbn [Py.bind]
           end; congruence.
Qed.

(** X3.  On a complete-task request whose id, hours and minutes convert,
    either the arithmetic on the hours and minutes overflows, and the
    handler raises [OverflowError] with every task left as it was, or it
    gives the hours to record, and the handler returns and keeps every
    stored task at its position.  A task with another id is as before.
    A task with the submitted id is completed, holds the hours to record
    and the day of a clock reading made during the request, and keeps its
    id, name, deadline, predicted hours, priority, complexity, past
    hours, minimum hours and matched subject.  The stored exams are as
    before. *)
Theorem complete_task_marks_matching (req : request) (s : store) (tid hh mm : Z) :
  complete_task_request req ->
  form_id (Request.form req) "complete_task_id" = Returns tid ->
  form_int (Request.form req) "actual_hours" 0 = Returns hh ->
  form_int (Request.form req) "actual_minutes" 0 = Returns mm ->
  (forall e, actual_of hh mm = Raises e ->
     e = OverflowError /\ home req s = (Raises e, s)) /\
  (forall a, actual_of hh mm = Returns a ->
   exists r s',
    home req s = (Returns r, s') /\
    length (Store.tasks_file s') = length (Store.tasks_file s) /\
    Store.exams_file s' = Store.exams_file s /\
    forall i t, Store.tasks_file s !! i = Some t ->
      exists t',
        Store.tasks_file s' !! i = Some t' /\
        (Task.id t <> tid -> t' = t) /\
        (Task.id t = tid ->
         Task.completed t' = true /\
         Task.actual_hours t' = Some a /\
         (exists k, (Store.clock s <= k)%nat /\
                    Task.completion_date t' = Some (Datetime.date (now k))) /\
         Task.id t' = Task.id t /\ Task.name t' = Task.name t /\
         Task.deadline t' = Task.deadline t /\ Task.hours t' = Task.hours t /\
         Task.priority t' = Task.priority t /\
         Task.complexity t' = Task.complexity t /\
         Task.past_hours t' = Task.past_hours t /\
         Task.min_hours t' = Task.min_hours t /\
         Task.matched_subject t' = Task.matched_subject t)).
Proof.
  intros Hreq Hid Hh Hm. rewrite (home_complete_task_request _ _ Hreq). split.
  { intros e He. split; [exact (actual_of_raises _ _ _ He)|].
    pose proof (home_complete_task_cases (Request.form req) s) as H.
    now rewrite Hid, Hh, Hm, He in H. }
  intros a Ha.
  destruct (home_complete_task_marks _ s _ _ _ _ Hid Hh Hm Ha)
    as (full & s1 & -> & Hall & _ & _ & He & _).
  do 2 eexists. split; [reflexivity|].
  split; [rewrite keeps_refresh_tasks; symmetry; eapply Forall2_length, Hall|].
  split; [rewrite keeps_refresh_exams; exact He|].
  intros i t Hi. rewrite keeps_refresh_tasks.
  destruct (Forall2_lookup_l _ _ _ _ _ Hall Hi) as (t' & Hi' & Hmark).
  exists t'. split; [exact Hi'|].
  unfold task_marked in Hmark.
  destruct (decide (Task.id t = tid)) as [Heq|Hne].
  - destruct Hmark as (k & Hk & ->). split; [congruence|]. intros _.
    cbn. repeat split. now exists k.
  - split; [auto|congruence].
Qed.

(** X4.  Once stored, a task keeps its position, id, name, deadline,
    predicted hours, priority, complexity, past hours, minimum hours and
    matched subject through any sequence of requests to any routes, and a
    completed task stays completed: no request re-estimates, renames,
    reorders, removes or reopens a stored task. *)
Theorem stored_task_is_frozen (reqs : list (route * request)) (s : store)
    (i : nat) (t : task) :
  Store.tasks_file s !! i = Some t ->
  exists t',
    Store.tasks_file (serve_all reqs s) !! i = Some t' /\
    Task.id t' = Task.id t /\ Task.name t' = Task.name t /\
    Task.deadline t' = Task.deadline t /\ Task.hours t' = Task.hours t /\
    Task.priority t' = Task.priority t /\
    Task.complexity t' = Task.complexity t /\
    Task.past_hours t' = Task.past_hours t /\
    Task.min_hours t' = Task.min_hours t /\
    Task.matched_subject t' = Task.matched_subject t /\
    (Task.completed t = true -> Task.completed t' = true).
Proof.
  revert s t. induction reqs as [|[r req] reqs IH]; intros s t Hi; simpl.
  - exists t. repeat split; auto.
  - destruct (task_evolution r req s i t Hi) as (t1 & Hi1 & Hcase).
    destruct (IH _ _ Hi1) as (t' & Hi' & H).
    exists t'. split; [exact Hi'|].
    destruct Hcase as [-> | (actual & today & ->)]; [exact H|].
    cbn in H. intuition congruence.
Qed.

(** ** The hours recorded on completion *)

(** For hours and minutes within 32 bits nothing overflows, and the
    hours recorded are within two minutes of the submitted time, up to
    the rounding of the two quotients and of the sum. *)
Lemma actual_of_near (hh mm : Z) :
  Z.abs hh <= 2 ^ 31 -> Z.abs mm <= 2 ^ 31 ->
  exists q,
    actual_of hh mm = Returns (Fin q) /\
    (Qabs (q - (inject_Z hh + inject_Z mm / 60)) <= 2 / 60 + (1 # 1048576))%Q.
Proof.
  intros Hhh Hmm.
  assert (HhQ : (inject_Z (- 2 ^ 31) <= inject_Z hh <= inject_Z (2 ^ 31))%Q)
    by (rewrite <- !Zle_Qle; lia).
  assert (HmQ : (inject_Z (- 2 ^ 31) <= inject_Z mm <= inject_Z (2 ^ 31))%Q)
    by (rewrite <- !Zle_Qle; lia).
  change (inject_Z (- 2 ^ 31)) with (-2147483648)%Q in HhQ, HmQ.
  change (inject_Z (2 ^ 31)) with 2147483648%Q in HhQ, HmQ.
  unfold actual_of, int_true_div, float_of_int.
  rewrite !bool_decide_eq_false_2 by lia.
  change (inject_Z 5) with 5%Q. change (inject_Z 60) with 60%Q.
  unfold Qdiv. change (/ 5)%Q with (1 # 5)%Q. change (/ 60)%Q with (1 # 60)%Q.
  destruct (round64_small (inject_Z mm * (1 # 5)) 536870912) as [-> Hf]; [|lra|].
  { apply Qabs_Qle_condition. split; lra. }
  cbn [Py.bind round].
  set (f := nearest64 (inject_Z mm * (1 # 5))) in *. clearbody f.
  apply Qabs_Qle_condition in Hf.
  pose proof (round_half_even_near f) as [Rlo Rhi].
  set (r := round_half_even f) in *. clearbody r.
  assert (Hr : -2 <= r * 5 - mm <= 2).
  { assert (H1 : (inject_Z (-3) < inject_Z (r * 5 - mm))%Q).
    { unfold Z.sub. rewrite inject_Z_plus, inject_Z_mult, inject_Z_opp.
      change (inject_Z 5) with 5%Q. change (inject_Z (-3)) with (-3)%Q. lra. }
    assert (H2 : (inject_Z (r * 5 - mm) < inject_Z 3)%Q).
    { unfold Z.sub. rewrite inject_Z_plus, inject_Z_mult, inject_Z_opp.
      change (inject_Z 5) with 5%Q. change (inject_Z 3) with 3%Q. lra. }
    rewrite <- Zlt_Qlt in H1, H2. lia. }
  assert (HrQ : (inject_Z mm - 2 <= inject_Z r * 5 <= inject_Z mm + 2)%Q).
  { change 5%Q with (inject_Z 5). change 2%Q with (inject_Z 2).
    rewrite <- inject_Z_mult, <- inject_Z_plus.
    unfold Qminus. change (- inject_Z 2)%Q with (inject_Z (-2)).
    rewrite <- inject_Z_plus, <- !Zle_Qle. lia. }
  clear Hf Rlo Rhi f.
  assert (Hsum : forall (h' m' : Z),
            (inject_Z h' + inject_Z m' * (1 # 60)
             == inject_Z hh + inject_Z r * 5 * (1 # 60))%Q ->
            (- 2147483649 <= inject_Z h' <= 2147483649)%Q ->
            (- 2147483650 <= inject_Z m' <= 2147483650)%Q ->
            Z.abs h' < 2 ^ 53 ->
            exists q,
              (part <- match round64 (inject_Z m' * (1 # 60)) with
                       | Fin v => Returns (Fin v)
                       | _ => Raises OverflowError
                       end ;;
               whole <- match round64 (inject_Z h') with
                        | Fin v => Returns (Fin v)
                        | _ => Raises OverflowError
                        end ;;
               Returns (float64_add whole part))%py = Returns (Fin q) /\
              (Qabs (q - (inject_Z hh + inject_Z mm * (1 # 60)))
               <= 2 * (1 # 60) + (1 # 1048576))%Q).
  { intros h' m' Heq Hh' Hm' Hsmall.
    destruct (round64_small (inject_Z m' * (1 # 60)) 134217728) as [-> Hp]; [|lra|].
    { apply Qabs_Qle_condition. split; lra. }
    destruct (round64_small (inject_Z h') 2147483649) as [-> _]; [|lra|].
    { apply Qabs_Qle_condition. split; lra. }
    cbn [Py.bind float64_add].
    pose proof (nearest64_int (inject_Z h') h' ltac:(reflexivity) Hsmall) as Hw.
    set (part := nearest64 (inject_Z m' * (1 # 60))) in *. clearbody part.
    set (whole := nearest64 (inject_Z h')) in *. clearbody whole.
    apply Qabs_Qle_condition in Hp.
    destruct (round64_small (whole + part) 4294967296) as [-> Ha]; [|lra|].
    { apply Qabs_Qle_condition. split; lra. }
    eexists. split; [reflexivity|].
    set (a := nearest64 (whole + part)) in *. clearbody a.
    apply Qabs_Qle_condition in Ha.
    apply Qabs_Qle_condition. split; lra. }
  case_bool_decide as H60.
  - apply Hsum; [|rewrite inject_Z_plus; change (inject_Z 1) with 1%Q; lra
                 |change (inject_Z 0) with 0%Q; lra|lia].
    assert (E : (inject_Z r * 5 == 60)%Q).
    { change 5%Q with (inject_Z 5). rewrite <- inject_Z_mult, H60. reflexivity. }
    rewrite inject_Z_plus. change (inject_Z 1) with 1%Q. change (inject_Z 0) with 0%Q.
    lra.
  - apply Hsum; [|lra| |lia].
    + rewrite inject_Z_mult. change (inject_Z 5) with 5%Q. reflexivity.
    + rewrite inject_Z_mult. change (inject_Z 5) with 5%Q. lra.
Qed.

(** X5.  On a complete-task request with whole hours [hh] and minutes
    [mm] within 32 bits the handler returns, and the hours recorded on
    every task carrying the submitted id are a finite number that differs
    from [hh] hours [mm] minutes by at most two minutes and the rounding
    of the float operations, [2^-20] hours together.  (They are a
    multiple of five minutes only up to that rounding.) *)
Theorem recorded_hours_are_rounded (req : request) (s : store) (tid hh mm : Z) :
  complete_task_request req ->
  form_id (Request.form req) "complete_task_id" = Returns tid ->
  form_int (Request.form req) "actual_hours" 0 = Returns hh ->
  form_int (Request.form req) "actual_minutes" 0 = Returns mm ->
  Z.abs hh <= 2 ^ 31 -> Z.abs mm <= 2 ^ 31 ->
  exists r s',
    home req s = (Returns r, s') /\
    forall t', t' ∈ Store.tasks_file s' -> Task.id t' = tid ->
      exists q,
        Task.actual_hours t' = Some (Fin q) /\
        (Qabs (q - (inject_Z hh + inject_Z mm / 60)) <= 2 / 60 + (1 # 1048576))%Q.
Proof.
  intros Hreq Hid Hh Hm Hhh Hmm. rewrite (home_complete_task_request _ _ Hreq).
  destruct (actual_of_near hh mm Hhh Hmm) as (q & Ha & Hnear).
  destruct (home_complete_task_marks _ s _ _ _ _ Hid Hh Hm Ha)
    as (full & s1 & -> & Hall & _).
  do 2 eexists. split; [reflexivity|].
  intros t' Hin Ht'. rewrite keeps_refresh_tasks in Hin. cbn in Hin.
  apply list_elem_of_lookup in Hin as [i Hi'].
  destruct (Forall2_lookup_r _ _ _ _ _ Hall Hi') as (t & Hi & Hmark).
  unfold task_marked in Hmark.
  destruct (decide (Task.id t = tid)) as [Heq|Hne].
  - destruct Hmark as (k & _ & ->). cbn. now exists q.
  - subst t'. contradiction.
Qed.

(** ** What stored tasks and exams always satisfy *)

Lemma float_ge_trans (a b c : pyfloat) :
  float_ge a b = true -> float_ge b c = true -> float_ge a c = true.
Proof.
  destruct a as [|[]|x], b as [|[]|y], c as [|[]|z]; simpl; try congruence.
  rewrite !Qle_bool_iff. intros; now apply Qle_trans with y.
Qed.

Lemma added_task_well_formed subjects form s c p h :
  task_well_formed (added_task subjects form s c p h).
Proof.
  unfold task_well_formed, added_task. cbn.
  split; [apply clamp_int_range|]. split; [apply clamp_nonneg|].
  split; [apply clamp_nonneg|]. split.
  - apply max_float_ge_l. now apply max_float_not_nan.
  - split; [auto|discriminate].
Qed.

Lemma mark_task_well_formed actual today t :
  task_well_formed t -> task_well_formed (mark_task actual today t).
Proof.
  unfold task_well_formed, mark_task. cbn.
  intros (Hc & Hp & Hm & Hh & _ & _).
  split; [exact Hc|]. split; [exact Hp|]. split; [exact Hm|]. split; [exact Hh|].
  split; [discriminate|]. intros _. split; eexists; reflexivity.
Qed.

Lemma serve_tasks_well_formed r req s :
  Forall task_well_formed (Store.tasks_file s) ->
  Forall task_well_formed (Store.tasks_file (snd (serve r req s))).
Proof.
  intros Hwf.
  destruct (serve_tasks_detail r req s)
    as [H|[(c & p & h & H)|(tid & actual & H)]]; cbn zeta in H.
  - now rewrite H.
  - rewrite H. apply Forall_app. split; [exact Hwf|].
    apply Forall_singleton, added_task_well_formed.
  - apply Forall_lookup. intros i t' Hi'.
    destruct (Forall2_lookup_r _ _ _ _ _ H Hi') as (t & Hi & Hmark).
    pose proof (Forall_lookup_1 _ _ _ _ Hwf Hi) as Ht.
    unfold task_marked in Hmark.
    destruct (decide (Task.id t = tid)); [|now subst t'].
    destruct Hmark as (k & _ & ->). now apply mark_task_well_formed.
Qed.

(** X6.  Every request to every route keeps the stored tasks well formed,
    and after any sequence of requests on a fresh installation they are:
    complexity within [0, 10], past and minimum hours non-negative
    numbers, predicted hours at least the minimum hours, and the actual
    hours and the completion day recorded exactly on the completed
    tasks. *)
Theorem stored_tasks_well_formed :
  (forall (r : route) (req : request) (s : store),
     Forall task_well_formed (Store.tasks_file s) ->
     Forall task_well_formed (Store.tasks_file (snd (serve r req s)))) /\
  (forall reqs : list (route * request),
     Forall task_well_formed (Store.tasks_file (serve_all reqs Store.initial))).
Proof.
  split; [exact serve_tasks_well_formed|].
  intros reqs.
  apply (serve_all_invariant (fun s => Forall task_well_formed (Store.tasks_file s))).
  - exact serve_tasks_well_formed.
  - constructor.
Qed.

Lemma added_exam_well_formed form s c p : exam_well_formed (added_exam form s c p).
Proof.
  unfold exam_well_formed, added_exam. cbn.
  split; [apply clamp_nonneg|]. split; [reflexivity|]. split; [auto|discriminate].
Qed.

Lemma add_progress_well_formed eid d e :
  exam_well_formed e -> exam_well_formed (add_progress eid (max_float (Fin 0) d) e).
Proof.
  unfold add_progress.
  destruct (bool_decide (Exam.id e = eid) && negb (Exam.completed e)); [|auto].
  unfold exam_well_formed. cbn. intros (Hp & Hpred & Hopen & Hdone).
  split; [|auto].
  eapply float_ge_trans; [|exact Hp].
  apply float_add_ge; [exact Hp|apply clamp_nonneg].
Qed.

Lemma mark_exam_well_formed eid a e :
  exam_well_formed e -> exam_well_formed (mark_exam eid (max_float (Fin 0) a) e).
Proof.
  unfold mark_exam. destruct (bool_decide (Exam.id e = eid)); [|auto].
  unfold exam_well_formed. cbn. intros (Hp & Hpred & _ & _).
  split; [exact Hp|]. split; [exact Hpred|]. split; [discriminate|].
  intros _. eexists. split; [reflexivity|apply clamp_nonneg].
Qed.

Lemma serve_exams_well_formed r req s :
  Forall exam_well_formed (Store.exams_file s) ->
  Forall exam_well_formed (Store.exams_file (snd (serve r req s))).
Proof.
  intros Hwf.
  destruct (serve_exams r req s) as [H|[(c & p & H)|[(eid & d & H)|(eid & a & H)]]];
    cbn zeta in H; rewrite H.
  - exact Hwf.
  - apply Forall_app. split; [exact Hwf|].
    apply Forall_singleton, added_exam_well_formed.
  - apply Forall_fmap. eapply Forall_impl; [exact Hwf|].
    intros e He. now apply add_progress_well_formed.
  - apply Forall_fmap. eapply Forall_impl; [exact Hwf|].
    intros e He. now apply mark_exam_well_formed.
Qed.

(** X7.  Every request to every route keeps the stored exams well formed,
    and after any sequence of requests on a fresh installation they are:
    progress a non-negative number, predicted hours still the [0.0]
    written at creation, and the hours actually spent recorded, as a
    non-negative number, exactly on the completed exams. *)
Theorem stored_exams_well_formed :
  (forall (r : route) (req : request) (s : store),
     Forall exam_well_formed (Store.exams_file s) ->
     Forall exam_well_formed (Store.exams_file (snd (serve r req s)))) /\
  (forall reqs : list (route * request),
     Forall exam_well_formed (Store.exams_file (serve_all reqs Store.initial))).
Proof.
  split; [exact serve_exams_well_formed|].
  intros reqs.
  apply (serve_all_invariant (fun s => Forall exam_well_formed (Store.exams_file s))).
  - exact serve_exams_well_formed.
  - constructor.
Qed.

(** X8.  Once stored, an exam keeps its position, id, subject, name, date,
    desired grade, confidence and predicted hours through any sequence of
    requests to any routes: no request edits, reorders or removes a
    stored exam, and none writes its predicted hours. *)
Theorem stored_exam_is_frozen (reqs : list (route * request)) (s : store)
    (i : nat) (e : exam) :
  Store.exams_file s !! i = Some e ->
  exists e',
    Store.exams_file (serve_all reqs s) !! i = Some e' /\
    Exam.id e' = Exam.id e /\ Exam.subject_name e' = Exam.subject_name e /\
    Exam.exam_name e' = Exam.exam_name e /\ Exam.exam_date e' = Exam.exam_date e /\
    Exam.desired_grade e' = Exam.desired_grade e /\
    Exam.confidence e' = Exam.confidence e /\
    Exam.predicted_hours e' = Exam.predicted_hours e.
Proof.
  revert s e. induction reqs as [|[r req] reqs IH]; intros s e Hi; simpl.
  - exists e. repeat split; auto.
  - destruct (exam_evolution r req s i e Hi) as (e1 & Hi1 & Hcase).
    destruct (IH _ _ Hi1) as (e' & Hi' & H).
    exists e'. split; [exact Hi'|].
    destruct Hcase as [-> | [(eid & d & ->) | (eid & a & ->)]]; [exact H|..].
    + unfold add_progress in H.
      destruct (bool_decide (Exam.id e = eid) && negb (Exam.completed e));
        [cbn in H|]; exact H.
    + unfold mark_exam in H.
      destruct (bool_decide (Exam.id e = eid)); [cbn in H|]; exact H.
Qed.

(** ** Ids count from one *)

Lemma highest_snoc (ids : list Z) (x : Z) :
  highest (ids ++ [x]) = Z.max x (highest ids).
Proof.
  unfold highest. rewrite foldr_app. simpl. apply foldr_max_init.
Qed.

Lemma highest_seqZ (n : nat) : highest (seqZ 1 (Z.of_nat n)) = Z.of_nat n.
Proof.
  induction n as [|n IH]; [reflexivity|].
  rewrite seqZ_S, highest_snoc, IH. lia.
Qed.

Lemma consecutive_snoc (ids : list Z) :
  ids = seqZ 1 (Z.of_nat (length ids)) ->
  ids ++ [highest ids + 1] = seqZ 1 (Z.of_nat (length (ids ++ [highest ids + 1]))).
Proof.
  intros H. rewrite length_app. cbn [length].
  replace (length ids + 1)%nat with (S (length ids)) by lia.
  rewrite seqZ_S, <- H. f_equal. f_equal.
  rewrite H at 1. rewrite highest_seqZ. lia.
Qed.

(** X9.  After any sequence of requests on a fresh installation the ids
    of the stored tasks are 1, 2, 3, ... in the order of their positions,
    and so are the ids of the stored exams. *)
Theorem ids_count_from_one (reqs : list (route * request)) :
  Task.id <$> Store.tasks_file (serve_all reqs Store.initial)
  = seqZ 1 (Z.of_nat (length (Store.tasks_file (serve_all reqs Store.initial)))) /\
  Exam.id <$> Store.exams_file (serve_all reqs Store.initial)
  = seqZ 1 (Z.of_nat (length (Store.exams_file (serve_all reqs Store.initial)))).
Proof.
  apply (serve_all_invariant
           (fun s =>
              Task.id <$> Store.tasks_file s
              = seqZ 1 (Z.of_nat (length (Store.tasks_file s))) /\
              Exam.id <$> Store.exams_file s
              = seqZ 1 (Z.of_nat (length (Store.exams_file s))))).
  - intros r req s [Ht He]. split.
    + destruct (serve_tasks r req s) as [H|(c & p & h & H)]; cbn zeta in H.
      * rewrite (same_ids_tasks _ _ H), <- (Forall2_length _ _ _ H). exact Ht.
      * rewrite H, fmap_app. cbn [fmap list_fmap added_task Task.id].
        rewrite <- (length_fmap Task.id (Store.tasks_file s ++ _)), fmap_app.
        apply consecutive_snoc. now rewrite length_fmap.
    + destruct (serve_exams r req s)
        as [H|[(c & p & H)|[(eid & d & H)|(eid & a & H)]]]; cbn zeta in H; rewrite H.
      * exact He.
      * rewrite fmap_app. cbn [fmap list_fmap added_exam Exam.id].
        rewrite <- (length_fmap Exam.id (Store.exams_file s ++ _)), fmap_app.
        apply consecutive_snoc. now rewrite length_fmap.
      * now rewrite add_progress_ids, length_fmap.
      * now rewrite mark_exam_ids, length_fmap.
  - split; reflexivity.
Qed.

(** ** Exams, in detail *)

(** X10.  On a complete-exam request whose id and hours convert, the
    handler returns and keeps every stored exam at its position.  An exam
    with another id is as before.  An exam with the submitted id, whether
    or not it was completed already, is completed and holds the submitted
    hours where these are positive and [0.0] otherwise; its progress and
    its other fields are as before.  The stored tasks and the estimator
    model are as before: completing an exam never retrains. *)
Theorem complete_exam_marks_matching (req : request) (s : store) (eid : Z)
    (a : pyfloat) :
  complete_exam_request req ->
  form_id (Request.form req) "complete_exam_id" = Returns eid ->
  form_float (Request.form req) "exam_actual_hours" (Fin 0) = Returns a ->
  exists r s',
    home req s = (Returns r, s') /\
    length (Store.exams_file s') = length (Store.exams_file s) /\
    Store.tasks_file s' = Store.tasks_file s /\
    Store.task_model s' = Store.task_model s /\
    forall i e, Store.exams_file s !! i = Some e ->
      exists e',
        Store.exams_file s' !! i = Some e' /\
        (Exam.id e <> eid -> e' = e) /\
        (Exam.id e = eid ->
         Exam.completed e' = true /\
         Exam.actual_hours_spent e' = Some (if float_gt a (Fin 0) then a else Fin 0) /\
         Exam.progress_hours e' = Exam.progress_hours e /\
         Exam.id e' = Exam.id e /\ Exam.subject_name e' = Exam.subject_name e /\
         Exam.exam_name e' = Exam.exam_name e /\
         Exam.exam_date e' = Exam.exam_date e /\
         Exam.desired_grade e' = Exam.desired_grade e /\
         Exam.confidence e' = Exam.confidence e /\
         Exam.predicted_hours e' = Exam.predicted_hours e).
Proof.
  intros Hreq Hid Ha. rewrite (home_complete_exam_request _ _ Hreq).
  pose proof (home_complete_exam_cases (Request.form req) s) as H.
  rewrite Hid, Ha in H. rewrite H. do 2 eexists. split; [reflexivity|].
  split; [rewrite keeps_refresh_exams; apply length_fmap|].
  split; [now rewrite keeps_refresh_tasks|].
  split; [now rewrite keeps_refresh_model|].
  intros i e Hi. rewrite keeps_refresh_exams.
  cbn [Store.exams_file Store.set_exams].
  eexists. split; [rewrite list_lookup_fmap, Hi; reflexivity|].
  unfold mark_exam. split.
  - intros Hne. now rewrite bool_decide_eq_false_2.
  - intros Heq. rewrite bool_decide_eq_true_2 by exact Heq. cbn. repeat split.
Qed.

(** X11.  On an add-exam request whose confidence and progress convert,
    the handler returns and appends one exam: not completed, with no
    actual hours, predicted hours [0.0], the progress the submitted one
    where that is positive and [0.0] otherwise, and the confidence
    exactly as submitted, whatever its value (no range is enforced; it is
    3 when the field is absent).  The stored tasks and the estimator
    model are as before. *)
Theorem add_exam_stores_record (req : request) (s : store) (c : Z) (p : pyfloat) :
  add_exam_request req ->
  form_int (Request.form req) "exam_confidence" 3 = Returns c ->
  form_float (Request.form req) "exam_progress" (Fin 0) = Returns p ->
  exists r s' x,
    home req s = (Returns r, s') /\
    Store.exams_file s' = Store.exams_file s ++ [x] /\
    Store.tasks_file s' = Store.tasks_file s /\
    Store.task_model s' = Store.task_model s /\
    Exam.confidence x = c /\
    Exam.progress_hours x = (if float_gt p (Fin 0) then p else Fin 0) /\
    Exam.completed x = false /\
    Exam.actual_hours_spent x = None /\
    Exam.predicted_hours x = Fin 0 /\
    Exam.exam_name x = strip (form_get (Request.form req) "exam_name" "") /\
    Exam.subject_name x = form_get (Request.form req) "exam_subject" "" /\
    Exam.desired_grade x = form_get (Request.form req) "exam_desired" "B".
Proof.
  intros Hreq Hc Hp. rewrite (home_add_exam_request _ _ Hreq).
  pose proof (home_add_exam_cases (Request.form req) s) as H.
  rewrite Hc, Hp in H. destruct H as (s1 & -> & Hs1).
  do 3 eexists. split; [reflexivity|].
  split; [now rewrite keeps_refresh_exams|].
  split; [rewrite keeps_refresh_tasks; now destruct Hs1 as [-> | ->]|].
  split; [rewrite keeps_refresh_model; now destruct Hs1 as [-> | ->]|].
  cbn. repeat split.
Qed.

(** ** Saving the preferences *)

Lemma subjects_loop (form : gmap string string) (l : list Z) s :
  match
    fst (for_each
           (fun i =>
              mbind (lift (form_int form ("difficulty_" +:+ str_int i) 5))
                (fun difficulty =>
                   ret (Subject.make
                          (form_get form ("subject_name_" +:+ str_int i)
                             ("Subject " +:+ str_int i))
                          difficulty
                          (form_get form ("desired_grade_" +:+ str_int i) "B")
                          (form_get form ("current_grade_" +:+ str_int i) "B"))))
           l s)
  with
  | Returns subjects =>
      Forall2 (fun i sub =>
                 exists d,
                   form_int form ("difficulty_" +:+ str_int i) 5 = Returns d /\
                   sub = submitted_subject form i d) l subjects
  | Raises e =>
      exists i, i ∈ l /\ form_int form ("difficulty_" +:+ str_int i) 5 = Raises e
  end.
Proof.
  induction l as [|i l IH]; [constructor|].
  cbn [for_each].
  destruct (form_int form ("difficulty_" +:+ str_int i) 5) as [d|e] eqn:Hd.
  - erewrite mbind_returns by (unfold mbind, lift; try rewrite Hd; reflexivity).
    match goal with
    | |- context [mbind ?c ?k s] =>
        assert (Hk : snd (c s) = s)
          by (apply (keeps_for_each (fun s => s)); intros x;
              apply keeps_bind; [apply keeps_lift|intros ?; apply keeps_ret]);
        destruct (c s) as [[subjects|e] s1] eqn:Hrun
    end; cbn in IH, Hk; subst s1.
    + erewrite mbind_returns by exact Hrun. cbn.
      constructor; [|exact IH]. now exists d.
    + erewrite mbind_raises by exact Hrun. cbn.
      destruct IH as (j & Hj & Hje). exists j. split; [|exact Hje].
      now apply list_elem_of_further.
  - erewrite mbind_raises by (unfold mbind, lift; try rewrite Hd; reflexivity).
    cbn. exists i. split; [apply list_elem_of_here|exact Hd].
Qed.

Lemma home_save_prefs_request req s :
  save_prefs_request req -> home req s = home_save_prefs (Request.form req) s.
Proof. intros H. dispatch H. reflexivity. Qed.

(** X12.  On a save-preferences request whose number of subjects [n],
    three budgets and the difficulties numbered 1 to [n] convert, the
    handler returns; the stored preferences are the budgets and [n]
    exactly as submitted (nothing is clamped); the stored subjects are
    replaced by [n] subjects ([none] when [n] is not positive), the one
    at position [k] built from the fields numbered [k + 1], named
    ["Subject k+1"] when no name was submitted; the stored tasks and
    exams and the estimator model are as before. *)
Theorem save_prefs_replaces_subjects (req : request) (s : store) (n : Z)
    (d h a : pyfloat) :
  save_prefs_request req ->
  form_int (Request.form req) "num_subjects" 1 = Returns n ->
  (forall i, 1 <= i <= n ->
     exists k, form_int (Request.form req) ("difficulty_" +:+ str_int i) 5 = Returns k) ->
  form_float (Request.form req) "daily_study_hours" (of_int 0) = Returns d ->
  form_float (Request.form req) "hours_per_subject" (of_int 0) = Returns h ->
  form_float (Request.form req) "available_study_time" (of_int 0) = Returns a ->
  exists r s',
    home req s = (Returns r, s') /\
    Store.prefs_file s' = Some (Prefs.make d h a n) /\
    length (Store.subjects_file s') = Z.to_nat n /\
    (forall k sub, Store.subjects_file s' !! k = Some sub ->
       exists dif,
         form_int (Request.form req) ("difficulty_" +:+ str_int (Z.of_nat k + 1)) 5
         = Returns dif /\
         sub = submitted_subject (Request.form req) (Z.of_nat k + 1) dif) /\
    Store.tasks_file s' = Store.tasks_file s /\
    Store.exams_file s' = Store.exams_file s /\
    Store.task_model s' = Store.task_model s.
Proof.
  intros Hreq Hn Hdiff Hd Hh Ha. rewrite (home_save_prefs_request _ _ Hreq).
  unfold home_save_prefs. rewrite Hn, Hd, Hh, Ha. run.
  pose proof (subjects_loop (Request.form req) (seqZ 1 n) s) as Hloop.
  match goal with
  | |- context [mbind ?c ?k s] =>
      assert (Hk : snd (c s) = s)
        by (apply (keeps_for_each (fun s => s)); intros x;
            apply keeps_bind; [apply keeps_lift|intros ?; apply keeps_ret]);
      destruct (c s) as [[subjects|e] s1] eqn:Hrun
  end; cbn in Hloop, Hk; subst s1.
  - erewrite mbind_returns by exact Hrun. run. rewrite bind_refresh.
    do 2 eexists. split; [reflexivity|].
    split; [now rewrite keeps_refresh_prefs|].
    split; [|split; [|split; [now rewrite keeps_refresh_tasks|
                      split; [now rewrite keeps_refresh_exams|
                              now rewrite keeps_refresh_model]]]].
    + rewrite keeps_refresh_subjects. cbn.
      rewrite <- (Forall2_length _ _ _ Hloop). apply length_seqZ.
    + intros k sub Hk. rewrite keeps_refresh_subjects in Hk. cbn in Hk.
      destruct (Forall2_lookup_r _ _ _ _ _ Hloop Hk) as (i & Hi & dif & Hdif & ->).
      apply lookup_seqZ in Hi as [-> _].
      replace (Z.of_nat k + 1) with (1 + Z.of_nat k) by lia. now exists dif.
  - destruct Hloop as (i & Hi & Hie). apply elem_of_seqZ in Hi.
    destruct (Hdiff i) as [k Hk]; [lia|]. congruence.
Qed.

(** ** Saved schedules through the routes *)

Lemma refresh_stored s :
  stored_schedules (snd (refresh_all_saved_schedules s))
  = imap (restamped s) (stored_schedules s).
Proof.
  unfold stored_schedules. rewrite refresh_run. cbn [snd].
  destruct (default [] (Store.schedules_file s)) eqn:E; [exact E|reflexivity].
Qed.

(** The id [add_saved_schedule] gives the next schedule. *)
Lemma add_saved_run (name : string) (items : list schedule_item) s :
  ((5 <= length (stored_schedules s))%nat ->
   add_saved_schedule name items s
   = (Returns (false, "You can only save up to 5 schedules."), s)) /\
  ((length (stored_schedules s) < 5)%nat ->
   exists new_id,
     (new_id = 1 /\ stored_schedules s = [] \/
      max_seq (Saved.id <$> stored_schedules s) = Returns (new_id - 1)) /\
     add_saved_schedule name items s
     = (Returns (true, "Saved."),
        Store.set_schedules
          (Some (stored_schedules s ++
                 [Saved.make _ new_id
                    (if truthy (strip name) then name
                     else "Schedule " +:+ str_int new_id)
                    (Datetime.strftime (now (Store.clock s)))
                    (Datetime.strftime (now (S (Store.clock s)))) items]))
          (Store.tick (Store.tick s)))).
Proof.
  unfold add_saved_schedule, MAX_SAVED_SCHEDULES, stored_schedules.
  split; intros Hlen.
  - erewrite mbind_returns by reflexivity.
    now rewrite bool_decide_eq_true_2 by exact Hlen.
  - erewrite mbind_returns by reflexivity.
    rewrite bool_decide_eq_false_2 by lia.
    destruct (default [] (Store.schedules_file s)) as [|sch l].
    + exists 1. split; [now left|]. run. reflexivity.
    + eexists (foldl max_int (Saved.id sch) (Saved.id <$> l) + 1). split.
      * right. cbn. f_equal. lia.
      * run. reflexivity.
Qed.

Lemma max_seq_bounds (l : list Z) (m : Z) :
  max_seq l = Returns m -> Forall (fun i => i <= m) l.
Proof.
  destruct l as [|x l]; [discriminate|]. cbn. intros [= <-].
  rewrite foldl_max_int.
  assert (H : forall a, a <= foldr Z.max a l /\ Forall (fun i => i <= foldr Z.max a l) l).
  { intros a. induction l as [|y l [IH1 IH2]]; cbn; [split; [lia|constructor]|].
    split; [lia|]. constructor; [lia|].
    eapply Forall_impl; [exact IH2|]. cbn. intros; lia. }
  destruct (H x). now constructor.
Qed.

Lemma filter_flags (k : Z) (l : list saved_schedule) :
  snd <$> filter (fun ks : bool * saved_schedule => fst ks = true)
            ((fun sch => (bool_decide (Saved.id sch <> k), sch)) <$> l)
  = filter (fun sch => Saved.id sch <> k) l.
Proof.
  induction l as [|sch l IH]; [reflexivity|].
  rewrite fmap_cons, !filter_cons. cbn [fst].
  destruct (decide (Saved.id sch <> k)) as [Hne|Heq].
  - rewrite (bool_decide_eq_true_2 _ Hne). rewrite decide_True by reflexivity.
    rewrite fmap_cons. cbn [snd]. now rewrite IH.
  - rewrite (bool_decide_eq_false_2 _ Heq). rewrite decide_False by discriminate.
    exact IH.
Qed.

Lemma delete_saved_run (schedule_id : string) s :
  match stored_schedules s, int_of_str schedule_id with
  | [], _ =>
      delete_saved_schedule schedule_id s
      = (Returns tt, Store.set_schedules (Some []) s)
  | _, Returns k =>
      delete_saved_schedule schedule_id s
      = (Returns tt,
         Store.set_schedules
           (Some (filter (fun sch => Saved.id sch <> k) (stored_schedules s))) s)
  | _, Raises e => delete_saved_schedule schedule_id s = (Raises e, s)
  end.
Proof.
  unfold delete_saved_schedule, stored_schedules. run.
  destruct (default [] (Store.schedules_file s)) as [|sch l]; [reflexivity|].
  destruct (int_of_str schedule_id) as [k|e] eqn:Hk.
  - erewrite mbind_returns
      by (apply (for_each_pure _ (fun sch => (bool_decide (Saved.id sch <> k), sch)));
          intros x s0; reflexivity).
    run. rewrite filter_flags. reflexivity.
  - cbn [for_each].
    erewrite mbind_raises by (erewrite mbind_raises by reflexivity; reflexivity).
    reflexivity.
Qed.

Lemma preserves_bind {A B} (Q : store -> Prop) (c : M A) (k : A -> M B) :
  preserves Q c -> (forall a, preserves Q (k a)) -> preserves Q (mbind c k).
Proof.
  intros Hc Hk s Hs. unfold mbind. specialize (Hc s Hs).
  destruct (c s) as [[a|e] s1]; simpl in *; [now apply Hk|exact Hc].
Qed.

Lemma preserves_for_each {A B} (Q : store -> Prop) (body : A -> M B) (l : list A) :
  (forall x, preserves Q (body x)) -> preserves Q (for_each body l).
Proof.
  intros Hb. induction l as [|x l IH]; simpl; [now intros s|].
  apply preserves_bind; [apply Hb|]. intros y.
  apply preserves_bind; [apply IH|]. now intros ys s.
Qed.

Lemma preserves_keeps {A} (P : list saved_schedule -> Prop) (c : M A) :
  keeps Store.schedules_file c -> preserves (fun s => P (stored_schedules s)) c.
Proof. intros Hc s. unfold stored_schedules. now rewrite Hc. Qed.

Section ScheduleInvariant.

(** A property of the list of saved schedules that restamping, appending
    a schedule with a greater id below the cap, and removing the
    schedules with one id all keep. *)
Variable P : list saved_schedule -> Prop.
Hypothesis P_restamp : forall s l, P l -> P (imap (restamped s) l).
Hypothesis P_append : forall l new,
  P l -> (length l < 5)%nat ->
  Forall (fun sch => Saved.id sch < Saved.id new) l -> P (l ++ [new]).
Hypothesis P_filter : forall l k, P l -> P (filter (fun sch => Saved.id sch <> k) l).

Lemma preserves_refresh :
  preserves (fun s => P (stored_schedules s)) refresh_all_saved_schedules.
Proof. intros s Hs. rewrite refresh_stored. now apply P_restamp. Qed.

Lemma preserves_add name items :
  preserves (fun s => P (stored_schedules s)) (add_saved_schedule name items).
Proof.
  intros s Hs. destruct (add_saved_run name items s) as [Hfull Hroom].
  destruct (le_lt_dec 5 (length (stored_schedules s))) as [Hlen|Hlen].
  - now rewrite (Hfull Hlen).
  - destruct (Hroom Hlen) as (new_id & Hid & ->). cbn.
    apply P_append; [exact Hs|exact Hlen|]. cbn.
    destruct Hid as [[_ ->]|Hmax]; [constructor|].
    apply max_seq_bounds in Hmax. rewrite Forall_fmap in Hmax.
    eapply Forall_impl; [exact Hmax|]. cbn. intros; lia.
Qed.

Lemma preserves_delete schedule_id :
  preserves (fun s => P (stored_schedules s)) (delete_saved_schedule schedule_id).
Proof.
  intros s Hs. pose proof (delete_saved_run schedule_id s) as H.
  destruct (stored_schedules s) as [|sch l] eqn:E.
  - rewrite H. exact (P_filter [] 0 Hs).
  - destruct (int_of_str schedule_id) as [k|e]; rewrite H.
    + exact (P_filter _ k Hs).
    + cbn [snd]. now rewrite E.
Qed.

Ltac preserves_tac :=
  repeat first
    [ apply preserves_refresh
    | apply preserves_add
    | apply preserves_delete
    | apply preserves_keeps; solve [keeps_all]
    | apply preserves_bind; [|intros ?]
    | apply preserves_for_each; intros ?
    | match goal with
      | |- preserves _ (match ?x with _ => _ end) => destruct x
      end ].

(** Every request keeps the property. *)
Lemma serve_preserves (r : route) (req : request) :
  preserves (fun s => P (stored_schedules s)) (serve r req).
Proof.
  destruct r; unfold serve, home, home_save_prefs, home_add_task,
    home_complete_task, home_add_exam, home_update_exam, home_complete_exam,
    render_home, open_tasks, parse_date_or_now, generate, save_schedule,
    current_schedule, delete_schedule; preserves_tac.
Qed.

End ScheduleInvariant.

Lemma restamped_ids s (l : list saved_schedule) :
  Saved.id <$> imap (restamped s) l = Saved.id <$> l.
Proof.
  rewrite fmap_imap. rewrite <- (imap_const Saved.id).
  apply imap_ext. now intros i sch _.
Qed.

Lemma filter_ids_distinct (k : Z) (l : list saved_schedule) :
  NoDup (Saved.id <$> l) ->
  NoDup (Saved.id <$> filter (fun sch => Saved.id sch <> k) l).
Proof.
  induction l as [|sch l IH]; [now rewrite filter_nil|].
  rewrite fmap_cons, NoDup_cons. intros [Hnotin Hnd].
  rewrite filter_cons. destruct (decide (Saved.id sch <> k)); [|now apply IH].
  rewrite fmap_cons. apply NoDup_cons. split; [|now apply IH].
  intros Hin. apply Hnotin.
  apply list_elem_of_fmap in Hin as (x & Hx & Hxin).
  apply list_elem_of_filter in Hxin as [_ Hxin].
  rewrite Hx. now apply list_elem_of_fmap_2.
Qed.

(** X13.  No request makes the list of saved schedules longer than five,
    or than it already is: for any bound of at least five, a list within
    the bound stays within it under every request to every route; after
    any sequence of requests on a fresh installation at most five
    schedules are saved. *)
Theorem saved_schedules_stay_capped :
  (forall (bound : nat) (r : route) (req : request) (s : store),
     (5 <= bound)%nat ->
     (length (stored_schedules s) <= bound)%nat ->
     (length (stored_schedules (snd (serve r req s))) <= bound)%nat) /\
  (forall reqs : list (route * request),
     (length (stored_schedules (serve_all reqs Store.initial)) <= 5)%nat).
Proof.
  assert (Hstep : forall bound r req s,
            (5 <= bound)%nat ->
            (length (stored_schedules s) <= bound)%nat ->
            (length (stored_schedules (snd (serve r req s))) <= bound)%nat).
  { intros bound r req s Hb.
    apply (serve_preserves (fun l => (length l <= bound)%nat)).
    - intros s0 l Hl. now rewrite length_imap.
    - intros l new Hl Hroom _. rewrite length_app. cbn. lia.
    - intros l k Hl. pose proof (length_filter (fun sch => Saved.id sch <> k) l). lia. }
  split; [exact Hstep|].
  intros reqs.
  apply (serve_all_invariant (fun s => (length (stored_schedules s) <= 5)%nat)).
  - intros r req s. now apply Hstep.
  - cbn. lia.
Qed.

(** X14.  Every request to every route keeps the ids of the saved
    schedules distinct, and after any sequence of requests on a fresh
    installation they are distinct. *)
Theorem saved_schedule_ids_distinct :
  (forall (r : route) (req : request) (s : store),
     NoDup (Saved.id <$> stored_schedules s) ->
     NoDup (Saved.id <$> stored_schedules (snd (serve r req s)))) /\
  (forall reqs : list (route * request),
     NoDup (Saved.id <$> stored_schedules (serve_all reqs Store.initial))).
Proof.
  assert (Hstep : forall r req s,
            NoDup (Saved.id <$> stored_schedules s) ->
            NoDup (Saved.id <$> stored_schedules (snd (serve r req s)))).
  { intros r req s.
    apply (serve_preserves (fun l => NoDup (Saved.id <$> l))).
    - intros s0 l Hl. now rewrite restamped_ids.
    - intros l new Hl _ Hlt. rewrite fmap_app. apply NoDup_app.
      split; [exact Hl|]. split; [|apply NoDup_singleton].
      intros x Hx Hin. apply list_elem_of_singleton in Hin. subst x.
      apply list_elem_of_fmap in Hx as (sch & Heq & Hsch).
      rewrite Forall_forall in Hlt. specialize (Hlt _ Hsch). lia.
    - intros l k Hl. now apply filter_ids_distinct. }
  split; [exact Hstep|].
  intros reqs.
  apply (serve_all_invariant (fun s => NoDup (Saved.id <$> stored_schedules s))).
  - exact Hstep.
  - constructor.
Qed.

(** X15.  A POST to [/delete_schedule] whose non-empty [schedule_id]
    converts to [k] returns, and the saved schedules afterwards are those
    saved before whose id is not [k], in the same order: every schedule
    with id [k] is gone and every other one is as it was.  Tasks, exams,
    model and clock are untouched; the remaining schedules are not
    regenerated. *)
Theorem delete_schedule_removes_id (req : request) (s : store)
    (schedule_id : string) (k : Z) :
  Request.method req = "POST" ->
  Request.form req !! "schedule_id" = Some schedule_id ->
  truthy schedule_id = true ->
  int_of_str schedule_id = Returns k ->
  exists r s',
    serve DeleteSchedule req s = (Returns r, s') /\
    stored_schedules s' = filter (fun sch => Saved.id sch <> k) (stored_schedules s) /\
    (forall sch, sch ∈ stored_schedules s' <->
                 sch ∈ stored_schedules s /\ Saved.id sch <> k) /\
    Store.tasks_file s' = Store.tasks_file s /\
    Store.exams_file s' = Store.exams_file s /\
    Store.task_model s' = Store.task_model s /\
    Store.clock s' = Store.clock s.
Proof.
  intros Hm Hform Htruthy Hk.
  unfold serve. rewrite (bool_decide_eq_true_2 _ Hm).
  unfold delete_schedule. rewrite Hform, Htruthy.
  pose proof (delete_saved_run schedule_id s) as Hrun. rewrite Hk in Hrun.
  assert (Hdel : delete_saved_schedule schedule_id s
                 = (Returns tt,
                    Store.set_schedules
                      (Some (filter (fun sch => Saved.id sch <> k)
                               (stored_schedules s))) s)).
  { destruct (stored_schedules s); exact Hrun. }
  erewrite mbind_returns by exact Hdel.
  do 2 eexists. split; [reflexivity|]. split; [reflexivity|].
  split; [|repeat split].
  intros sch. cbn. rewrite list_elem_of_filter. tauto.
Qed.

(** X16.  The other cases of [/delete_schedule] on a POST.  Without a
    [schedule_id], or with an empty one, nothing changes.  With one that
    does not convert, the handler raises, leaving the state as it is,
    when some schedule is saved; when none is saved it returns without
    ever converting the id, and no schedule is saved afterwards. *)
Theorem delete_schedule_edge_cases (req : request) (s : store) :
  Request.method req = "POST" ->
  ((Request.form req !! "schedule_id" = None \/
    Request.form req !! "schedule_id" = Some "") ->
   serve DeleteSchedule req s = (Returns (Redirect "tasks" true), s)) /\
  (forall schedule_id e,
     Request.form req !! "schedule_id" = Some schedule_id ->
     truthy schedule_id = true ->
     int_of_str schedule_id = Raises e ->
     stored_schedules s <> [] ->
     serve DeleteSchedule req s = (Raises e, s)) /\
  (forall schedule_id,
     Request.form req !! "schedule_id" = Some schedule_id ->
     truthy schedule_id = true ->
     stored_schedules s = [] ->
     exists s',
       serve DeleteSchedule req s = (Returns (Redirect "tasks" true), s') /\
       stored_schedules s' = []).
Proof.
  intros Hm. unfold serve. rewrite (bool_decide_eq_true_2 _ Hm).
  unfold delete_schedule. split; [|split].
  - now intros [-> | ->].
  - intros schedule_id e Hform Htruthy Hk Hne. rewrite Hform, Htruthy.
    pose proof (delete_saved_run schedule_id s) as Hrun. rewrite Hk in Hrun.
    destruct (stored_schedules s); [contradiction|].
    now erewrite mbind_raises by exact Hrun.
  - intros schedule_id Hform Htruthy Hnil. rewrite Hform, Htruthy.
    pose proof (delete_saved_run schedule_id s) as Hrun. rewrite Hnil in Hrun.
    erewrite mbind_returns by exact Hrun. eexists. split; reflexivity.
Qed.

(** ** Naming a saved schedule *)

Lemma blank_rev_app (s acc : string) :
  blank (String.rev_app s acc) = blank s && blank acc.
Proof.
  revert acc. induction s as [|c s IH]; intros acc; cbn; [reflexivity|].
  rewrite IH. cbn. destruct (is_space c), (blank s), (blank acc); reflexivity.
Qed.

Lemma blank_lstrip (s : string) : blank (lstrip s) = blank s.
Proof.
  induction s as [|c s IH]; cbn; [reflexivity|].
  destruct (is_space c) eqn:E; cbn; [exact IH|now rewrite E].
Qed.

Lemma blank_strip (s : string) : blank (strip s) = blank s.
Proof.
  unfold strip, String.rev.
  rewrite blank_rev_app, blank_lstrip, blank_rev_app, blank_lstrip. cbn.
  now rewrite !andb_true_r.
Qed.

Lemma rev_app_empty (s acc : string) :
  String.rev_app s acc = EmptyString -> s = EmptyString /\ acc = EmptyString.
Proof.
  revert acc. induction s as [|c s IH]; intros acc; cbn; [auto|].
  intros H. apply IH in H as [_ H]. discriminate.
Qed.

Lemma lstrip_empty (s : string) : lstrip s = EmptyString -> blank s = true.
Proof.
  induction s as [|c s IH]; cbn; [reflexivity|].
  destruct (is_space c); [exact IH|discriminate].
Qed.

Lemma lstrip_blank (s : string) : blank s = true -> lstrip s = EmptyString.
Proof.
  induction s as [|c s IH]; cbn; [reflexivity|].
  destruct (is_space c); [exact IH|discriminate].
Qed.

(** [s.strip()] is empty exactly when [s] holds white space only. *)
Lemma truthy_strip (s : string) : truthy (strip s) = negb (blank s).
Proof.
  destruct (blank s) eqn:Hb; cbn.
  - unfold strip. rewrite (lstrip_blank s Hb). reflexivity.
  - destruct (strip s) eqn:Hs; [|reflexivity].
    unfold strip, String.rev in Hs.
    apply rev_app_empty in Hs as [Hs _]. apply lstrip_empty in Hs.
    unfold String.rev in Hs. rewrite blank_rev_app, blank_lstrip in Hs.
    rewrite andb_true_r in Hs. congruence.
Qed.

(** X17.  A POST to [/save_schedule] never raises and always answers
    with the same redirect.  With five or more schedules saved it changes
    nothing, and the refusal of [add_saved_schedule] is not reported.
    With fewer it appends one schedule whose items are the schedule
    generated from the stored data, whose id is above every saved id,
    and whose name is the submitted name stripped of white space, or
    ["Saved Schedule"] when that is empty: the name ["Schedule N"] of
    [add_saved_schedule] is never given through this route.  Tasks,
    exams and model are untouched. *)
Theorem save_schedule_appends_current (req : request) (s : store) :
  Request.method req = "POST" ->
  ((5 <= length (stored_schedules s))%nat ->
   serve SaveSchedule req s = (Returns (Redirect "tasks" true), s)) /\
  ((length (stored_schedules s) < 5)%nat ->
   exists s' new,
     serve SaveSchedule req s = (Returns (Redirect "tasks" true), s') /\
     stored_schedules s' = stored_schedules s ++ [new] /\
     Saved.items new = regenerated s /\
     Saved.name new
     = (if truthy (strip (form_get (Request.form req) "schedule_name" ""))
        then strip (form_get (Request.form req) "schedule_name" "")
        else "Saved Schedule") /\
     Forall (fun sch => Saved.id sch < Saved.id new) (stored_schedules s) /\
     Store.tasks_file s' = Store.tasks_file s /\
     Store.exams_file s' = Store.exams_file s /\
     Store.task_model s' = Store.task_model s).
Proof.
  intros Hm. unfold serve. rewrite (bool_decide_eq_true_2 _ Hm).
  unfold save_schedule, current_schedule. run.
  set (name := if truthy (strip (form_get (Request.form req) "schedule_name" ""))
               then strip (form_get (Request.form req) "schedule_name" "")
               else "Saved Schedule").
  assert (Hname : truthy (strip name) = true).
  { unfold name.
    destruct (truthy (strip (form_get (Request.form req) "schedule_name" ""))) eqn:E;
      [|reflexivity].
    rewrite truthy_strip, blank_strip, <- truthy_strip. exact E. }
  destruct (add_saved_run name
              (generate_schedule
                 (Store.tasks_file s ++
                  prepare_exam_tasks (Store.exams_file s) (Store.subjects_file s)
                    (build_exam_model (Store.subjects_file s)))
                 (Store.prefs_file s)) s) as [Hfull Hroom].
  split; intros Hlen.
  - erewrite mbind_returns by exact (Hfull Hlen). reflexivity.
  - destruct (Hroom Hlen) as (new_id & Hid & Hrun).
    erewrite mbind_returns by exact Hrun.
    do 2 eexists. split; [reflexivity|]. split; [reflexivity|].
    split; [reflexivity|]. split; [cbn; now rewrite Hname|].
    split; [|repeat split].
    cbn. destruct Hid as [[_ ->]|Hmax]; [constructor|].
    apply max_seq_bounds in Hmax. rewrite Forall_fmap in Hmax.
    eapply Forall_impl; [exact Hmax|]. cbn. intros; lia.
Qed.

(** ** Adding a task, in detail *)

(** X22.  On an add-task request whose numeric fields convert, the stored
    task carries the submitted name stripped of white space and the
    priority text exactly as submitted (["medium"] when absent; an
    unknown text is stored as it is and weighs 2 in the prediction); it
    is not completed and has no actual hours or completion day.  Its
    matched subject, when present, is a stored subject bearing the
    submitted subject name, and is absent only when no stored subject
    bears it.
    The stored exams, preferences and subjects and the estimator model
    are as before: adding a task never retrains. *)
Theorem add_task_stores_record (req : request) (s : store) (c : Z) (p h : pyfloat) :
  add_task_request req ->
  form_int (Request.form req) "complexity" 0 = Returns c ->
  form_float (Request.form req) "past_hours" (of_int 0) = Returns p ->
  form_float (Request.form req) "min_hours" (of_int 0) = Returns h ->
  exists r s' t,
    home req s = (Returns r, s') /\
    Store.tasks_file s' = Store.tasks_file s ++ [t] /\
    Task.name t = strip (form_get (Request.form req) "task" "") /\
    Task.priority t = form_get (Request.form req) "priority" "medium" /\
    Task.completed t = false /\
    Task.actual_hours t = None /\ Task.completion_date t = None /\
    (forall sub, Task.matched_subject t = Some sub ->
       sub ∈ Store.subjects_file s /\
       Request.form req !! "subject_name" = Some (Subject.name sub)) /\
    (Task.matched_subject t = None ->
     forall sub, sub ∈ Store.subjects_file s ->
       Request.form req !! "subject_name" <> Some (Subject.name sub)) /\
    Store.exams_file s' = Store.exams_file s /\
    Store.prefs_file s' = Store.prefs_file s /\
    Store.subjects_file s' = Store.subjects_file s /\
    Store.task_model s' = Store.task_model s.
Proof.
  intros Hreq Hc Hp Hh. rewrite (home_add_task_request _ _ Hreq).
  pose proof (home_add_task_cases (Store.subjects_file s) (Request.form req) s) as H.
  rewrite Hc, Hp, Hh in H. destruct H as (s1 & -> & Hs1).
  do 3 eexists. split; [reflexivity|].
  split; [now rewrite keeps_refresh_tasks|].
  rewrite keeps_refresh_exams, keeps_refresh_prefs, keeps_refresh_subjects,
    keeps_refresh_model.
  cbn [added_task Task.name Task.priority Task.completed Task.actual_hours
       Task.completion_date Task.matched_subject].
  split; [reflexivity|]. split; [reflexivity|]. split; [reflexivity|].
  split; [reflexivity|]. split; [reflexivity|]. split; [|split].
  - intros sub Hfind. apply find_some in Hfind as [Hin Hname].
    apply bool_decide_eq_true in Hname. split; [|now symmetry].
    now apply list_elem_of_In.
  - intros Hfind sub Hin Hname.
    apply list_elem_of_In in Hin.
    pose proof (find_none _ _ Hfind sub Hin) as Hno. cbn in Hno.
    apply bool_decide_eq_false in Hno. apply Hno. now symmetry.
  - destruct Hs1 as [-> | ->]; repeat split.
Qed.

(** ** Which request writes what *)

Lemma frames_save_prefs form :
  keeps Store.tasks_file (home_save_prefs form) /\
  keeps Store.exams_file (home_save_prefs form) /\
  keeps Store.task_model (home_save_prefs form).
Proof. repeat split; unfold home_save_prefs; keeps_all. Qed.

Lemma frames_add_task subjects form :
  keeps Store.exams_file (home_add_task subjects form) /\
  keeps Store.prefs_file (home_add_task subjects form) /\
  keeps Store.subjects_file (home_add_task subjects form) /\
  keeps Store.task_model (home_add_task subjects form).
Proof. repeat split; unfold home_add_task, parse_date_or_now; keeps_all. Qed.

Lemma frames_complete_task form :
  keeps Store.exams_file (home_complete_task form) /\
  keeps Store.prefs_file (home_complete_task form) /\
  keeps Store.subjects_file (home_complete_task form).
Proof. repeat split; unfold home_complete_task; keeps_all. Qed.

Lemma frames_exam_branches form :
  (keeps Store.tasks_file (home_add_exam form) /\
   keeps Store.prefs_file (home_add_exam form) /\
   keeps Store.subjects_file (home_add_exam form) /\
   keeps Store.task_model (home_add_exam form)) /\
  (keeps Store.tasks_file (home_update_exam form) /\
   keeps Store.prefs_file (home_update_exam form) /\
   keeps Store.subjects_file (home_update_exam form) /\
   keeps Store.task_model (home_update_exam form)) /\
  (keeps Store.tasks_file (home_complete_exam form) /\
   keeps Store.prefs_file (home_complete_exam form) /\
   keeps Store.subjects_file (home_complete_exam form) /\
   keeps Store.task_model (home_complete_exam form)).
Proof.
  repeat split;
    unfold home_add_exam, home_update_exam, home_complete_exam, parse_date_or_now;
    keeps_all.
Qed.

Lemma frames_schedule_routes req :
  (keeps Store.tasks_file (save_schedule req) /\
   keeps Store.exams_file (save_schedule req) /\
   keeps Store.prefs_file (save_schedule req) /\
   keeps Store.subjects_file (save_schedule req) /\
   keeps Store.task_model (save_schedule req)) /\
  (keeps Store.tasks_file (delete_schedule req) /\
   keeps Store.exams_file (delete_schedule req) /\
   keeps Store.prefs_file (delete_schedule req) /\
   keeps Store.subjects_file (delete_schedule req) /\
   keeps Store.task_model (delete_schedule req)).
Proof.
  repeat split;
    unfold save_schedule, current_schedule, add_saved_schedule, delete_schedule,
      delete_saved_schedule;
    keeps_all.
Qed.

(** X23.  Each file is written only by the requests meant for it.  The
    preferences and the subjects change only on a save-preferences
    request to [/]; the tasks only on an add-task or complete-task
    request; the exams only on an add-exam, update-progress or
    complete-exam request; and the estimator model only on a
    complete-task request.  No request to [/generate], [/save_schedule]
    or [/delete_schedule] changes any of them. *)
Theorem requests_write_their_own_files (r : route) (req : request) (s : store) :
  let s' := snd (serve r req s) in
  (~ (r = Home /\ save_prefs_request req) ->
   Store.prefs_file s' = Store.prefs_file s /\
   Store.subjects_file s' = Store.subjects_file s) /\
  (~ (r = Home /\ (add_task_request req \/ complete_task_request req)) ->
   Store.tasks_file s' = Store.tasks_file s) /\
  (~ (r = Home /\
      (add_exam_request req \/ update_exam_request req \/ complete_exam_request req)) ->
   Store.exams_file s' = Store.exams_file s) /\
  (~ (r = Home /\ complete_task_request req) ->
   Store.task_model s' = Store.task_model s).
Proof.
  cbn zeta. destruct r; unfold serve.
  - destruct (_ || _); [|repeat split].
    rewrite home_run. cbn zeta.
    destruct (bool_decide (Request.method req = "POST")) eqn:Hpost; [|repeat split].
    apply bool_decide_eq_true in Hpost.
    destruct (has_key _ "save_prefs") eqn:K1.
    { split; [|repeat split; intros _; apply frames_save_prefs].
      intros Hno. exfalso. apply Hno. repeat first [assumption | constructor]. }
    destruct (has_key _ "edit_prefs") eqn:K2; [repeat split|].
    destruct (has_key _ "add_task") eqn:K3.
    { split; [intros _; split; apply frames_add_task|].
      split; [|split; intros _; apply frames_add_task].
      intros Hno. exfalso. apply Hno. split; [reflexivity|left].
      repeat first [assumption | constructor]. }
    destruct (has_key _ "complete_task_id") eqn:K4.
    { split; [intros _; split; apply frames_complete_task|].
      split; [|split; [intros _; apply frames_complete_task|]].
      - intros Hno. exfalso. apply Hno. split; [reflexivity|right].
        repeat first [assumption | constructor].
      - intros Hno. exfalso. apply Hno. split; [reflexivity|].
        repeat first [assumption | constructor]. }
    destruct (has_key _ "add_exam") eqn:K5.
    { split; [intros _; split; apply frames_exam_branches|].
      split; [intros _; apply frames_exam_branches|].
      split; [|intros _; apply frames_exam_branches].
      intros Hno. exfalso. apply Hno. split; [reflexivity|left].
      repeat first [assumption | constructor]. }
    destruct (has_key _ "update_exam_id") eqn:K6.
    { split; [intros _; split; apply frames_exam_branches|].
      split; [intros _; apply frames_exam_branches|].
      split; [|intros _; apply frames_exam_branches].
      intros Hno. exfalso. apply Hno. split; [reflexivity|right; left].
      repeat first [assumption | constructor]. }
    destruct (has_key _ "complete_exam_id") eqn:K7; [|repeat split].
    split; [intros _; split; apply frames_exam_branches|].
    split; [intros _; apply frames_exam_branches|].
    split; [|intros _; apply frames_exam_branches].
    intros Hno. exfalso. apply Hno. split; [reflexivity|right; right].
    repeat first [assumption | constructor].
  - destruct (bool_decide _); repeat split.
  - destruct (bool_decide _); [|repeat split].
    repeat split; intros; apply frames_schedule_routes.
  - destruct (bool_decide _); [|repeat split].
    repeat split; intros; apply frames_schedule_routes.
Qed.

(** ** Saved schedules follow the data *)

Lemma refresh_in_sync s : in_sync (snd (refresh_all_saved_schedules s)).
Proof.
  unfold in_sync. rewrite refresh_stored.
  assert (Hreg : regenerated (snd (refresh_all_saved_schedules s)) = regenerated s).
  { unfold regenerated.
    destruct (refresh_frame s) as (-> & -> & -> & -> & _). reflexivity. }
  rewrite Hreg. apply Forall_lookup. intros i sch Hi.
  rewrite list_lookup_imap in Hi.
  destruct (stored_schedules s !! i); [|discriminate].
  injection Hi as <-. reflexivity.
Qed.

Lemma sync_bind {A} (c : M A) (k : A -> M response) :
  (forall a, ends_in_sync (k a)) -> ends_in_sync (mbind c k).
Proof.
  intros Hk s tab shown s'. unfold mbind.
  destruct (c s) as [[a|e] s1]; [apply Hk|discriminate].
Qed.

Lemma sync_refresh (r : response) :
  ends_in_sync (mbind refresh_all_saved_schedules (fun _ => ret r)).
Proof.
  intros s tab shown s'. rewrite bind_refresh. intros [= _ <-].
  apply refresh_in_sync.
Qed.

Lemma sync_render req prefs subjects exams all_tasks show :
  ends_in_sync (render_home req prefs subjects exams all_tasks show).
Proof.
  intros s tab shown s'. unfold render_home. run.
  unfold lift, render_template_string.
  match goal with
  | |- context [Py.bind ?c _] => destruct c
  end; discriminate.
Qed.

Ltac sync_tac :=
  repeat first
    [ apply sync_refresh
    | apply sync_render
    | apply sync_bind; intros ?
    | match goal with
      | |- ends_in_sync (match ?x with _ => _ end) => destruct x
      end ].

(** X18.  Whenever [home] answers with a redirect, that is, after every
    request to [/] that changed the preferences, the tasks or the exams,
    each saved schedule holds the schedule generated from the data as
    they are stored after the request. *)
Theorem redirect_leaves_schedules_in_sync (req : request) (s s' : store)
    (tab : string) (shown : bool) :
  home req s = (Returns (Redirect tab shown), s') -> in_sync s'.
Proof.
  revert s tab shown s'. change (ends_in_sync (home req)).
  unfold home, home_save_prefs, home_add_task, home_complete_task,
    home_add_exam, home_update_exam, home_complete_exam.
  sync_tac.
Qed.

(** ** The list of saved schedules *)

Lemma pages_bind {A} (P : page -> Prop) (c : M A) (k : A -> M response) :
  (forall a, pages_satisfy P (k a)) -> pages_satisfy P (mbind c k).
Proof.
  intros Hk s s' p. unfold mbind.
  destruct (c s) as [[a|e] s1]; [apply Hk|discriminate].
Qed.

Lemma pages_redirect (P : page -> Prop) tab shown :
  pages_satisfy P (ret (Redirect tab shown)).
Proof. intros s s' p. discriminate. Qed.

(** A page that is to list the saved schedules is rendered only when
    there is none. *)
Lemma pages_render req prefs subjects exams all_tasks show :
  pages_satisfy
    (fun p => is_Some (Page.prefs p) -> Page.show_pref_form p = false ->
              Page.show_saved p = true -> Page.saved_schedules p = [])
    (render_home req prefs subjects exams all_tasks show).
Proof.
  intros s s' p. unfold render_home. run.
  unfold lift, render_template_string.
  set (p0 := Page.make _ _ _ _ _ _ _ _ _ _ _ _).
  intros H0 Hprefs Hform Hshow.
  assert (Hp0 : p0 = p).
  { destruct (negb _ || _);
      [destruct (preferences_form p0)
      |destruct (schedule_table p0); [destruct (saved_list p0)|]];
      cbn in H0; congruence. }
  rewrite Hp0 in H0.
  rewrite (bool_decide_eq_true_2 _ Hprefs), Hform in H0. cbn [negb orb] in H0.
  unfold saved_list in H0. rewrite Hshow in H0.
  destruct (Page.saved_schedules p); [reflexivity|].
  destruct (schedule_table p); cbn in H0; discriminate.
Qed.

Ltac pages_tac :=
  repeat first
    [ apply pages_redirect
    | apply pages_render
    | apply pages_bind; intros ?
    | match goal with
      | |- pages_satisfy _ (match ?x with _ => _ end) => destruct x
      end ].

(** X25.  The saved schedules are never displayed.  Whenever [home]
    returns a page that is to list the saved schedules (preferences
    stored, the form not shown, [show_saved] set), none is saved.  And
    with preferences stored, a POST to [/save_schedule] returns its
    redirect, a schedule is saved afterwards, and the request the
    redirect names, [GET /?tab=tasks&show_saved=1], raises [TypeError]:
    the template iterates over [s.items], which on the dict [s] is the
    method [items], not the entry. *)
Theorem saved_schedules_never_displayed :
  (forall (req : request) (s s' : store) (p : page),
     home req s = (Returns (Render p), s') ->
     is_Some (Page.prefs p) -> Page.show_pref_form p = false ->
     Page.show_saved p = true ->
     Page.saved_schedules p = []) /\
  (forall (req : request) (s : store),
     Request.method req = "POST" ->
     is_Some (Store.prefs_file s) ->
     exists s',
       serve SaveSchedule req s = (Returns (Redirect "tasks" true), s') /\
       stored_schedules s' <> [] /\
       serve Home (followed "tasks" true) s' = (Raises TypeError, s')).
Proof.
  split.
  - intros req. 
    change (pages_satisfy
              (fun p => is_Some (Page.prefs p) -> Page.show_pref_form p = false ->
                        Page.show_saved p = true -> Page.saved_schedules p = [])
              (home req)).
    unfold home, home_save_prefs, home_add_task, home_complete_task,
      home_add_exam, home_update_exam, home_complete_exam.
    pages_tac.
  - intros req s Hm Hprefs.
    assert (Hfollow : forall s', is_Some (Store.prefs_file s') ->
              stored_schedules s' <> [] ->
              serve Home (followed "tasks" true) s' = (Raises TypeError, s')).
    { intros s' Hp Hs.
      change (serve Home (followed "tasks" true) s')
        with (home (followed "tasks" true) s').
      destruct (home_reads (followed "tasks" true) s') as (Hsnd & Hty & _);
        [left; discriminate|].
      rewrite (surjective_pairing (home _ s')), Hsnd, (Hty Hp); auto. }
    unfold serve. rewrite (bool_decide_eq_true_2 _ Hm).
    unfold save_schedule, current_schedule. run.
    match goal with
    | |- context [add_saved_schedule ?name ?items] =>
        destruct (add_saved_run name items s) as [Hfull Hroom]
    end.
    destruct (le_lt_dec 5 (length (stored_schedules s))) as [Hlen|Hlen].
    + erewrite mbind_returns by exact (Hfull Hlen).
      assert (Hne : stored_schedules s <> []).
      { intros E. rewrite E in Hlen. cbn in Hlen. lia. }
      exists s. split; [reflexivity|]. split; [exact Hne|]. now apply Hfollow.
    + destruct (Hroom Hlen) as (new_id & _ & Hrun).
      erewrite mbind_returns by exact Hrun.
      eexists. split; [reflexivity|].
      assert (Hne : forall l (x : saved_schedule), l ++ [x] <> [])
        by (intros [|? ?] x; discriminate).
      split; [apply Hne|]. apply Hfollow; [exact Hprefs|apply Hne].
Qed.

End Running.

(** * Further properties of [format_hours] *)


(** X20.  On a negative finite number of hours [format_hours] does not
    raise, but the minutes it shows are not positive: the text is
    ["H hours M minutes"] with [H] at most 0 and [M] a multiple of 5
    between -60 and 0 (a rounded -60 is not carried into [H]), and
    [H + M/60] differs from the input by at most two and a half minutes
    and the rounding of the two float operations, [2^-51] hours
    together. *)
Theorem format_hours_negative (q : Q) :
  (q < 0)%Q ->
  exists H M : Z,
    format_hours (Some (Fin q))
    = Returns (str_int H +:+ " hours " +:+ str_int M +:+ " minutes") /\
    H <= 0 /\ -60 <= M <= 0 /\ (5 | M) /\
    (Qabs (inject_Z H + inject_Z M / 60 - q) <= (5 # 2) / 60 + pow2 (-51))%Q.
Proof.
  intros Hq.
  destruct (format_hours_run q) as (r & -> & Hr).
  rewrite (trunc_negative q Hq) in *.
  set (h := - Qfloor (- q)) in *.
  destruct (floor_bounds (- q)) as [Flo Fhi].
  assert (Hh : (inject_Z h == - inject_Z (Qfloor (- q)))%Q).
  { unfold h. now rewrite inject_Z_opp. }
  apply Qabs_Qle_condition in Hr.
  assert (Hr12 : -12 <= r <= 0).
  { assert (H1 : (inject_Z (-13) < inject_Z r)%Q)
      by (change (inject_Z (-13)) with (-13)%Q; lra).
    assert (H2 : (inject_Z r < inject_Z 1)%Q)
      by (change (inject_Z 1) with 1%Q; lra).
    rewrite <- Zlt_Qlt in H1, H2. lia. }
  assert (Hh0 : h <= 0).
  { assert (H1 : (inject_Z h < inject_Z 1)%Q)
      by (change (inject_Z 1) with 1%Q; lra).
    rewrite <- Zlt_Qlt in H1. lia. }
  change (pow2 (-51)) with (1 # 2251799813685248)%Q.
  unfold shown. rewrite bool_decide_eq_false_2 by lia.
  exists h, (r * 5). split; [reflexivity|].
  split; [exact Hh0|]. split; [lia|]. split; [apply Z.divide_factor_r|].
  rewrite inject_Z_mult. change (inject_Z 5) with 5%Q.
  apply Qabs_Qle_condition. unfold Qdiv. change (/ 60)%Q with (1 # 60)%Q.
  split; lra.
Qed.

(** X21.  [format_hours] returns exactly on [None] and on finite numbers:
    not-a-number makes it raise [ValueError] and an infinity
    [OverflowError], both from the conversion to [int]. *)
Theorem format_hours_returns_iff (hours : option pyfloat) :
  ((exists text, format_hours hours = Returns text) <->
   hours = None \/ exists q, hours = Some (Fin q)) /\
  format_hours (Some NaN) = Raises ValueError /\
  (forall negative, format_hours (Some (Inf negative)) = Raises OverflowError).
Proof.
  split; [|split; reflexivity].
  split.
  - intros [text H]. destruct hours as [[|b|q]|]; [discriminate..| |now left].
    right. now exists q.
  - intros [-> | [q ->]]; [now exists "N/A"|].
    destruct (format_hours_run q) as (r & -> & _). eauto.
Qed.

(** ** The properties on the sample requests *)

Import Plain.

Lemma add_task_predicted_hours_witness :
  (add_task_request Scenario.essay /\
   form_int (Request.form Scenario.essay) "complexity" 0 = Returns 15 /\
   form_float (Request.form Scenario.essay) "past_hours" (of_int 0)
   = Returns (Fin (- (2 # 1))) /\
   form_float (Request.form Scenario.essay) "min_hours" (of_int 0)
   = Returns (Fin (205 # 10))) /\
  exists r s' t,
    home Scenario.essay Store.initial = (Returns r, s') /\
    Store.tasks_file s' = Store.tasks_file Store.initial ++ [t] /\
    Task.hours t
    = max_float (Task.min_hours t)
        (predict_time (Store.task_model Store.initial) (Task.complexity t)
           (Task.past_hours t) (priority_num (Task.priority t))
           (Task.matched_subject t)) /\
    float_ge (Task.hours t) (Task.min_hours t) = true.
Proof.
  assert (H : add_task_request Scenario.essay).
  { split; [reflexivity|]. split; [reflexivity|]. repeat constructor. }
  split; [split; [exact H|repeat split; reflexivity]|].
  apply (proj1 (add_task_predicted_hours Scenario.essay Store.initial H)
           15 (Fin (- (2 # 1))) (Fin (205 # 10))); reflexivity.
Defined.

Lemma add_task_clamps_features_witness :
  (add_task_request Scenario.essay /\
   form_int (Request.form Scenario.essay) "complexity" 0 = Returns 15 /\
   form_float (Request.form Scenario.essay) "past_hours" (of_int 0)
   = Returns (Fin (- (2 # 1))) /\
   form_float (Request.form Scenario.essay) "min_hours" (of_int 0)
   = Returns (Fin (205 # 10))) /\
  exists r s' t,
    home Scenario.essay Store.initial = (Returns r, s') /\
    Store.tasks_file s' = Store.tasks_file Store.initial ++ [t] /\
    Task.complexity t
    = (if bool_decide (15 < 0) then 0 else if bool_decide (10 < 15) then 10 else 15) /\
    0 <= Task.complexity t <= 10 /\
    Task.past_hours t
    = (if float_gt (Fin (- (2 # 1))) (Fin 0) then Fin (- (2 # 1)) else Fin 0) /\
    float_ge (Task.past_hours t) (Fin 0) = true /\
    Task.min_hours t
    = (if float_gt (Fin (205 # 10)) (Fin 0) then Fin (205 # 10) else Fin 0) /\
    float_ge (Task.min_hours t) (Fin 0) = true.
Proof.
  assert (H : add_task_request Scenario.essay).
  { split; [reflexivity|]. split; [reflexivity|]. repeat constructor. }
  split; [split; [exact H|repeat split; reflexivity]|].
  apply add_task_clamps_features; [exact H|reflexivity..].
Defined.

Lemma unparsable_date_falls_back_to_now_witness :
  (add_task_request Scenario.essay /\
   strptime_ymd (form_get (Request.form Scenario.essay) "deadline" "")
   = Raises ValueError) /\
  exists r s' t,
    home Scenario.essay Store.initial = (Returns r, s') /\
    Store.tasks_file s' = Store.tasks_file Store.initial ++ [t] /\
    Task.deadline t = now (Store.clock Store.initial).
Proof.
  assert (H : add_task_request Scenario.essay).
  { split; [reflexivity|]. split; [reflexivity|]. repeat constructor. }
  split; [split; [exact H|reflexivity]|].
  apply (proj1 (unparsable_date_falls_back_to_now Scenario.essay Store.initial)
           15 (Fin (- (2 # 1))) (Fin (205 # 10)) ValueError);
    [exact H|reflexivity..].
Defined.

Lemma complete_task_retrains_per_match_witness :
  (complete_task_request Scenario.finish /\
   form_id (Request.form Scenario.finish) "complete_task_id" = Returns 1 /\
   form_int (Request.form Scenario.finish) "actual_hours" 0 = Returns 2 /\
   form_int (Request.form Scenario.finish) "actual_minutes" 0 = Returns 58 /\
   actual_of 2 58 = Returns (Fin (6755399441055744 # 2251799813685248))) /\
  exists r s',
    home Scenario.finish Scenario.essay_added = (Returns r, s') /\
    Store.task_model s'
    = retrained (Fin (6755399441055744 # 2251799813685248))
        (Store.task_model Scenario.essay_added)
        (filter (fun t => Task.id t = 1) (Store.tasks_file Scenario.essay_added)) /\
    ((forall t, t ∈ Store.tasks_file Scenario.essay_added -> Task.id t <> 1) ->
     Store.task_model s' = Store.task_model Scenario.essay_added) /\
    (forall t,
       NoDup (Task.id <$> Store.tasks_file Scenario.essay_added) ->
       t ∈ Store.tasks_file Scenario.essay_added -> Task.id t = 1 ->
       Store.task_model s'
       = retrain_model (Store.task_model Scenario.essay_added)
           (observed (Fin (6755399441055744 # 2251799813685248)) t)).
Proof.
  assert (H : complete_task_request Scenario.finish).
  { split; [reflexivity|]. split; [reflexivity|]. repeat constructor. }
  assert (Ha : actual_of 2 58 = Returns (Fin (6755399441055744 # 2251799813685248)))
    by (vm_compute; reflexivity).
  split; [split; [exact H|repeat split; try reflexivity; exact Ha]|].
  apply (complete_task_retrains_per_match _ _ 1 2 58); [exact H|reflexivity..|exact Ha].
Defined.

(** C2.  The complete-task branch marks and retrains on every stored task
    with the submitted id, without looking at its [completed] flag (the
    update-progress branch skips completed exams, and the page offers
    the completion form for open tasks only).  So the completion form of
    a task that is already completed, submitted once more, retrains the
    estimator again: after the task is added and completed the model has
    seen one example; after the same form once more it has seen two. *)
Lemma completed_task_retrained_again :
  complete_task_request Scenario.finish /\
  form_id (Request.form Scenario.finish) "complete_task_id" = Returns 1 /\
  (exists t,
     Store.tasks_file Scenario.essay_done = [t] /\
     Task.id t = 1 /\ Task.completed t = true) /\
  Store.task_model Scenario.essay_done = 1%nat /\
  Store.task_model (snd (home Scenario.finish Scenario.essay_done)) = 2%nat /\
  Store.task_model (snd (home Scenario.finish Scenario.essay_done))
  <> Store.task_model Scenario.essay_done.
Proof.
  split.
  { split; [reflexivity|]. split; [reflexivity|]. repeat constructor. }
  split; [reflexivity|]. split.
  { eexists. split; [vm_compute; reflexivity|]. split; reflexivity. }
  split; [vm_compute; reflexivity|]. split; [vm_compute; reflexivity|].
  vm_compute. discriminate.
Qed.


Lemma exam_completed_one_way_witness :
  let later := [(Home, Scenario.study); (Home, Scenario.algebra); (Generate, Scenario.sit)] in
  exists e,
    (Store.exams_file Scenario.algebra_sat !! 0%nat = Some e /\
     Exam.completed e = true) /\
    exists e',
      Store.exams_file (serve_all later Scenario.algebra_sat) !! 0%nat = Some e' /\
      Exam.id e' = Exam.id e /\
      Exam.completed e' = true.
Proof.
  cbn zeta. eexists. split.
  - split; [vm_compute; reflexivity|reflexivity].
  - apply exam_completed_one_way; [vm_compute; reflexivity|reflexivity].
Defined.

Lemma add_saved_schedule_cap_witness :
  ((5 <= length (default [] (Store.schedules_file Scenario.five_saved)))%nat /\
   exists message,
     add_saved_schedule "sixth" [] Scenario.five_saved
     = (Returns (false, message), Scenario.five_saved)) /\
  ((length (default [] (Store.schedules_file Scenario.two_saved)) < 5)%nat /\
   exists new s',
     add_saved_schedule "third" [] Scenario.two_saved = (Returns (true, "Saved."), s') /\
     fst (load_saved_schedules s')
     = Returns (default [] (Store.schedules_file Scenario.two_saved) ++ [new]) /\
     Saved.items new = []).
Proof.
  assert (H5 : (5 <= length (default [] (Store.schedules_file Scenario.five_saved)))%nat).
  { vm_compute. repeat constructor. }
  assert (H2 : (length (default [] (Store.schedules_file Scenario.two_saved)) < 5)%nat).
  { vm_compute. repeat constructor. }
  split; (split; [assumption|]).
  - exact (proj1 (add_saved_schedule_cap "sixth" [] Scenario.five_saved) H5).
  - exact (proj2 (add_saved_schedule_cap "third" [] Scenario.two_saved) H2).
Defined.

Lemma refresh_regenerates_in_place_witness :
  default [] (Store.schedules_file Scenario.two_saved) <> [] /\
  exists stored',
    Store.schedules_file (snd (refresh_all_saved_schedules Scenario.two_saved))
    = Some stored' /\
    length stored' = length (default [] (Store.schedules_file Scenario.two_saved)) /\
    forall i sch,
      default [] (Store.schedules_file Scenario.two_saved) !! i = Some sch ->
      exists sch',
        stored' !! i = Some sch' /\
        fst (current_schedule Scenario.two_saved) = Returns (Saved.items sch') /\
        Saved.updated_at sch'
        = Datetime.strftime (now (Store.clock Scenario.two_saved + i)) /\
        Saved.id sch' = Saved.id sch /\
        Saved.name sch' = Saved.name sch /\
        Saved.created_at sch' = Saved.created_at sch.
Proof.
  assert (H : default [] (Store.schedules_file Scenario.two_saved) <> []).
  { vm_compute. discriminate. }
  split; [exact H|].
  exact (proj2 (proj2 (refresh_regenerates_in_place Scenario.two_saved)) H).
Defined.


(** ** The further properties on the sample requests *)

Lemma failed_request_writes_nothing_witness :
  fst (serve Home Scenario.garbled Scenario.two_saved) = Raises ValueError /\
  snd (serve Home Scenario.garbled Scenario.two_saved) = Scenario.two_saved.
Proof.
  assert (H : fst (serve Home Scenario.garbled Scenario.two_saved) = Raises ValueError)
    by (vm_compute; reflexivity).
  split; [exact H|].
  exact (failed_request_writes_nothing Home Scenario.garbled Scenario.two_saved _ H).
Defined.

Lemma reading_requests_change_nothing_witness :
  (passive Scenario.look /\ passive (followed "tasks" true) /\
   is_Some (Store.prefs_file Scenario.profiled_saved) /\
   editing (followed "tasks" true) = false /\
   asks_saved (followed "tasks" true) = true /\
   stored_schedules Scenario.profiled_saved <> [] /\
   editing Scenario.look = false /\ asks_saved Scenario.look = false) /\
  fst (home (followed "tasks" true) Scenario.profiled_saved) = Raises TypeError /\
  exists p,
    fst (home Scenario.look Scenario.profiled_saved) = Returns (Render p) /\
    Page.all_tasks p
    = match Store.prefs_file Scenario.profiled_saved with
      | Some _ =>
          List.filter (fun t => negb (Task.completed t))
            (Store.tasks_file Scenario.profiled_saved)
      | None => []
      end /\
    Page.schedule p = None /\
    Page.saved_schedules p = stored_schedules Scenario.profiled_saved.
Proof.
  assert (H1 : passive Scenario.look) by (left; discriminate).
  assert (H2 : passive (followed "tasks" true)) by (left; discriminate).
  assert (H3 : is_Some (Store.prefs_file Scenario.profiled_saved))
    by (vm_compute; eexists; reflexivity).
  assert (H4 : stored_schedules Scenario.profiled_saved <> [])
    by (vm_compute; discriminate).
  split; [repeat split; try assumption; reflexivity|].
  split.
  - exact (proj1 (proj2 (proj1 (reading_requests_change_nothing
                                  (followed "tasks" true) Scenario.profiled_saved) H2))
             H3 eq_refl eq_refl H4).
  - apply (proj2 (proj2 (proj2 (proj1 (reading_requests_change_nothing
                                         Scenario.look Scenario.profiled_saved) H1)))).
    + intros _ _. left. reflexivity.
    + intros prefs _ Hedit. discriminate Hedit.
Defined.

Lemma complete_task_marks_matching_witness :
  (complete_task_request Scenario.finish /\
   form_id (Request.form Scenario.finish) "complete_task_id" = Returns 1 /\
   form_int (Request.form Scenario.finish) "actual_hours" 0 = Returns 2 /\
   form_int (Request.form Scenario.finish) "actual_minutes" 0 = Returns 58 /\
   actual_of 2 58 = Returns (Fin (6755399441055744 # 2251799813685248))) /\
  exists r s',
    home Scenario.finish Scenario.essay_added = (Returns r, s') /\
    length (Store.tasks_file s') = length (Store.tasks_file Scenario.essay_added) /\
    Store.exams_file s' = Store.exams_file Scenario.essay_added /\
    forall i t, Store.tasks_file Scenario.essay_added !! i = Some t ->
      exists t',
        Store.tasks_file s' !! i = Some t' /\
        (Task.id t <> 1 -> t' = t) /\
        (Task.id t = 1 ->
         Task.completed t' = true /\
         Task.actual_hours t' = Some (Fin (6755399441055744 # 2251799813685248)) /\
         (exists k, (Store.clock Scenario.essay_added <= k)%nat /\
                    Task.completion_date t' = Some (Datetime.date (now k))) /\
         Task.id t' = Task.id t /\ Task.name t' = Task.name t /\
         Task.deadline t' = Task.deadline t /\ Task.hours t' = Task.hours t /\
         Task.priority t' = Task.priority t /\
         Task.complexity t' = Task.complexity t /\
         Task.past_hours t' = Task.past_hours t /\
         Task.min_hours t' = Task.min_hours t /\
         Task.matched_subject t' = Task.matched_subject t).
Proof.
  assert (H : complete_task_request Scenario.finish).
  { split; [reflexivity|]. split; [reflexivity|]. repeat constructor. }
  assert (Ha : actual_of 2 58 = Returns (Fin (6755399441055744 # 2251799813685248)))
    by (vm_compute; reflexivity).
  split; [split; [exact H|repeat split; try reflexivity; exact Ha]|].
  refine (proj2 (complete_task_marks_matching Scenario.finish Scenario.essay_added
                   1 2 58 H _ _ _) _ Ha); reflexivity.
Defined.

Lemma stored_task_is_frozen_witness :
  let later := [(Home, Scenario.finish); (Home, Scenario.essay); (Home, Scenario.profile)] in
  exists t,
    Store.tasks_file Scenario.essay_added !! 0%nat = Some t /\
    exists t',
      Store.tasks_file (serve_all later Scenario.essay_added) !! 0%nat = Some t' /\
      Task.id t' = Task.id t /\ Task.name t' = Task.name t /\
      Task.deadline t' = Task.deadline t /\ Task.hours t' = Task.hours t /\
      Task.priority t' = Task.priority t /\
      Task.complexity t' = Task.complexity t /\
      Task.past_hours t' = Task.past_hours t /\
      Task.min_hours t' = Task.min_hours t /\
      Task.matched_subject t' = Task.matched_subject t /\
      (Task.completed t = true -> Task.completed t' = true).
Proof.
  cbn zeta. eexists. split; [vm_compute; reflexivity|].
  apply stored_task_is_frozen. vm_compute. reflexivity.
Defined.

Lemma recorded_hours_are_rounded_witness :
  (complete_task_request Scenario.finish /\
   form_id (Request.form Scenario.finish) "complete_task_id" = Returns 1 /\
   form_int (Request.form Scenario.finish) "actual_hours" 0 = Returns 2 /\
   form_int (Request.form Scenario.finish) "actual_minutes" 0 = Returns 58 /\
   Z.abs 2 <= 2 ^ 31 /\ Z.abs 58 <= 2 ^ 31) /\
  exists r s',
    home Scenario.finish Scenario.essay_added = (Returns r, s') /\
    forall t', t' ∈ Store.tasks_file s' -> Task.id t' = 1 ->
      exists q,
        Task.actual_hours t' = Some (Fin q) /\
        (Qabs (q - (inject_Z 2 + inject_Z 58 / 60)) <= 2 / 60 + (1 # 1048576))%Q.
Proof.
  assert (H : complete_task_request Scenario.finish).
  { split; [reflexivity|]. split; [reflexivity|]. repeat constructor. }
  split; [split; [exact H|repeat split; try reflexivity; vm_compute; discriminate]|].
  apply recorded_hours_are_rounded;
    [exact H|reflexivity|reflexivity|reflexivity|
     vm_compute; discriminate|vm_compute; discriminate].
Defined.

Lemma stored_tasks_well_formed_witness :
  Forall task_well_formed (Store.tasks_file Scenario.essay_done) /\
  Forall task_well_formed
    (Store.tasks_file (snd (serve Home Scenario.essay Scenario.essay_done))).
Proof.
  assert (H : Forall task_well_formed (Store.tasks_file Scenario.essay_done)).
  { vm_compute Store.tasks_file. constructor; [|constructor].
    unfold task_well_formed. cbn.
    split; [lia|]. split; [reflexivity|]. split; [reflexivity|].
    split; [reflexivity|]. split; [discriminate|].
    intros _. split; eexists; reflexivity. }
  split; [exact H|].
  exact (proj1 stored_tasks_well_formed Home Scenario.essay Scenario.essay_done H).
Defined.

Lemma stored_exams_well_formed_witness :
  Forall exam_well_formed (Store.exams_file Scenario.algebra_sat) /\
  Forall exam_well_formed
    (Store.exams_file (snd (serve Home Scenario.study Scenario.algebra_sat))).
Proof.
  assert (H : Forall exam_well_formed (Store.exams_file Scenario.algebra_sat)).
  { vm_compute Store.exams_file. constructor; [|constructor].
    unfold exam_well_formed. cbn.
    split; [reflexivity|]. split; [reflexivity|]. split; [discriminate|].
    intros _. eexists. split; reflexivity. }
  split; [exact H|].
  exact (proj1 stored_exams_well_formed Home Scenario.study Scenario.algebra_sat H).
Defined.

Lemma stored_exam_is_frozen_witness :
  let later := [(Home, Scenario.study); (Home, Scenario.sit); (Home, Scenario.algebra)] in
  exists e,
    Store.exams_file Scenario.algebra_added !! 0%nat = Some e /\
    exists e',
      Store.exams_file (serve_all later Scenario.algebra_added) !! 0%nat = Some e' /\
      Exam.id e' = Exam.id e /\ Exam.subject_name e' = Exam.subject_name e /\
      Exam.exam_name e' = Exam.exam_name e /\ Exam.exam_date e' = Exam.exam_date e /\
      Exam.desired_grade e' = Exam.desired_grade e /\
      Exam.confidence e' = Exam.confidence e /\
      Exam.predicted_hours e' = Exam.predicted_hours e.
Proof.
  cbn zeta. eexists. split; [vm_compute; reflexivity|].
  apply stored_exam_is_frozen. vm_compute. reflexivity.
Defined.

Lemma complete_exam_marks_matching_witness :
  (complete_exam_request Scenario.sit /\
   form_id (Request.form Scenario.sit) "complete_exam_id" = Returns 1 /\
   form_float (Request.form Scenario.sit) "exam_actual_hours" (Fin 0)
   = Returns (Fin (12 # 1))) /\
  exists r s',
    home Scenario.sit Scenario.algebra_sat = (Returns r, s') /\
    length (Store.exams_file s') = length (Store.exams_file Scenario.algebra_sat) /\
    Store.tasks_file s' = Store.tasks_file Scenario.algebra_sat /\
    Store.task_model s' = Store.task_model Scenario.algebra_sat /\
    forall i e, Store.exams_file Scenario.algebra_sat !! i = Some e ->
      exists e',
        Store.exams_file s' !! i = Some e' /\
        (Exam.id e <> 1 -> e' = e) /\
        (Exam.id e = 1 ->
         Exam.completed e' = true /\
         Exam.actual_hours_spent e'
         = Some (if float_gt (Fin (12 # 1)) (Fin 0) then Fin (12 # 1) else Fin 0) /\
         Exam.progress_hours e' = Exam.progress_hours e /\
         Exam.id e' = Exam.id e /\ Exam.subject_name e' = Exam.subject_name e /\
         Exam.exam_name e' = Exam.exam_name e /\
         Exam.exam_date e' = Exam.exam_date e /\
         Exam.desired_grade e' = Exam.desired_grade e /\
         Exam.confidence e' = Exam.confidence e /\
         Exam.predicted_hours e' = Exam.predicted_hours e).
Proof.
  assert (H : complete_exam_request Scenario.sit).
  { split; [reflexivity|]. split; [reflexivity|]. repeat constructor. }
  split; [split; [exact H|repeat split; reflexivity]|].
  apply complete_exam_marks_matching; [exact H|reflexivity..].
Defined.

Lemma add_exam_stores_record_witness :
  (add_exam_request Scenario.algebra /\
   form_int (Request.form Scenario.algebra) "exam_confidence" 3 = Returns 2 /\
   form_float (Request.form Scenario.algebra) "exam_progress" (Fin 0)
   = Returns (Fin (15 # 10))) /\
  exists r s' x,
    home Scenario.algebra Scenario.essay_done = (Returns r, s') /\
    Store.exams_file s' = Store.exams_file Scenario.essay_done ++ [x] /\
    Store.tasks_file s' = Store.tasks_file Scenario.essay_done /\
    Store.task_model s' = Store.task_model Scenario.essay_done /\
    Exam.confidence x = 2 /\
    Exam.progress_hours x
    = (if float_gt (Fin (15 # 10)) (Fin 0) then Fin (15 # 10) else Fin 0) /\
    Exam.completed x = false /\
    Exam.actual_hours_spent x = None /\
    Exam.predicted_hours x = Fin 0 /\
    Exam.exam_name x = strip (form_get (Request.form Scenario.algebra) "exam_name" "") /\
    Exam.subject_name x = form_get (Request.form Scenario.algebra) "exam_subject" "" /\
    Exam.desired_grade x = form_get (Request.form Scenario.algebra) "exam_desired" "B".
Proof.
  assert (H : add_exam_request Scenario.algebra).
  { split; [reflexivity|]. split; [reflexivity|]. repeat constructor. }
  split; [split; [exact H|repeat split; reflexivity]|].
  apply add_exam_stores_record; [exact H|reflexivity..].
Defined.

Lemma save_prefs_replaces_subjects_witness :
  (save_prefs_request Scenario.profile /\
   form_int (Request.form Scenario.profile) "num_subjects" 1 = Returns 2 /\
   (forall i, 1 <= i <= 2 ->
      exists k,
        form_int (Request.form Scenario.profile) ("difficulty_" +:+ str_int i) 5
        = Returns k)) /\
  exists r s',
    home Scenario.profile Scenario.essay_done = (Returns r, s') /\
    Store.prefs_file s'
    = Some (Prefs.make (Fin (4 # 1)) (Fin (- (1 # 1))) (Fin (65 # 10)) 2) /\
    length (Store.subjects_file s') = Z.to_nat 2 /\
    (forall k sub, Store.subjects_file s' !! k = Some sub ->
       exists dif,
         form_int (Request.form Scenario.profile)
           ("difficulty_" +:+ str_int (Z.of_nat k + 1)) 5 = Returns dif /\
         sub = submitted_subject (Request.form Scenario.profile) (Z.of_nat k + 1) dif) /\
    Store.tasks_file s' = Store.tasks_file Scenario.essay_done /\
    Store.exams_file s' = Store.exams_file Scenario.essay_done /\
    Store.task_model s' = Store.task_model Scenario.essay_done.
Proof.
  assert (H : save_prefs_request Scenario.profile).
  { split; [reflexivity|]. split; [reflexivity|]. constructor. }
  assert (Hd : forall i, 1 <= i <= 2 ->
            exists k,
              form_int (Request.form Scenario.profile) ("difficulty_" +:+ str_int i) 5
              = Returns k).
  { intros i Hi. assert (Hcase : i = 1 \/ i = 2) by lia.
    destruct Hcase as [-> | ->]; eexists; reflexivity. }
  split; [split; [exact H|split; [reflexivity|exact Hd]]|].
  apply save_prefs_replaces_subjects; [exact H|reflexivity|exact Hd|reflexivity..].
Defined.

Lemma saved_schedules_stay_capped_witness :
  ((5 <= 5)%nat /\ (length (stored_schedules Scenario.five_saved) <= 5)%nat) /\
  (length (stored_schedules
             (snd (serve SaveSchedule (Scenario.keep "f") Scenario.five_saved))) <= 5)%nat.
Proof.
  assert (H : (length (stored_schedules Scenario.five_saved) <= 5)%nat).
  { vm_compute. repeat constructor. }
  split; [split; [constructor|exact H]|].
  apply (proj1 saved_schedules_stay_capped 5%nat); [constructor|exact H].
Defined.

Lemma saved_schedule_ids_distinct_witness :
  NoDup (Saved.id <$> stored_schedules Scenario.two_saved) /\
  NoDup (Saved.id <$>
         stored_schedules (snd (serve DeleteSchedule (Scenario.drop "1") Scenario.two_saved))).
Proof.
  assert (H : NoDup (Saved.id <$> stored_schedules Scenario.two_saved)).
  { assert (E : Saved.id <$> stored_schedules Scenario.two_saved = [1; 2])
      by (vm_compute; reflexivity).
    rewrite E. apply NoDup_cons. split; [|apply NoDup_singleton].
    intros Hin. apply list_elem_of_singleton in Hin. discriminate. }
  split; [exact H|].
  exact (proj1 saved_schedule_ids_distinct DeleteSchedule (Scenario.drop "1")
           Scenario.two_saved H).
Defined.

Lemma delete_schedule_removes_id_witness :
  (Request.method (Scenario.drop "1") = "POST" /\
   Request.form (Scenario.drop "1") !! "schedule_id" = Some "1" /\
   truthy "1" = true /\ int_of_str "1" = Returns 1) /\
  exists r s',
    serve DeleteSchedule (Scenario.drop "1") Scenario.two_saved = (Returns r, s') /\
    stored_schedules s'
    = filter (fun sch => Saved.id sch <> 1) (stored_schedules Scenario.two_saved) /\
    (forall sch, sch ∈ stored_schedules s' <->
                 sch ∈ stored_schedules Scenario.two_saved /\ Saved.id sch <> 1) /\
    Store.tasks_file s' = Store.tasks_file Scenario.two_saved /\
    Store.exams_file s' = Store.exams_file Scenario.two_saved /\
    Store.task_model s' = Store.task_model Scenario.two_saved /\
    Store.clock s' = Store.clock Scenario.two_saved.
Proof.
  split; [repeat split; reflexivity|].
  apply (delete_schedule_removes_id (Scenario.drop "1") Scenario.two_saved "1" 1);
    reflexivity.
Defined.

Lemma delete_schedule_edge_cases_witness :
  (Request.method (Scenario.drop "first") = "POST" /\
   Request.form (Scenario.drop "first") !! "schedule_id" = Some "first" /\
   truthy "first" = true /\ int_of_str "first" = Raises ValueError /\
   stored_schedules Scenario.two_saved <> []) /\
  serve DeleteSchedule (Scenario.drop "first") Scenario.two_saved
  = (Raises ValueError, Scenario.two_saved).
Proof.
  assert (H : stored_schedules Scenario.two_saved <> []) by (vm_compute; discriminate).
  split; [repeat split; try reflexivity; exact H|].
  apply (proj1 (proj2 (delete_schedule_edge_cases (Scenario.drop "first")
                         Scenario.two_saved eq_refl)) "first" ValueError);
    [reflexivity..|exact H].
Defined.

Lemma save_schedule_appends_current_witness :
  (Request.method (Scenario.keep "  plan b ") = "POST" /\
   (length (stored_schedules Scenario.two_saved) < 5)%nat) /\
  exists s' new,
    serve SaveSchedule (Scenario.keep "  plan b ") Scenario.two_saved
    = (Returns (Redirect "tasks" true), s') /\
    stored_schedules s' = stored_schedules Scenario.two_saved ++ [new] /\
    Saved.items new = regenerated Scenario.two_saved /\
    Saved.name new
    = (if truthy (strip (form_get (Request.form (Scenario.keep "  plan b "))
                           "schedule_name" ""))
       then strip (form_get (Request.form (Scenario.keep "  plan b "))
                     "schedule_name" "")
       else "Saved Schedule") /\
    Forall (fun sch => Saved.id sch < Saved.id new) (stored_schedules Scenario.two_saved) /\
    Store.tasks_file s' = Store.tasks_file Scenario.two_saved /\
    Store.exams_file s' = Store.exams_file Scenario.two_saved /\
    Store.task_model s' = Store.task_model Scenario.two_saved.
Proof.
  assert (H : (length (stored_schedules Scenario.two_saved) < 5)%nat).
  { vm_compute. repeat constructor. }
  split; [split; [reflexivity|exact H]|].
  exact (proj2 (save_schedule_appends_current (Scenario.keep "  plan b ")
                  Scenario.two_saved eq_refl) H).
Defined.

Lemma redirect_leaves_schedules_in_sync_witness :
  let after := snd (home Scenario.algebra Scenario.two_saved) in
  home Scenario.algebra Scenario.two_saved = (Returns (Redirect "exams" false), after) /\
  in_sync after.
Proof.
  cbn zeta.
  assert (H : home Scenario.algebra Scenario.two_saved
              = (Returns (Redirect "exams" false),
                 snd (home Scenario.algebra Scenario.two_saved))).
  { vm_compute. reflexivity. }
  split; [exact H|].
  exact (redirect_leaves_schedules_in_sync _ _ _ _ _ H).
Defined.


Lemma format_hours_negative_witness :
  (- (99 # 100) < 0)%Q /\
  exists H M : Z,
    format_hours (Some (Fin (- (99 # 100))))
    = Returns (str_int H +:+ " hours " +:+ str_int M +:+ " minutes") /\
    H <= 0 /\ -60 <= M <= 0 /\ (5 | M) /\
    (Qabs (inject_Z H + inject_Z M / 60 - - (99 # 100))
     <= (5 # 2) / 60 + pow2 (-51))%Q.
Proof.
  split; [reflexivity|]. apply format_hours_negative. reflexivity.
Defined.

Lemma format_hours_returns_iff_witness :
  (Some (Fin (7 # 4)) = None \/ exists q, Some (Fin (7 # 4)) = Some (Fin q)) /\
  exists text, format_hours (Some (Fin (7 # 4))) = Returns text.
Proof.
  assert (H : Some (Fin (7 # 4)) = None \/ exists q, Some (Fin (7 # 4)) = Some (Fin q)).
  { right. now exists (7 # 4). }
  split; [exact H|].
  exact (proj2 (proj1 (format_hours_returns_iff (Some (Fin (7 # 4))))) H).
Defined.

Lemma add_task_stores_record_witness :
  (add_task_request Scenario.essay /\
   form_int (Request.form Scenario.essay) "complexity" 0 = Returns 15 /\
   form_float (Request.form Scenario.essay) "past_hours" (of_int 0)
   = Returns (Fin (- (2 # 1))) /\
   form_float (Request.form Scenario.essay) "min_hours" (of_int 0)
   = Returns (Fin (205 # 10))) /\
  exists r s' t,
    home Scenario.essay Scenario.algebra_sat = (Returns r, s') /\
    Store.tasks_file s' = Store.tasks_file Scenario.algebra_sat ++ [t] /\
    Task.name t = strip (form_get (Request.form Scenario.essay) "task" "") /\
    Task.priority t = form_get (Request.form Scenario.essay) "priority" "medium" /\
    Task.completed t = false /\
    Task.actual_hours t = None /\ Task.completion_date t = None /\
    (forall sub, Task.matched_subject t = Some sub ->
       sub ∈ Store.subjects_file Scenario.algebra_sat /\
       Request.form Scenario.essay !! "subject_name" = Some (Subject.name sub)) /\
    (Task.matched_subject t = None ->
     forall sub, sub ∈ Store.subjects_file Scenario.algebra_sat ->
       Request.form Scenario.essay !! "subject_name" <> Some (Subject.name sub)) /\
    Store.exams_file s' = Store.exams_file Scenario.algebra_sat /\
    Store.prefs_file s' = Store.prefs_file Scenario.algebra_sat /\
    Store.subjects_file s' = Store.subjects_file Scenario.algebra_sat /\
    Store.task_model s' = Store.task_model Scenario.algebra_sat.
Proof.
  assert (H : add_task_request Scenario.essay).
  { split; [reflexivity|]. split; [reflexivity|]. repeat constructor. }
  split; [split; [exact H|repeat split; reflexivity]|].
  apply (add_task_stores_record _ _ 15 (Fin (- (2 # 1))) (Fin (205 # 10)));
    [exact H|reflexivity..].
Defined.

Lemma requests_write_their_own_files_witness :
  (~ (Home = Home /\ save_prefs_request Scenario.essay) /\
   ~ (Home = Home /\
      (add_exam_request Scenario.essay \/ update_exam_request Scenario.essay \/
       complete_exam_request Scenario.essay)) /\
   ~ (Home = Home /\ complete_task_request Scenario.essay)) /\
  (Store.prefs_file (snd (serve Home Scenario.essay Scenario.algebra_sat))
   = Store.prefs_file Scenario.algebra_sat /\
   Store.subjects_file (snd (serve Home Scenario.essay Scenario.algebra_sat))
   = Store.subjects_file Scenario.algebra_sat) /\
  Store.exams_file (snd (serve Home Scenario.essay Scenario.algebra_sat))
  = Store.exams_file Scenario.algebra_sat /\
  Store.task_model (snd (serve Home Scenario.essay Scenario.algebra_sat))
  = Store.task_model Scenario.algebra_sat.
Proof.
  assert (H1 : ~ (Home = Home /\ save_prefs_request Scenario.essay)).
  { intros [_ (_ & H & _)]. discriminate H. }
  assert (H2 : ~ (Home = Home /\
                  (add_exam_request Scenario.essay \/
                   update_exam_request Scenario.essay \/
                   complete_exam_request Scenario.essay))).
  { intros [_ [(_ & H & _) | [(_ & H & _) | (_ & H & _)]]]; discriminate H. }
  assert (H3 : ~ (Home = Home /\ complete_task_request Scenario.essay)).
  { intros [_ (_ & H & _)]. discriminate H. }
  split; [exact (conj H1 (conj H2 H3))|].
  pose proof (requests_write_their_own_files Home Scenario.essay Scenario.algebra_sat)
    as (Ha & _ & Hb & Hc).
  exact (conj (Ha H1) (conj (Hb H2) (Hc H3))).
Defined.

Lemma saved_schedules_never_displayed_witness :
  (Request.method (Scenario.keep "week 1") = "POST" /\
   is_Some (Store.prefs_file Scenario.profiled)) /\
  exists s',
    serve SaveSchedule (Scenario.keep "week 1") Scenario.profiled
    = (Returns (Redirect "tasks" true), s') /\
    stored_schedules s' <> [] /\
    serve Home (followed "tasks" true) s' = (Raises TypeError, s').
Proof.
  assert (H : is_Some (Store.prefs_file Scenario.profiled))
    by (vm_compute; eexists; reflexivity).
  split; [split; [reflexivity|exact H]|].
  exact (proj2 saved_schedules_never_displayed (Scenario.keep "week 1")
           Scenario.profiled eq_refl H).
Defined.
